(** * Realtime synchronisation layer of the collaborative whiteboard

    A shallow embedding of the Socket.IO server of the API package
    (handshake middleware and the per-connection message handlers), of the
    browser-side [SocketManager] and of the remote-cursor bookkeeping of
    [CanvasPage], together with the properties the specification states
    about them; then the REST routes next to it ([authenticateToken], the
    board, share, event, page and asset routes), the board page's use of
    the socket manager and the page sizes, with properties read off the
    code.

    Conventions.
    - A JavaScript value that the code only tests for truthiness or splices
      into a room name is an [option string]: [None] is [undefined].
    - The Prisma client is a record of tables; [findUnique] is [find] on the
      table, [boardEvent.create] appends a row or rejects.
    - The Socket.IO adapter is a finite map from room names to sets of socket
      ids; [socket.to(room).emit] reads it when it is called.
    - An [async] handler runs up to its [await]; what follows the [await] is
      a suspended task that is resumed by a later step of the event loop.
    - What a listener throws, and the rejection of the promise an [async]
      listener returns, is caught nowhere in the socket code: the Node
      process ends ([Exit]) and every socket is gone.  Turns after an
      [Exit] are those of a process started again on the same database.
    - The ids in a message ([boardId], [pageId]) are strings or absent;
      other JSON values in their place, and the room that Socket.IO keeps
      for each socket under the socket's own id, are left out.  The
      handlers address [board:] and [page:] rooms only. *)

From stdpp Require Import gmap strings list fin_maps sorting.
From Stdlib Require Import ZArith.

Local Open Scope string_scope.
Local Open Scope list_scope.
Local Open Scope nat_scope.

(** ** JavaScript values *)

(** [if (v)] on a string-or-undefined value: the empty string is falsy. *)
Definition truthy (v : option string) : bool :=
  match v with
  | Some (String _ _) => true
  | _ => false
  end.

(** A template literal [`${v}`]: [undefined] prints as the word. *)
Definition interpolate (v : option string) : string :=
  match v with
  | Some s => s
  | None => "undefined"
  end.

(** [a === b] where both sides are a string or [undefined]. *)
Definition strict_eq (a b : option string) : bool :=
  match a, b with
  | Some x, Some y => String.eqb x y
  | None, None => true
  | _, _ => false
  end.

(** [a || b] on string-or-undefined operands. *)
Definition js_or (a b : option string) : option string :=
  if truthy a then a else b.

Definition board_room (boardId : option string) : string :=
  "board:" +:+ interpolate boardId.

Definition page_room (pageId : option string) : string :=
  "page:" +:+ interpolate pageId.

(** ** Messages *)

(** The legacy wrapped event: the handler reads [event.type] only. *)
Record CanvasEv := {
  ce_type : option string;
  ce_fields : list (string * string)
}.

(** The object a client sends with a message.  The handlers destructure
    [boardId], [pageId] and (legacy) [event]; every other field travels
    untouched. *)
Record Data := {
  d_boardId : option string;
  d_pageId : option string;
  d_event : option CanvasEv;
  d_fields : list (string * string)
}.

(** What goes out on the wire with an event name. *)
Inductive Wire :=
| WData (d : Data)
| WEvent (e : CanvasEv)
| WCursor (d : Data) (socketId : string) (userName : option string)
| WText (s : string).

(** ** Database (Prisma schema of the migrations) *)

Inductive MembershipRole := OWNER | EDITOR | VIEWER.

Record User := {
  user_id : string;
  user_email : string;
  user_name : option string
}.

Record Board := {
  board_id : string;
  board_ownerId : string
}.

Record Membership := {
  mem_userId : string;
  mem_boardId : string;
  mem_role : MembershipRole
}.

Record ShareLink := {
  link_token : string;
  link_boardId : string;
  link_canEdit : bool
}.

Record BoardPage := {
  bp_id : string;
  bp_boardId : string
}.

(** The JSONB [payload] column holds either the whole message or the
    wrapped legacy event. *)
Inductive Json :=
| JData (d : Data)
| JEvent (e : CanvasEv).

(** A row of [board_events]; [id] and [createdAt] are filled in by the
    database and are not read by the code modelled here. *)
Record BoardEvent := {
  ev_boardId : string;
  ev_pageId : option string;
  ev_type : string;
  ev_payload : Json
}.

Record Database := {
  users : list User;
  boards : list Board;
  memberships : list Membership;
  shareLinks : list ShareLink;
  boardPages : list BoardPage;
  boardEvents : list BoardEvent
}.

Definition find_user (db : Database) (id : string) : option User :=
  find (fun u => String.eqb (user_id u) id) (users db).

Definition find_board (db : Database) (id : string) : option Board :=
  find (fun b => String.eqb (board_id b) id) (boards db).

(** [include: { memberships: true }] *)
Definition board_memberships (db : Database) (id : string) : list Membership :=
  filter (fun m => mem_boardId m = id) (memberships db).

Definition find_shareLink (db : Database) (token : string) : option ShareLink :=
  find (fun l => String.eqb (link_token l) token) (shareLinks db).

Definition find_page (db : Database) (id : string) : option BoardPage :=
  find (fun p => String.eqb (bp_id p) id) (boardPages db).

(** The argument of [prisma.boardEvent.create]: [boardId] and [type] may be
    [undefined] in the call although the columns are NOT NULL. *)
Record CreateArgs := {
  ca_boardId : option string;
  ca_pageId : option string;
  ca_type : option string;
  ca_payload : Json
}.

(** The row the database stores for a call, when the call is acceptable:
    the required columns are present, [boardId] references a board and
    [pageId], when not NULL, references a page (the two foreign keys of
    [board_events]). *)
Definition create_row (db : Database) (a : CreateArgs) : option BoardEvent :=
  match ca_boardId a, ca_type a with
  | Some b, Some t =>
      match find_board db b with
      | None => None
      | Some _ =>
          let row := {| ev_boardId := b; ev_pageId := ca_pageId a;
                        ev_type := t; ev_payload := ca_payload a |} in
          match ca_pageId a with
          | None => Some row
          | Some p =>
              match find_page db p with
              | Some _ => Some row
              | None => None
              end
          end
      end
  | _, _ => None
  end.

Definition append_event (db : Database) (e : BoardEvent) : Database :=
  {| users := users db; boards := boards db; memberships := memberships db;
     shareLinks := shareLinks db; boardPages := boardPages db;
     boardEvents := boardEvents db ++ [e] |}.

(** ** Permission resolution *)

Definition role_can_edit (r : option MembershipRole) : bool :=
  match r with
  | Some OWNER | Some EDITOR => true
  | _ => false
  end.

(** [isOwner || membershipRole === 'OWNER' || membershipRole === 'EDITOR'] *)
Definition resolve (isOwner : bool) (membershipRole : option MembershipRole) : bool :=
  isOwner || role_can_edit membershipRole.

(** ** Connections *)

(** [socket.data] *)
Record SocketData := {
  sd_userId : option string;
  sd_boardId : string;
  sd_pageId : option string;
  sd_canEdit : bool;
  sd_userName : option string
}.

Definition set_pageId (d : SocketData) (p : option string) : SocketData :=
  {| sd_userId := sd_userId d; sd_boardId := sd_boardId d; sd_pageId := p;
     sd_canEdit := sd_canEdit d; sd_userName := sd_userName d |}.

(** [socket.handshake.auth] *)
Record HandshakeAuth := {
  auth_token : option string;
  auth_shareToken : option string;
  auth_boardId : option string;
  auth_pageId : option string
}.

(** Outcome of the middleware: [next(new Error(msg))] or [next()] with
    [socket.data] filled in. *)
Inductive Next :=
| Refused (msg : string)
| Accepted (d : SocketData).

(** ** Adapter rooms *)

Definition members (rooms : gmap string (gset string)) (room : string) : gset string :=
  default ∅ (rooms !! room).

Definition join (sid room : string) (rooms : gmap string (gset string))
  : gmap string (gset string) :=
  <[room := {[sid]} ∪ members rooms room]> rooms.

(** The adapter drops a room when its last member leaves. *)
Definition leave (sid room : string) (rooms : gmap string (gset string))
  : gmap string (gset string) :=
  match rooms !! room with
  | None => rooms
  | Some s =>
      let s' := s ∖ {[sid]} in
      if decide (s' = ∅) then delete room rooms else <[room := s']> rooms
  end.

(** On disconnect the socket is taken out of every room. *)
Definition leave_all (sid : string) (rooms : gmap string (gset string))
  : gmap string (gset string) :=
  omap (fun s => let s' := s ∖ {[sid]} in
                 if decide (s' = ∅) then None else Some s') rooms.

(** Receivers of [socket.to(room).emit(...)] issued by [sid]. *)
Definition recipients (rooms : gmap string (gset string)) (sid room : string)
  : gset string :=
  members rooms room ∖ {[sid]}.

(** ** Server *)

(** Something the server did that a client or the database can observe,
    in the order it happened.  A [Broadcast] records the receivers the
    adapter selected when [emit] was called.  [Exit]: an exception or a
    rejected promise that nothing catches ended the Node process. *)
Inductive Effect :=
| Refuse (sid msg : string)
| Joined (sid room : string)
| Left (sid room : string)
| Emit (sid ev : string) (w : Wire)
| Broadcast (sid room ev : string) (w : Wire) (to : gset string)
| Created (row : BoardEvent)
| Exit.

(** The part of an [async] handler that follows its
    [await prisma.boardEvent.create(...)], as the variables it closes
    over.  [Orphan]: a [create] that was on its way to the database when
    the process ended; nothing waits for it any more. *)
Inductive Task :=
| ShapeTask (sid eventName : string) (data : Data)
| CanvasTask (sid : string) (data : Data) (event : CanvasEv)
| Orphan (args : CreateArgs).

Inductive Settled := InFlight | Resolved | Rejected.

Record Server := {
  srv_db : Database;
  srv_sockets : gmap string SocketData;
  srv_rooms : gmap string (gset string);
  srv_tasks : gmap nat (Task * Settled);
  srv_next : nat;
  srv_trace : list Effect
}.

Definition boot (db : Database) : Server :=
  {| srv_db := db; srv_sockets := ∅; srv_rooms := ∅; srv_tasks := ∅;
     srv_next := 0; srv_trace := [] |}.

Definition with_trace (s : Server) (es : list Effect) : Server :=
  {| srv_db := srv_db s; srv_sockets := srv_sockets s; srv_rooms := srv_rooms s;
     srv_tasks := srv_tasks s; srv_next := srv_next s;
     srv_trace := srv_trace s ++ es |}.

Definition with_rooms (s : Server) (r : gmap string (gset string)) : Server :=
  {| srv_db := srv_db s; srv_sockets := srv_sockets s; srv_rooms := r;
     srv_tasks := srv_tasks s; srv_next := srv_next s;
     srv_trace := srv_trace s |}.

Definition with_sockets (s : Server) (m : gmap string SocketData) : Server :=
  {| srv_db := srv_db s; srv_sockets := m; srv_rooms := srv_rooms s;
     srv_tasks := srv_tasks s; srv_next := srv_next s;
     srv_trace := srv_trace s |}.

Definition with_tasks (s : Server) (t : gmap nat (Task * Settled)) : Server :=
  {| srv_db := srv_db s; srv_sockets := srv_sockets s; srv_rooms := srv_rooms s;
     srv_tasks := t; srv_next := srv_next s;
     srv_trace := srv_trace s |}.

Definition with_db (s : Server) (d : Database) : Server :=
  {| srv_db := d; srv_sockets := srv_sockets s; srv_rooms := srv_rooms s;
     srv_tasks := srv_tasks s; srv_next := srv_next s;
     srv_trace := srv_trace s |}.

(** [socket.emit(ev, w)] *)
Definition emit (s : Server) (sid ev : string) (w : Wire) : Server :=
  with_trace s [Emit sid ev w].

(** [socket.to(room).emit(ev, w)] *)
Definition to_emit (s : Server) (sid room ev : string) (w : Wire) : Server :=
  with_trace s [Broadcast sid room ev w (recipients (srv_rooms s) sid room)].

(** [socket.join(room)] *)
Definition socket_join (s : Server) (sid room : string) : Server :=
  with_trace (with_rooms s (join sid room (srv_rooms s))) [Joined sid room].

(** [socket.leave(room)] *)
Definition socket_leave (s : Server) (sid room : string) : Server :=
  with_trace (with_rooms s (leave sid room (srv_rooms s))) [Left sid room].

(** Suspend at [await prisma.boardEvent.create(...)]. *)
Definition suspend (s : Server) (t : Task) : Server :=
  {| srv_db := srv_db s; srv_sockets := srv_sockets s; srv_rooms := srv_rooms s;
     srv_tasks := <[srv_next s := (t, InFlight)]> (srv_tasks s);
     srv_next := S (srv_next s);
     srv_trace := srv_trace s |}.

Definition task_args (t : Task) : CreateArgs :=
  match t with
  | ShapeTask _ eventName data =>
      {| ca_boardId := d_boardId data; ca_pageId := d_pageId data;
         ca_type := Some eventName; ca_payload := JData data |}
  | CanvasTask _ data event =>
      {| ca_boardId := d_boardId data;
         ca_pageId := if truthy (d_pageId data) then d_pageId data else None;
         ca_type := ce_type event; ca_payload := JEvent event |}
  | Orphan args => args
  end.

(** The statements after the [await]. *)
Definition task_resume (s : Server) (t : Task) : Server :=
  match t with
  | ShapeTask sid eventName data =>
      to_emit s sid (page_room (d_pageId data)) eventName (WData data)
  | CanvasTask sid data event =>
      let room := if truthy (d_pageId data) then page_room (d_pageId data)
                  else board_room (d_boardId data) in
      to_emit s sid room "canvas-event" (WEvent event)
  | Orphan _ => s
  end.

(** What the end of the process leaves of the pending [create] calls: the
    ones still in flight may yet reach the table, the handlers that
    awaited them are gone. *)
Definition orphaned (tasks : gmap nat (Task * Settled)) : gmap nat (Task * Settled) :=
  omap (fun p => match snd p with
                 | InFlight => Some (Orphan (task_args (fst p)), InFlight)
                 | _ => None
                 end) tasks.

(** An exception thrown in a listener, or the rejection of the promise an
    [async] listener returns, is caught nowhere (no [try] in the socket
    handlers, no [uncaughtException] or [unhandledRejection] hook): Node
    prints it and exits.  Every socket goes with the process, and with
    the sockets the adapter's rooms; the database stays.  A turn after
    [Exit] is a turn of a process started afresh on the same database. *)
Definition crash (s : Server) : Server :=
  {| srv_db := srv_db s; srv_sockets := ∅; srv_rooms := ∅;
     srv_tasks := orphaned (srv_tasks s); srv_next := srv_next s;
     srv_trace := srv_trace s ++ [Exit] |}.

Section Handlers.

(** [jwt.verify(token, JWT_SECRET)] followed by reading [decoded.userId]:
    the subject of a token that verifies at the time of the handshake,
    [None] when verification throws. *)
Variable jwt_verify : string -> option string.

(** The [io.use] middleware.  Every exception inside it is caught and
    turned into ['Authentication failed']. *)
Definition io_use (db : Database) (a : HandshakeAuth) : Next :=
  match auth_boardId a with
  | Some (String _ _ as boardId) =>
      match auth_token a with
      | Some (String _ _ as token) =>
          match jwt_verify token with
          | None => Refused "Authentication failed"
          | Some sub =>
              match find_user db sub with
              | None => Refused "User not found"
              | Some user =>
                  let userId := user_id user in
                  let userName := js_or (user_name user) (Some (user_email user)) in
                  match find_board db boardId with
                  | None => Refused "Board not found"
                  | Some board =>
                      let isOwner := String.eqb (board_ownerId board) userId in
                      let membership :=
                        find (fun m => String.eqb (mem_userId m) userId)
                             (board_memberships db (board_id board)) in
                      let membershipRole := mem_role <$> membership in
                      Accepted {| sd_userId := Some userId;
                                  sd_boardId := boardId;
                                  sd_pageId := auth_pageId a;
                                  sd_canEdit := resolve isOwner membershipRole;
                                  sd_userName := userName |}
                  end
              end
          end
      | _ =>
          match auth_shareToken a with
          | Some (String _ _ as shareToken) =>
              match find_shareLink db shareToken with
              | None => Refused "Invalid share token"
              | Some shareLink =>
                  if String.eqb (link_boardId shareLink) boardId then
                    Accepted {| sd_userId := None;
                                sd_boardId := boardId;
                                sd_pageId := auth_pageId a;
                                sd_canEdit := link_canEdit shareLink;
                                sd_userName := Some "Anonymous User" |}
                  else Refused "Invalid share token"
              end
          | _ => Refused "Authentication required"
          end
      end
  | _ => Refused "Board ID required"
  end.

(** The middleware's effect on the server: refusal leaves no socket
    behind, acceptance registers [socket.data] and joins the rooms. *)
Definition connect (s : Server) (sid : string) (a : HandshakeAuth) : Server :=
  match io_use (srv_db s) a with
  | Refused msg => with_trace s [Refuse sid msg]
  | Accepted d =>
      let s1 := with_sockets s (<[sid := d]> (srv_sockets s)) in
      let s2 := socket_join s1 sid (board_room (Some (sd_boardId d))) in
      if truthy (sd_pageId d) then socket_join s2 sid (page_room (sd_pageId d))
      else s2
  end.

(** [socket.on('page:switch', ...)] *)
Definition on_page_switch (s : Server) (sid : string) (sd : SocketData)
    (data : Data) : Server :=
  if negb (strict_eq (Some (sd_boardId sd)) (d_boardId data)) then
    emit s sid "error" (WText "Access denied")
  else
    let s1 := if truthy (sd_pageId sd)
              then socket_leave s sid (page_room (sd_pageId sd)) else s in
    let s2 := with_sockets s1
                (<[sid := set_pageId sd (d_pageId data)]> (srv_sockets s1)) in
    socket_join s2 sid (page_room (d_pageId data)).

(** [handleShapeEvent(eventName, data)], up to its [await]. *)
Definition handleShapeEvent (s : Server) (sid : string) (sd : SocketData)
    (eventName : string) (data : Data) : Server :=
  if negb (sd_canEdit sd) then
    emit s sid "error" (WText "Edit permission denied")
  else if negb (truthy (d_pageId data)) then
    emit s sid "error" (WText "Page ID required")
  else suspend s (ShapeTask sid eventName data).

(** [socket.on('presence:cursor', ...)] *)
Definition on_presence_cursor (s : Server) (sid : string) (sd : SocketData)
    (data : Data) : Server :=
  if negb (truthy (d_pageId data)) then s
  else to_emit s sid (page_room (d_pageId data)) "presence:cursor"
         (WCursor data sid (sd_userName sd)).

(** [socket.on('page:settings:update', ...)] *)
Definition on_page_settings_update (s : Server) (sid : string) (sd : SocketData)
    (data : Data) : Server :=
  if negb (sd_canEdit sd) then
    emit s sid "error" (WText "Edit permission denied")
  else if negb (truthy (d_pageId data)) then
    emit s sid "error" (WText "Page ID required")
  else to_emit s sid (page_room (d_pageId data)) "page:settings:update" (WData data).

(** [socket.on('asset:add', ...)] *)
Definition on_asset_add (s : Server) (sid : string) (sd : SocketData)
    (data : Data) : Server :=
  if negb (sd_canEdit sd) then
    emit s sid "error" (WText "Edit permission denied")
  else to_emit s sid (board_room (d_boardId data)) "asset:add" (WData data).

(** [socket.on('canvas-event', ...)], up to its [await].  Reading
    [event.type] of a missing [event] throws a TypeError while the
    argument of [create] is built: nothing is written and the handler's
    promise is rejected. *)
Definition on_canvas_event (s : Server) (sid : string) (sd : SocketData)
    (data : Data) : Server :=
  if negb (sd_canEdit sd) then
    emit s sid "error" (WText "Edit permission denied")
  else
    match d_event data with
    | None => crash s
    | Some event => suspend s (CanvasTask sid data event)
    end.

(** The handlers registered with [socket.on]. *)
Inductive Handler :=
| HPageSwitch
| HShape (eventName : string)
| HPresenceCursor
| HPageSettingsUpdate
| HAssetAdd
| HCanvasEvent.

Definition registered (ev : string) : option Handler :=
  if String.eqb ev "page:switch" then Some HPageSwitch
  else if String.eqb ev "shape:add" then Some (HShape "shape:add")
  else if String.eqb ev "shape:update" then Some (HShape "shape:update")
  else if String.eqb ev "shape:delete" then Some (HShape "shape:delete")
  else if String.eqb ev "presence:cursor" then Some HPresenceCursor
  else if String.eqb ev "page:settings:update" then Some HPageSettingsUpdate
  else if String.eqb ev "asset:add" then Some HAssetAdd
  else if String.eqb ev "canvas-event" then Some HCanvasEvent
  else None.

Definition run_handler (h : Handler) (s : Server) (sid : string)
    (sd : SocketData) (data : Data) : Server :=
  match h with
  | HPageSwitch => on_page_switch s sid sd data
  | HShape eventName => handleShapeEvent s sid sd eventName data
  | HPresenceCursor => on_presence_cursor s sid sd data
  | HPageSettingsUpdate => on_page_settings_update s sid sd data
  | HAssetAdd => on_asset_add s sid sd data
  | HCanvasEvent => on_canvas_event s sid sd data
  end.

(** An inbound message of a connected socket; a name nobody listens to is
    dropped. *)
Definition receive (s : Server) (sid : string) (sd : SocketData)
    (ev : string) (data : Data) : Server :=
  match registered ev with
  | Some h => run_handler h s sid sd data
  | None => s
  end.

(** An inbound message without payload ([socket.emit(ev)]), or with
    [null] for it.  Every listener starts by destructuring its argument
    ([const { boardId, pageId } = data], before any other test), which
    throws a TypeError on [undefined] and on [null]. *)
Definition receive_bare (s : Server) (ev : string) : Server :=
  match registered ev with
  | Some _ => crash s
  | None => s
  end.

(** The adapter forgets the socket, then the ['disconnect'] listener
    runs, which only logs. *)
Definition on_disconnect (s : Server) (sid : string) : Server :=
  with_sockets (with_rooms s (leave_all sid (srv_rooms s)))
    (delete sid (srv_sockets s)).

(** ** Event loop *)

Inductive Label :=
| Connect (sid : string) (a : HandshakeAuth)
| Recv (sid ev : string) (data : Data)
| RecvBare (sid ev : string)
| DbCommit (n : nat)
| DbReject (n : nat)
| Resume (n : nat)
| Disconnect (sid : string).

(** One turn of the event loop.  [None]: the turn cannot happen in this
    state.  A pending [create] may be rejected at any time (the database
    may be unreachable); it commits only when the row is acceptable.  A
    handler resumed on a rejected [create] throws at its [await], and as
    nothing catches that, the process ends. *)
Definition step (s : Server) (l : Label) : option Server :=
  match l with
  | Connect sid a =>
      match srv_sockets s !! sid with
      | Some _ => None
      | None => Some (connect s sid a)
      end
  | Recv sid ev data =>
      match srv_sockets s !! sid with
      | Some sd => Some (receive s sid sd ev data)
      | None => None
      end
  | RecvBare sid ev =>
      match srv_sockets s !! sid with
      | Some _ => Some (receive_bare s ev)
      | None => None
      end
  | DbCommit n =>
      match srv_tasks s !! n with
      | Some (t, InFlight) =>
          match create_row (srv_db s) (task_args t) with
          | Some row =>
              Some (with_trace
                      (with_tasks (with_db s (append_event (srv_db s) row))
                         (<[n := (t, Resolved)]> (srv_tasks s)))
                      [Created row])
          | None => None
          end
      | _ => None
      end
  | DbReject n =>
      match srv_tasks s !! n with
      | Some (t, InFlight) =>
          Some (with_tasks s (<[n := (t, Rejected)]> (srv_tasks s)))
      | _ => None
      end
  | Resume n =>
      match srv_tasks s !! n with
      | Some (t, Resolved) =>
          Some (task_resume (with_tasks s (delete n (srv_tasks s))) t)
      | Some (Orphan _, Rejected) =>
          Some (with_tasks s (delete n (srv_tasks s)))
      | Some (_, Rejected) => Some (crash s)
      | _ => None
      end
  | Disconnect sid =>
      match srv_sockets s !! sid with
      | Some _ => Some (on_disconnect s sid)
      | None => None
      end
  end.

Fixpoint run (s : Server) (ls : list Label) : option Server :=
  match ls with
  | [] => Some s
  | l :: ls' =>
      match step s l with
      | Some s' => run s' ls'
      | None => None
      end
  end.

Definition reachable (db : Database) (s : Server) : Prop :=
  exists ls, run (boot db) ls = Some s.

(** Hand the server, in order, what a client socket sent. *)
Definition deliver (s : Server) (sid : string) (msgs : list (string * Data))
  : option Server :=
  run s (map (fun m => Recv sid (fst m) (snd m)) msgs).

End Handlers.

(** ** Browser side *)

(** The Socket.IO client object: what it was opened with, whether the
    handshake has completed, and the messages handed to [socket.emit]
    (sent at once when connected, buffered until then). *)
Record ClientSocket := {
  cs_auth : HandshakeAuth;
  cs_connected : bool;
  cs_sent : list (string * Data)
}.

Definition client_emit (k : ClientSocket) (ev : string) (data : Data) : ClientSocket :=
  {| cs_auth := cs_auth k; cs_connected := cs_connected k;
     cs_sent := cs_sent k ++ [(ev, data)] |}.

Module SocketManager.

Record t := {
  socket : option ClientSocket;
  currentPageId : option string
}.

Definition init : t := {| socket := None; currentPageId := None |}.

(** [connect(token, shareToken, boardId, pageId, name, color)]; [name]
    and [color] are sent along but the server never reads them. *)
Definition connect (m : t) (token shareToken boardId pageId : option string) : t :=
  match socket m with
  | Some {| cs_connected := true |} => m
  | _ =>
      {| socket := Some {| cs_auth := {| auth_token := token;
                                         auth_shareToken := shareToken;
                                         auth_boardId := boardId;
                                         auth_pageId := pageId |};
                           cs_connected := false;
                           cs_sent := [] |};
         currentPageId := js_or pageId None |}
  end.

Definition page_switch_data (boardId pageId : string) : Data :=
  {| d_boardId := Some boardId; d_pageId := Some pageId;
     d_event := None; d_fields := [] |}.

(** [switchPage(boardId, pageId)] *)
Definition switchPage (m : t) (boardId pageId : string) : t :=
  match socket m with
  | Some k =>
      if negb (strict_eq (currentPageId m) (Some pageId)) then
        {| socket := Some (client_emit k "page:switch"
                             (page_switch_data boardId pageId));
           currentPageId := Some pageId |}
      else m
  | None => m
  end.

(** [emit(event, data)] *)
Definition emit (m : t) (ev : string) (data : Data) : t :=
  match socket m with
  | Some k => {| socket := Some (client_emit k ev data);
                 currentPageId := currentPageId m |}
  | None => m
  end.

(** [disconnect()] *)
Definition disconnect (m : t) : t := init.

(** Everything this manager's socket has been asked to send. *)
Definition sent (m : t) : list (string * Data) :=
  match socket m with
  | Some k => cs_sent k
  | None => []
  end.

End SocketManager.

Module CanvasPage.

(** A remote cursor of the page view.  [dot] and [label] are the fabric
    objects drawn for it, by identity; their geometry is left out. *)
Record RemoteCursor := {
  dot : nat;
  label : option nat;
  lastSeen : Z
}.

(** The page component: [fabRef.current] ([None] while unmounted), the
    [remoteCursorsRef] map in insertion order, and the socket manager
    the page talks through. *)
Record View := {
  isActive : bool;
  canvas : option (list nat);
  cursors : list (string * RemoteCursor);
  fresh : nat;
  manager : SocketManager.t
}.

Definition staleThreshold : Z := 3000.

Definition map_get (k : string) (m : list (string * RemoteCursor))
  : option RemoteCursor :=
  snd <$> find (fun e => String.eqb (fst e) k) m.

Fixpoint map_set (k : string) (v : RemoteCursor) (m : list (string * RemoteCursor))
  : list (string * RemoteCursor) :=
  match m with
  | [] => [(k, v)]
  | (k', v') :: m' =>
      if String.eqb k' k then (k, v) :: m' else (k', v') :: map_set k v m'
  end.

Definition map_delete (k : string) (m : list (string * RemoteCursor))
  : list (string * RemoteCursor) :=
  List.filter (fun e => negb (String.eqb (fst e) k)) m.

(** [canvas.remove(obj)]: the first occurrence is spliced out. *)
Fixpoint canvas_remove (o : nat) (objs : list nat) : list nat :=
  match objs with
  | [] => []
  | o' :: objs' => if Nat.eqb o' o then objs' else o' :: canvas_remove o objs'
  end.

Definition with_page (v : View) (cv : option (list nat))
    (cs : list (string * RemoteCursor)) (n : nat) : View :=
  {| isActive := isActive v; canvas := cv; cursors := cs; fresh := n;
     manager := manager v |}.

(** [updateRemoteCursor(socketId, x, y, userName, color)] at time [now] *)
Definition updateRemoteCursor (now : Z) (v : View) (socketId : string) : View :=
  if negb (isActive v) then v
  else match canvas v with
  | None => v
  | Some objs =>
      match map_get socketId (cursors v) with
      | None =>
          let d := fresh v in
          let l := S (fresh v) in
          with_page v (Some (objs ++ [d; l]))
            (map_set socketId {| dot := d; label := Some l; lastSeen := now |}
               (cursors v))
            (S (S (fresh v)))
      | Some c =>
          with_page v (Some objs)
            (map_set socketId {| dot := dot c; label := label c; lastSeen := now |}
               (cursors v))
            (fresh v)
      end
  end.

Definition stale (now : Z) (c : RemoteCursor) : bool :=
  (now - lastSeen c >? staleThreshold)%Z.

(** Body of the [cursors.forEach] callback of the cleanup interval. *)
Definition cleanup_entry (now : Z)
    (st : list (string * RemoteCursor) * list nat) (e : string * RemoteCursor)
  : list (string * RemoteCursor) * list nat :=
  if stale now (snd e) then
    let objs := canvas_remove (dot (snd e)) (snd st) in
    let objs := match label (snd e) with
                | Some l => canvas_remove l objs
                | None => objs
                end in
    (map_delete (fst e) (fst st), objs)
  else st.

(** One tick of the cursor-cleanup interval at time [now]. *)
Definition cursor_cleanup (now : Z) (v : View) : View :=
  match canvas v with
  | None => v
  | Some objs =>
      let st := fold_left (cleanup_entry now) (cursors v) (cursors v, objs) in
      with_page v (Some (snd st)) (fst st) (fresh v)
  end.

End CanvasPage.

(** ** Vocabulary of the properties *)

(** The event names whose handlers change shared state or fan a change
    out. *)
Definition mutation_events : list string :=
  ["shape:add"; "shape:update"; "shape:delete"; "page:settings:update";
   "asset:add"; "canvas-event"].

Definition shape_events : list string :=
  ["shape:add"; "shape:update"; "shape:delete"].

(** The same handshake with another share token. *)
Definition with_shareToken (a : HandshakeAuth) (t : option string) : HandshakeAuth :=
  {| auth_token := auth_token a; auth_shareToken := t;
     auth_boardId := auth_boardId a; auth_pageId := auth_pageId a |}.

(** The receivers of a broadcast are the adapter's choice in [rooms]. *)
Definition adapter_pick (rooms : gmap string (gset string)) (e : Effect) : Prop :=
  match e with
  | Broadcast sid room _ _ to => to = recipients rooms sid room
  | _ => True
  end.

(** The only messages the server ever addresses to a single socket. *)
Definition refusal_texts : list Wire :=
  [WText "Access denied"; WText "Edit permission denied";
   WText "Page ID required"].

Definition known_emit (e : Effect) : Prop :=
  match e with
  | Emit _ ev w => ev = "error" ∧ w ∈ refusal_texts
  | _ => True
  end.

(** An effect that is not the fan-out of a shape event nor a database
    write. *)
Definition incidental (e : Effect) : Prop :=
  match e with
  | Broadcast _ _ ev (WData _) _ => ev ∉ shape_events
  | Created _ => False
  | _ => True
  end.

(** The row a task's [create] call asks for. *)
Definition task_row (t : Task) (row : BoardEvent) : Prop :=
  ∃ db, create_row db (task_args t) = Some row.

(** Every fan-out of a shape event in the trace comes after the record of
    its row. *)
Definition durable_before (tr : list Effect) : Prop :=
  ∀ i sid room ev data to,
    tr !! i = Some (Broadcast sid room ev (WData data) to) →
    ev ∈ shape_events →
    ∃ j row, j < i ∧ tr !! j = Some (Created row) ∧
             ev_type row = ev ∧ ev_payload row = JData data ∧
             Some (ev_boardId row) = d_boardId data ∧
             ev_pageId row = d_pageId data ∧
             room = page_room (d_pageId data).

Record settled (s : Server) : Prop := {
  settled_trace : durable_before (srv_trace s);
  settled_rows : ∀ j row, srv_trace s !! j = Some (Created row) →
                          row ∈ boardEvents (srv_db s);
  settled_tasks : ∀ n t, srv_tasks s !! n = Some (t, Resolved) →
                         ∃ j row, srv_trace s !! j = Some (Created row) ∧
                                  task_row t row
}.

(** What a browser handed to its socket between two states of its
    manager. *)
Definition notices (earlier later : SocketManager.t) : list (string * Data) :=
  drop (List.length (SocketManager.sent earlier)) (SocketManager.sent later).

(** A task whose handler is still there to be resumed. *)
Definition awaited (t : Task) : bool :=
  match t with
  | Orphan _ => false
  | _ => true
  end.



(** ** A small deployment used in the examples *)

Definition sample_db : Database :=
  {| users := [ {| user_id := "u1"; user_email := "ada@example.org"; user_name := Some "Ada" |};
                {| user_id := "u2"; user_email := "bob@example.org"; user_name := None |};
                {| user_id := "u3"; user_email := "eve@example.org"; user_name := None |} ];
     boards := [ {| board_id := "b1"; board_ownerId := "u1" |};
                 {| board_id := "b2"; board_ownerId := "u2" |} ];
     memberships := [ {| mem_userId := "u1"; mem_boardId := "b1"; mem_role := OWNER |};
                      {| mem_userId := "u2"; mem_boardId := "b2"; mem_role := OWNER |} ];
     shareLinks := [ {| link_token := "s1"; link_boardId := "b1"; link_canEdit := false |} ];
     boardPages := [ {| bp_id := "p1"; bp_boardId := "b1" |};
                     {| bp_id := "p2"; bp_boardId := "b1" |};
                     {| bp_id := "q1"; bp_boardId := "b2" |} ];
     boardEvents := [] |}.

(** Tokens that verify, with their subject. *)
Definition sample_verify (token : string) : option string :=
  if String.eqb token "tok1" then Some "u1"
  else if String.eqb token "tok2" then Some "u2"
  else if String.eqb token "tok3" then Some "u3"
  else None.

Definition bearer (token boardId pageId : string) : HandshakeAuth :=
  {| auth_token := Some token; auth_shareToken := None;
     auth_boardId := Some boardId; auth_pageId := Some pageId |}.

Definition shared (shareToken boardId pageId : string) : HandshakeAuth :=
  {| auth_token := None; auth_shareToken := Some shareToken;
     auth_boardId := Some boardId; auth_pageId := Some pageId |}.

Definition msg (boardId pageId : string) : Data :=
  {| d_boardId := Some boardId; d_pageId := Some pageId;
     d_event := None; d_fields := [("shape", "rect")] |}.

Definition after (ls : list Label) : Server :=
  default (boot sample_db) (run sample_verify (boot sample_db) ls).

(** Owner A and read-only share-link visitor V, both on page p1 of b1. *)
Definition two_on_p1 : list Label :=
  [Connect "A" (bearer "tok1" "b1" "p1"); Connect "V" (shared "s1" "b1" "p1")].

Definition sample_view : CanvasPage.View :=
  CanvasPage.updateRemoteCursor 1000
    {| CanvasPage.isActive := true; CanvasPage.canvas := Some [];
       CanvasPage.cursors := []; CanvasPage.fresh := 0;
       CanvasPage.manager :=
         SocketManager.connect SocketManager.init (Some "tok2") None
           (Some "b1") (Some "p1") |}
    "A".

(** ** REST API *)

(** [s.split(sep)] for a one-character separator. *)
Fixpoint js_split (sep : Ascii.ascii) (s : string) : list string :=
  match s with
  | EmptyString => [EmptyString]
  | String c r =>
      if Ascii.eqb c sep then EmptyString :: js_split sep r
      else match js_split sep r with
           | w :: ws => String c w :: ws
           | [] => [String c EmptyString]
           end
  end.

(** [Some rest] when [s] is [pat] followed by [rest]. *)
Fixpoint strip_prefix (pat s : string) : option string :=
  match pat, s with
  | EmptyString, _ => Some s
  | String a pat', String b s' =>
      if Ascii.eqb a b then strip_prefix pat' s' else None
  | String _ _, EmptyString => None
  end.

(** [s.replace(pat, '')] for a string pattern: the first occurrence goes. *)
Fixpoint remove_first (pat s : string) : string :=
  match strip_prefix pat s with
  | Some rest => rest
  | None =>
      match s with
      | EmptyString => EmptyString
      | String c s' => String c (remove_first pat s')
      end
  end.

Definition space : Ascii.ascii := Ascii.ascii_of_nat 32.

(** Where [x] first occurs in [l]. *)
Fixpoint position (x : string) (l : list string) : option nat :=
  match l with
  | [] => None
  | y :: l' => if String.eqb y x then Some 0 else S <$> position x l'
  end.

(** No blank inside: what a signed token looks like. *)
Fixpoint spaceless (s : string) : bool :=
  match s with
  | EmptyString => true
  | String c r => negb (Ascii.eqb c space) && spaceless r
  end.

Module ApiClient.

(** The [Authorization] header of [getHeaders()], [token] being what
    local storage holds. *)
Definition getHeaders (token : option string) : option string :=
  match token with
  | Some (String _ _ as t) => Some ("Bearer " +:+ t)
  | _ => None
  end.

End ApiClient.

Module Rest.

(** A row of [assets]. *)
Record Asset := {
  asset_ownerId : string;
  asset_kind : string;
  asset_url : string;
  asset_pageCount : option Z
}.

(** A field of a request body that no schema checks: it is whatever JSON
    the client put there. *)
Inductive Field :=
| FMissing                 (* absent, or [null] *)
| FText (s : string)
| FInt (z : Z)             (* a number without fraction *)
| FOther (truthy : bool).  (* a boolean, any other number, an object, an array *)

(** [if (f)] *)
Definition field_truthy (f : Field) : bool :=
  match f with
  | FMissing => false
  | FText s => truthy (Some s)
  | FInt z => negb (z =? 0)%Z
  | FOther b => b
  end.

(** The range of an INTEGER column. *)
Definition is_int4 (z : Z) : bool :=
  (-2147483648 <=? z)%Z && (z <=? 2147483647)%Z.

(** What [pageCount: pageCount || null] puts into the INTEGER column
    [pageCount]: [Some None] is NULL, [None] a value the client library
    or the database refuses. *)
Definition stored_pageCount (f : Field) : option (option Z) :=
  if field_truthy f then
    match f with
    | FInt z => if is_int4 z then Some (Some z) else None
    | _ => None
    end
  else Some None.

(** A row of [board_pages], the table behind [boardPages], with the
    columns the reorder route reads or writes. *)
Record PageRow := {
  pr_id : string;
  pr_boardId : string;
  pr_title : string;
  pr_index : Z;
  pr_width : Z;
  pr_height : Z;
  pr_backgroundType : string
}.

Definition with_index (p : PageRow) (i : Z) : PageRow :=
  {| pr_id := pr_id p; pr_boardId := pr_boardId p; pr_title := pr_title p;
     pr_index := i; pr_width := pr_width p; pr_height := pr_height p;
     pr_backgroundType := pr_backgroundType p |}.

Definition by_index (p q : PageRow) : Prop := (pr_index p ≤ pr_index q)%Z.

#[global] Instance by_index_dec : RelDecision by_index :=
  fun p q => Z.le_dec (pr_index p) (pr_index q).

(** [boardPage.findMany({ where: { boardId }, orderBy: { index: 'asc' } })];
    rows with the same index come in table order here. *)
Definition list_pages (pages : list PageRow) (boardId : string) : list PageRow :=
  merge_sort by_index
    (List.filter (fun p => String.eqb (pr_boardId p) boardId) pages).

(** [boardPage.update({ where: { id: pageId }, data: { index } })]: [None]
    when there is no such row. *)
Definition update_index (pages : list PageRow) (pageId : string) (i : Z)
  : option (list PageRow) :=
  if existsb (fun p => String.eqb (pr_id p) pageId) pages then
    Some (map (fun p => if String.eqb (pr_id p) pageId then with_index p i else p)
            pages)
  else None.

(** [order.map((pageId, index) => update ...)] under [Promise.all], from
    position [i] on: every update that finds its row is applied, here in
    the order of the array (updates for different ids touch different
    rows); the flag tells whether all did. *)
Fixpoint update_indices (i : nat) (order : list string) (pages : list PageRow)
  : list PageRow * bool :=
  match order with
  | [] => (pages, true)
  | pageId :: rest =>
      match update_index pages pageId (Z.of_nat i) with
      | Some pages' => update_indices (S i) rest pages'
      | None => (fst (update_indices (S i) rest pages), false)
      end
  end.

Inductive Body :=
| BPages (pages : list PageRow)
| BError (msg : string)
| BBoard (board : Board) (canEdit : bool)
| BNewBoard (board : Board)
| BShareLink (link : ShareLink)
| BEvents (rows : list BoardEvent)
| BAsset (asset : Asset)
| BNone.

(** What a route does with a request: [res.status(n).json(body)], or
    [next(error)] when something it does not catch was thrown. *)
Inductive Reply :=
| Respond (status : nat) (body : Body)
| Next (error : string).

(** The headers and query parameters the routes read. *)
Record Request := {
  rq_authorization : option string;
  rq_query_t : option string;
  rq_x_share_token : option string
}.

(** [authHeader && authHeader.split(' ')[1]] *)
Definition bearer_token (authorization : option string) : option string :=
  match authorization with
  | Some (String _ _ as h) => js_split space h !! 1
  | other => other
  end.

(** [req.headers.authorization?.replace('Bearer ', '')] *)
Definition asset_token (authorization : option string) : option string :=
  remove_first "Bearer " <$> authorization.

(** [isOwner || role === 'OWNER' || role === 'EDITOR'] for [userId] on
    [board], as every route computes it from
    [include: { memberships: true }]. *)
Definition can_edit (db : Database) (board : Board) (userId : string) : bool :=
  resolve (String.eqb (board_ownerId board) userId)
    (mem_role <$> find (fun m => String.eqb (mem_userId m) userId)
                    (board_memberships db (board_id board))).

(** [membership.findFirst({ where: { userId, boardId } })] *)
Definition find_membership (db : Database) (userId boardId : string)
  : option Membership :=
  find (fun m => String.eqb (mem_userId m) userId && String.eqb (mem_boardId m) boardId)
    (memberships db).

Definition pages_of (db : Database) (boardId : string) : list BoardPage :=
  List.filter (fun p => String.eqb (bp_boardId p) boardId) (boardPages db).

Definition add_board (db : Database) (b : Board) : Database :=
  {| users := users db; boards := boards db ++ [b]; memberships := memberships db;
     shareLinks := shareLinks db; boardPages := boardPages db;
     boardEvents := boardEvents db |}.

Definition add_membership (db : Database) (m : Membership) : Database :=
  {| users := users db; boards := boards db; memberships := memberships db ++ [m];
     shareLinks := shareLinks db; boardPages := boardPages db;
     boardEvents := boardEvents db |}.

Definition add_shareLink (db : Database) (l : ShareLink) : Database :=
  {| users := users db; boards := boards db; memberships := memberships db;
     shareLinks := shareLinks db ++ [l]; boardPages := boardPages db;
     boardEvents := boardEvents db |}.

(** [boardPage.delete]: the row goes, and with it (ON DELETE CASCADE) the
    events of that page. *)
Definition remove_page (db : Database) (pageId : string) : Database :=
  {| users := users db; boards := boards db; memberships := memberships db;
     shareLinks := shareLinks db;
     boardPages := List.filter (fun p => negb (String.eqb (bp_id p) pageId))
                     (boardPages db);
     boardEvents := List.filter (fun e => negb (strict_eq (ev_pageId e) (Some pageId)))
                      (boardEvents db) |}.

Section Routes.

Variable jwt_verify : string -> option string.

(** The [authenticateToken] middleware: the 401 it sends, or the user it
    stores in [req.user] before calling [next()]. *)
Definition authenticateToken (db : Database) (authorization : option string)
  : Reply + User :=
  match bearer_token authorization with
  | Some (String _ _ as token) =>
      match jwt_verify token with
      | None => inl (Respond 401 (BError "Invalid token"))
      | Some sub =>
          match find_user db sub with
          | None => inl (Respond 401 (BError "Invalid token"))
          | Some user => inr user
          end
      end
  | _ => inl (Respond 401 (BError "Access token required"))
  end.

(** [POST /api/boards]; [title] is [None] when the body fails the schema
    (a string of at least one character), [id] is the id drawn for the
    new row.  The board is created first, its owner's membership after
    it: when the second [create] is rejected (the unique index on user
    and board) the board stays. *)
Definition post_board (db : Database) (authorization : option string)
    (title : option string) (id : string) : Reply * Database :=
  match authenticateToken db authorization with
  | inl r => (r, db)
  | inr user =>
      match title with
      | Some (String _ _) =>
          match find_board db id with
          | Some _ => (Next "PrismaClientKnownRequestError", db)
          | None =>
              let board := {| board_id := id; board_ownerId := user_id user |} in
              let db1 := add_board db board in
              match find_membership db1 (user_id user) id with
              | Some _ => (Next "PrismaClientKnownRequestError", db1)
              | None =>
                  (Respond 201 (BNewBoard board),
                   add_membership db1
                     {| mem_userId := user_id user; mem_boardId := id;
                        mem_role := OWNER |})
              end
          end
      | _ => (Next "ZodError", db)
      end
  end.

(** [GET /api/boards/:id].  On the bearer path the route calls
    [authenticateToken] itself; when that has answered 401 the response is
    closed, and what the route tries to send afterwards is lost. *)
Definition get_board (db : Database) (id : string) (rq : Request) : Reply :=
  match js_or (rq_query_t rq) (rq_x_share_token rq) with
  | Some (String _ _ as shareToken) =>
      match find_shareLink db shareToken with
      | None => Respond 404 (BError "Invalid share token or board not found")
      | Some shareLink =>
          if String.eqb (link_boardId shareLink) id then
            match find_board db id with
            | Some board => Respond 200 (BBoard board (link_canEdit shareLink))
            | None => Respond 404 (BError "Board not found")
            end
          else Respond 404 (BError "Invalid share token or board not found")
      end
  | _ =>
      match authenticateToken db (rq_authorization rq) with
      | inl r => r
      | inr user =>
          match find_board db id with
          | Some board =>
              match find_membership db (user_id user) id with
              | Some _ => Respond 200 (BBoard board (can_edit db board (user_id user)))
              | None => Respond 404 (BError "Board not found")
              end
          | None => Respond 404 (BError "Board not found")
          end
      end
  end.

(** [POST /api/boards/:id/share]; [canEdit] is [None] when the body fails
    the schema, [token] is the random token drawn for the link. *)
Definition post_share (db : Database) (id : string) (authorization : option string)
    (canEdit : option bool) (token : string) : Reply * Database :=
  match authenticateToken db authorization with
  | inl r => (r, db)
  | inr user =>
      match canEdit with
      | None => (Next "ZodError", db)
      | Some ce =>
          match find_membership db (user_id user) id with
          | None => (Respond 404 (BError "Board not found"), db)
          | Some _ =>
              match find_board db id, find_shareLink db token with
              | Some _, None =>
                  let link := {| link_token := token; link_boardId := id;
                                 link_canEdit := ce |} in
                  (Respond 201 (BShareLink link), add_shareLink db link)
              | _, _ => (Next "PrismaClientKnownRequestError", db)
              end
          end
      end
  end.

(** Who may write through [POST /api/boards/:id/events]: [inl] is the
    refusal. *)
Definition events_permission (db : Database) (id : string) (rq : Request)
  : Reply + bool :=
  match js_or (rq_query_t rq) (rq_x_share_token rq) with
  | Some (String _ _ as shareToken) =>
      match find_shareLink db shareToken with
      | None => inl (Respond 404 (BError "Invalid share token or board not found"))
      | Some shareLink =>
          if String.eqb (link_boardId shareLink) id
          then inr (link_canEdit shareLink)
          else inl (Respond 404 (BError "Invalid share token or board not found"))
      end
  | _ =>
      match authenticateToken db (rq_authorization rq) with
      | inl r => inl r
      | inr user =>
          match find_board db id with
          | None => inl (Respond 404 (BError "Board not found"))
          | Some board => inr (can_edit db board (user_id user))
          end
      end
  end.

Definition event_args (id : string) (event : CanvasEv) : CreateArgs :=
  {| ca_boardId := Some id; ca_pageId := None; ca_type := ce_type event;
     ca_payload := JEvent event |}.

(** [POST /api/boards/:id/events]; [events] is [None] when the body fails
    the schema.  The creates run side by side under [Promise.all]: one
    that is rejected fails the request, the others still reach the
    database. *)
Definition post_events (db : Database) (id : string) (rq : Request)
    (events : option (list CanvasEv)) : Reply * Database :=
  match events with
  | None => (Next "ZodError", db)
  | Some evs =>
      match events_permission db id rq with
      | inl r => (r, db)
      | inr false => (Respond 403 (BError "Edit permission denied"), db)
      | inr true =>
          let rows := omap (fun e => create_row db (event_args id e)) evs in
          let db' := fold_left append_event rows db in
          if Nat.eqb (List.length rows) (List.length evs)
          then (Respond 201 (BEvents rows), db')
          else (Next "PrismaClientValidationError", db')
      end
  end.

(** [DELETE /api/boards/:id/pages/:pageId] *)
Definition delete_page (db : Database) (id pageId : string)
    (authorization : option string) : Reply * Database :=
  match authenticateToken db authorization with
  | inl r => (r, db)
  | inr user =>
      match find_board db id with
      | None => (Respond 404 (BError "Board not found"), db)
      | Some board =>
          if negb (can_edit db board (user_id user)) then
            (Respond 403 (BError "Edit permission denied"), db)
          else if List.length (pages_of db id) <=? 1 then
            (Respond 400 (BError "Cannot delete the last page"), db)
          else
            match find_page db pageId with
            | None => (Next "PrismaClientKnownRequestError", db)
            | Some _ => (Respond 204 BNone, remove_page db pageId)
            end
      end
  end.

(** [POST /api/boards/:id/pages/reorder] on the table [pages]; [order] is
    [None] when the body fails the schema. *)
Definition reorder_pages (db : Database) (pages : list PageRow) (id : string)
    (authorization : option string) (order : option (list string))
  : Reply * list PageRow :=
  match authenticateToken db authorization with
  | inl r => (r, pages)
  | inr user =>
      match order with
      | None => (Next "ZodError", pages)
      | Some order =>
          match find_board db id with
          | None => (Respond 404 (BError "Board not found"), pages)
          | Some board =>
              if negb (can_edit db board (user_id user)) then
                (Respond 403 (BError "Edit permission denied"), pages)
              else
                let (pages', all_found) := update_indices 0 order pages in
                if all_found
                then (Respond 200 (BPages (list_pages pages' id)), pages')
                else (Next "PrismaClientKnownRequestError", pages')
          end
      end
  end.

(** [POST /api/assets]; the row it inserts, if any.  Whatever is thrown
    inside, be it a token that does not verify or a [create] that is
    refused ([kind] or [url] that is no string, a [pageCount] that is no
    int4), ends in the 500 of the route's own [catch]. *)
Definition post_asset (db : Database) (authorization : option string)
    (kind url pageCount : Field) : Reply * option Asset :=
  match asset_token authorization with
  | Some (String _ _ as token) =>
      match jwt_verify token with
      | None => (Respond 500 (BError "Failed to create asset"), None)
      | Some sub =>
          match find_user db sub with
          | None => (Respond 401 (BError "Invalid token"), None)
          | Some user =>
              if negb (field_truthy kind) || negb (field_truthy url) then
                (Respond 400 (BError "Missing required fields: kind, url"), None)
              else
                match kind, url, stored_pageCount pageCount with
                | FText k, FText u, Some pc =>
                    let asset := {| asset_ownerId := user_id user; asset_kind := k;
                                    asset_url := u; asset_pageCount := pc |} in
                    (Respond 201 (BAsset asset), Some asset)
                | _, _, _ => (Respond 500 (BError "Failed to create asset"), None)
                end
          end
      end
  | _ => (Respond 401 (BError "No token provided"), None)
  end.

End Routes.

(** One credential pair, as the web client presents it to the REST routes
    and to the socket handshake. *)
Definition as_request (token shareToken : option string) : Request :=
  {| rq_authorization := ApiClient.getHeaders token;
     rq_query_t := shareToken; rq_x_share_token := None |}.

Definition as_handshake (token shareToken : option string)
    (boardId : string) (pageId : option string) : HandshakeAuth :=
  {| auth_token := token; auth_shareToken := shareToken;
     auth_boardId := Some boardId; auth_pageId := pageId |}.

End Rest.

(** ** The board page of the web client *)

Module BoardView.

(** The [user] object read back from local storage. *)
Record ClientUser := {
  cu_name : option string;
  cu_email : option string
}.

(** [user?.name || user?.email || 'Anonymous'] *)
Definition display_name (user : option ClientUser) : option string :=
  js_or (js_or (user ≫= cu_name) (user ≫= cu_email)) (Some "Anonymous").

(** The socket effect of the board page: nothing until the board is
    loaded and a page is active; then
    [socketManager.connect(boardId, activePageId, userName, userColor)],
    the four values landing in the parameters [token], [shareToken],
    [boardId] and [pageId] of [connect]. *)
Definition socket_effect (m : SocketManager.t) (boardId : string)
    (board_loaded : bool) (activePageId : option string)
    (user : option ClientUser) (userColor : string) : SocketManager.t :=
  if negb board_loaded || negb (truthy activePageId) then m
  else SocketManager.connect m (Some boardId) activePageId
         (display_name user) (Some userColor).

End BoardView.

(** ** Page sizes *)

Module Sizes.

Inductive PresetKey := A4_P | A4_L | Letter_P | Letter_L.

(** [PAGE_PRESETS] of the web client, as (w, h). *)
Definition PAGE_PRESETS (k : PresetKey) : Z * Z :=
  match k with
  | A4_P => (794, 1123)
  | A4_L => (1123, 794)
  | Letter_P => (816, 1056)
  | Letter_L => (1056, 816)
  end%Z.

(** The [size] object of a page-creation request; pixel counts are
    integers (the columns are INTEGER). *)
Record SizeRequest := {
  preset : option PresetKey;
  widthPx : option Z;
  heightPx : option Z
}.

(** Truthiness of a number that may be missing: zero is falsy. *)
Definition truthy_num (n : option Z) : bool :=
  match n with
  | Some z => negb (z =? 0)%Z
  | None => false
  end.

Definition num (n : option Z) : Z := default 0%Z n.

(** [getPageSize(request)] of the web client, on [request.size]. *)
Definition getPageSize (size : option SizeRequest) : Z * Z :=
  match size with
  | Some sz =>
      if truthy_num (widthPx sz) && truthy_num (heightPx sz)
      then (num (widthPx sz), num (heightPx sz))
      else PAGE_PRESETS (default A4_P (preset sz))
  | None => PAGE_PRESETS A4_P
  end.

(** The table inside [POST /api/boards/:id/pages]. *)
Definition presets (k : PresetKey) : Z * Z :=
  match k with
  | A4_P => (794, 1123)
  | A4_L => (1123, 794)
  | Letter_P => (816, 1056)
  | Letter_L => (1056, 816)
  end%Z.

(** "Determine page size" of [POST /api/boards/:id/pages], on
    [data.size]. *)
Definition server_page_size (sz : SizeRequest) : Z * Z :=
  match preset sz with
  | Some k => presets k
  | None =>
      if truthy_num (widthPx sz) && truthy_num (heightPx sz)
      then (num (widthPx sz), num (heightPx sz))
      else (794, 1123)%Z
  end.

End Sizes.

(** ** Vocabulary of the further properties *)

(** What the handlers keep true of the adapter: a room's members are
    connected, each in the room of its own board or in a page room; a
    connected socket is in its board room, and in the room of the page it
    tracks when that id is truthy. *)
Record housed (s : Server) : Prop := {
  housed_members : ∀ room c, c ∈ members (srv_rooms s) room →
    ∃ sd, srv_sockets s !! c = Some sd ∧
          (room = board_room (Some (sd_boardId sd)) ∨ ∃ p, room = page_room p);
  housed_board : ∀ c sd, srv_sockets s !! c = Some sd →
    c ∈ members (srv_rooms s) (board_room (Some (sd_boardId sd)));
  housed_page : ∀ c sd, srv_sockets s !! c = Some sd →
    truthy (sd_pageId sd) = true →
    c ∈ members (srv_rooms s) (page_room (sd_pageId sd))
}.

(** The part of [socket.data] that is written once, by the middleware. *)
Definition credentials (sd : SocketData) : option string * string * bool * option string :=
  (sd_userId sd, sd_boardId sd, sd_canEdit sd, sd_userName sd).

(** The event names whose handlers insist on a page id. *)
Definition page_scoped_events : list string :=
  ["shape:add"; "shape:update"; "shape:delete"; "page:settings:update"].

(** The room a stored row belongs to: its page's room, or its board's room
    when the row has no page. *)
Definition row_room (row : BoardEvent) : string :=
  match ev_pageId row with
  | Some p => page_room (Some p)
  | None => board_room (Some (ev_boardId row))
  end.

(** Every fan-out of a legacy event comes after the record of its row. *)
Definition legacy_durable_before (tr : list Effect) : Prop :=
  ∀ i sid room ev e to,
    tr !! i = Some (Broadcast sid room ev (WEvent e) to) →
    ∃ j row, j < i ∧ tr !! j = Some (Created row) ∧
             ev = "canvas-event" ∧
             ev_payload row = JEvent e ∧
             Some (ev_type row) = ce_type e ∧
             room = row_room row.

(** How each fan-out is addressed: by what its own payload says. *)
Definition routed (e : Effect) : Prop :=
  match e with
  | Broadcast sid room ev (WData d) _ =>
      (ev = "asset:add" ∧ room = board_room (d_boardId d)) ∨
      (ev ∈ page_scoped_events ∧ truthy (d_pageId d) = true ∧
       room = page_room (d_pageId d))
  | Broadcast sid room ev (WCursor d socketId _) _ =>
      ev = "presence:cursor" ∧ socketId = sid ∧
      truthy (d_pageId d) = true ∧ room = page_room (d_pageId d)
  | Broadcast _ _ ev (WEvent _) _ => ev = "canvas-event"
  | Broadcast _ _ _ (WText _) _ => False
  | _ => True
  end.

Record dispatched (s : Server) : Prop := {
  dispatched_trace : Forall routed (srv_trace s);
  dispatched_tasks : ∀ n sid ev data st,
    srv_tasks s !! n = Some (ShapeTask sid ev data, st) →
    ev ∈ shape_events ∧ truthy (d_pageId data) = true
}.

(** The row [p] after the updates of a reorder request for [order], the
    first of which writes index [i]. *)
Definition reindexed (i : nat) (order : list string) (p : Rest.PageRow)
  : Rest.PageRow :=
  match position (Rest.pr_id p) order with
  | Some k => Rest.with_index p (Z.of_nat (i + k))
  | None => p
  end.

(** ** More of the sample deployment *)

Definition sd_A : SocketData :=
  {| sd_userId := Some "u1"; sd_boardId := "b1"; sd_pageId := Some "p1";
     sd_canEdit := true; sd_userName := Some "Ada" |}.

Definition sd_V : SocketData :=
  {| sd_userId := None; sd_boardId := "b1"; sd_pageId := Some "p1";
     sd_canEdit := false; sd_userName := Some "Anonymous User" |}.

Definition stroke : CanvasEv :=
  {| ce_type := Some "path:created"; ce_fields := [("tool", "pen")] |}.

(** A legacy message without page id. *)
Definition legacy_msg : Data :=
  {| d_boardId := Some "b1"; d_pageId := None; d_event := Some stroke;
     d_fields := [] |}.

Definition stroke_row : BoardEvent :=
  {| ev_boardId := "b1"; ev_pageId := None; ev_type := "path:created";
     ev_payload := JEvent stroke |}.

(** Owner A on p1 of b1, owner B on q1 of b2. *)
Definition two_boards : list Label :=
  [Connect "A" (bearer "tok1" "b1" "p1"); Connect "B" (bearer "tok2" "b2" "q1")].

(** The sample database with u3 as a viewer of b1. *)
Definition viewer_db : Database :=
  {| users := users sample_db; boards := boards sample_db;
     memberships := memberships sample_db ++
       [ {| mem_userId := "u3"; mem_boardId := "b1"; mem_role := VIEWER |} ];
     shareLinks := shareLinks sample_db; boardPages := boardPages sample_db;
     boardEvents := boardEvents sample_db |}.

Definition sample_page (id boardId : string) (index : Z) : Rest.PageRow :=
  {| Rest.pr_id := id; Rest.pr_boardId := boardId; Rest.pr_title := "Page";
     Rest.pr_index := index; Rest.pr_width := 794; Rest.pr_height := 1123;
     Rest.pr_backgroundType := "blank" |}.

(** The pages of [sample_db], with their columns. *)
Definition sample_pages : list Rest.PageRow :=
  [sample_page "p1" "b1" 0; sample_page "p2" "b1" 1; sample_page "q1" "b2" 0].

Definition ada : User :=
  {| user_id := "u1"; user_email := "ada@example.org"; user_name := Some "Ada" |}.

Definition eve : User :=
  {| user_id := "u3"; user_email := "eve@example.org"; user_name := None |}.

Definition board1 : Board := {| board_id := "b1"; board_ownerId := "u1" |}.

Definition blank_view : CanvasPage.View :=
  {| CanvasPage.isActive := true; CanvasPage.canvas := Some [];
     CanvasPage.cursors := []; CanvasPage.fresh := 0;
     CanvasPage.manager :=
       SocketManager.connect SocketManager.init (Some "tok2") None
         (Some "b1") (Some "p1") |}.

Set Warnings "-clear-no-such-hyp".

(** * Properties *)

(** ** Rooms *)

Lemma members_join sid room room' rooms c :
  c ∈ members (join sid room rooms) room' ↔
  (room = room' ∧ c = sid) ∨ c ∈ members rooms room'.
Proof.
  unfold join, members.
  destruct (decide (room = room')) as [->|Hne].
  - rewrite lookup_insert_eq. simpl. set_solver.
  - rewrite lookup_insert_ne by done. naive_solver.
Qed.

Lemma join_member_id sid room rooms :
  sid ∈ members rooms room → join sid room rooms = rooms.
Proof.
  unfold join, members. intros Hin.
  destruct (rooms !! room) as [M|] eqn:E; simpl in *; [|set_solver].
  apply insert_id. rewrite E. f_equal. set_solver.
Qed.

Lemma join_leave_member sid room rooms :
  sid ∈ members rooms room → join sid room (leave sid room rooms) = rooms.
Proof.
  unfold join, leave, members. intros Hin.
  destruct (rooms !! room) as [M|] eqn:E; simpl in *; [|set_solver].
  destruct (decide (M ∖ {[sid]} = ∅)) as [He|Hne].
  - rewrite lookup_delete_eq. simpl. rewrite insert_delete_eq.
    apply insert_id. rewrite E. f_equal.
    apply set_eq. intros x. destruct (decide (x = sid)); set_solver.
  - rewrite lookup_insert_eq. simpl. rewrite insert_insert_eq.
    apply insert_id. rewrite E. f_equal.
    apply set_eq. intros x. destruct (decide (x = sid)); set_solver.
Qed.

Lemma members_leave sid room room' rooms c :
  c ∈ members (leave sid room rooms) room' ↔
  c ∈ members rooms room' ∧ ¬ (room = room' ∧ c = sid).
Proof.
  unfold leave, members.
  destruct (rooms !! room) as [M|] eqn:E.
  - destruct (decide (M ∖ {[sid]} = ∅)) as [He|Hne].
    + destruct (decide (room = room')) as [<-|Hr].
      * rewrite lookup_delete_eq, E. cbn. set_solver.
      * rewrite lookup_delete_ne by done. naive_solver.
    + destruct (decide (room = room')) as [<-|Hr].
      * rewrite lookup_insert_eq, E. cbn. set_solver.
      * rewrite lookup_insert_ne by done. naive_solver.
  - destruct (decide (room = room')) as [<-|Hr].
    + rewrite E. cbn. set_solver.
    + naive_solver.
Qed.

Lemma members_leave_all sid rooms room c :
  c ∈ members (leave_all sid rooms) room ↔ c ∈ members rooms room ∧ c ≠ sid.
Proof.
  unfold leave_all, members. rewrite lookup_omap.
  destruct (rooms !! room) as [M|]; cbn; [|set_solver].
  destruct (decide (M ∖ {[sid]} = ∅)) as [He|Hne]; cbn; set_solver.
Qed.

Lemma members_empty room : members ∅ room = ∅.
Proof. unfold members. by rewrite lookup_empty. Qed.

Lemma page_room_not_board (p b : option string) : page_room p ≠ board_room b.
Proof. unfold page_room, board_room. cbn. discriminate. Qed.

Lemma page_room_inj (p q : option string) :
  page_room p = page_room q → interpolate p = interpolate q.
Proof. unfold page_room. intros H. by simplify_eq/=. Qed.

Section ServerProperties.

Variable jwt_verify : string -> option string.

Local Abbreviation step := (step jwt_verify).
Local Abbreviation run := (run jwt_verify).

Lemma registered_shape ev : ev ∈ shape_events → registered ev = Some (HShape ev).
Proof.
  unfold shape_events. rewrite !elem_of_cons, elem_of_nil.
  intros [->|[->|[->|[]]]]; reflexivity.
Qed.

(** Claim C1, on the code.  On a connection whose [canEdit] is false,
    each of the mutation handlers ([shape:add], [shape:update],
    [shape:delete], [page:settings:update], [asset:add] and the legacy
    [canvas-event]) answers a message that has a payload with one
    ['error'] to the sender and does nothing else: the database is
    untouched, no [create] is left pending, nothing is sent to any room.
    The same message without payload never reaches the [canEdit] test:
    destructuring throws, no ['error'] is emitted and the process ends,
    taking every connection with it. *)
Theorem read_only_mutation_outcomes (s : Server) (sid ev : string)
    (sd : SocketData) :
  srv_sockets s !! sid = Some sd →
  sd_canEdit sd = false →
  ev ∈ mutation_events →
  (∀ data, ∃ s', step s (Recv sid ev data) = Some s' ∧
        srv_trace s' = srv_trace s ++ [Emit sid "error" (WText "Edit permission denied")] ∧
        srv_db s' = srv_db s ∧
        srv_tasks s' = srv_tasks s ∧
        srv_rooms s' = srv_rooms s ∧
        srv_sockets s' = srv_sockets s) ∧
  (∃ s', step s (RecvBare sid ev) = Some s' ∧
        srv_trace s' = srv_trace s ++ [Exit] ∧
        srv_db s' = srv_db s ∧
        srv_rooms s' = ∅ ∧
        srv_sockets s' = ∅).
Proof.
  intros Hsock Hro Hev.
  unfold mutation_events in Hev. rewrite !elem_of_cons, elem_of_nil in Hev.
  split.
  - intros data. simpl. rewrite Hsock.
    exists (emit s sid "error" (WText "Edit permission denied")).
    split; [|done]. f_equal.
    destruct Hev as [->|[->|[->|[->|[->|[->|[]]]]]]]; unfold receive; simpl;
      unfold handleShapeEvent, on_page_settings_update, on_asset_add,
        on_canvas_event; rewrite Hro; reflexivity.
  - simpl. rewrite Hsock. exists (crash s). split; [|done]. f_equal.
    destruct Hev as [->|[->|[->|[->|[->|[->|[]]]]]]]; reflexivity.
Qed.

(** Claim C6, as the code has it.  An [asset:add] from a connection that
    may edit is fanned out at once to the board room named by the message,
    the sender excluded; the event store is not involved: the database is
    unchanged and no [create] is pending afterwards. *)
Theorem asset_add_broadcast_only (s : Server) (sid : string)
    (sd : SocketData) (data : Data) :
  srv_sockets s !! sid = Some sd →
  sd_canEdit sd = true →
  ∃ s', step s (Recv sid "asset:add" data) = Some s' ∧
        srv_trace s' = srv_trace s ++
          [Broadcast sid (board_room (d_boardId data)) "asset:add" (WData data)
             (members (srv_rooms s) (board_room (d_boardId data)) ∖ {[sid]})] ∧
        srv_db s' = srv_db s ∧
        srv_tasks s' = srv_tasks s.
Proof.
  intros Hsock Hrw. simpl. rewrite Hsock. eexists. split; [reflexivity|].
  unfold receive. simpl. unfold on_asset_add. rewrite Hrw. simpl. done.
Qed.


Lemma find_user_id db sub user : find_user db sub = Some user → user_id user = sub.
Proof.
  unfold find_user. intros H. apply find_some in H as [_ H].
  by apply String.eqb_eq.
Qed.

Lemma find_board_id db id board : find_board db id = Some board → board_id board = id.
Proof.
  unfold find_board. intros H. apply find_some in H as [_ H].
  by apply String.eqb_eq.
Qed.

Lemma find_all_false {A} (f : A → bool) (l : list A) :
  (∀ x, x ∈ l → f x = false) → find f l = None.
Proof.
  induction l as [|x l IH]; intros H; [done|]. simpl.
  rewrite (H x) by apply list_elem_of_here.
  apply IH. intros y Hy. apply H. by apply list_elem_of_further.
Qed.

(** Claim C9.  On the bearer path, a token that verifies, for a user that
    exists, on a board that exists, is accepted although the user has no
    membership row on that board: the socket is registered with [canEdit]
    true exactly when the user owns the board, and it is joined to the
    board room. *)
Theorem bearer_without_membership (s : Server) (sid : string) (a : HandshakeAuth)
    (token boardId sub : string) (user : User) (board : Board) :
  srv_sockets s !! sid = None →
  auth_token a = Some token → truthy (Some token) = true →
  auth_boardId a = Some boardId → truthy (Some boardId) = true →
  jwt_verify token = Some sub →
  find_user (srv_db s) sub = Some user →
  find_board (srv_db s) boardId = Some board →
  (∀ m, m ∈ memberships (srv_db s) → mem_boardId m = boardId → mem_userId m ≠ sub) →
  ∃ s' sd, step s (Connect sid a) = Some s' ∧
           srv_sockets s' !! sid = Some sd ∧
           sd_boardId sd = boardId ∧
           sd_userId sd = Some sub ∧
           sd_canEdit sd = String.eqb (board_ownerId board) sub ∧
           sid ∈ members (srv_rooms s') (board_room (Some boardId)) ∧
           srv_trace s' = srv_trace s ++
             Joined sid (board_room (Some boardId)) ::
             (if truthy (auth_pageId a)
              then [Joined sid (page_room (auth_pageId a))] else []).
Proof.
  intros Hfree Htok Htt Hb Hbt Hv Hu Hbd Hnone.
  assert (Hio : io_use jwt_verify (srv_db s) a =
                Accepted {| sd_userId := Some sub; sd_boardId := boardId;
                            sd_pageId := auth_pageId a;
                            sd_canEdit := String.eqb (board_ownerId board) sub;
                            sd_userName := js_or (user_name user) (Some (user_email user)) |}).
  { unfold io_use. rewrite Hb, Htok.
    destruct boardId as [|c0 r0]; [discriminate|].
    destruct token as [|c1 r1]; [discriminate|].
    rewrite Hv, Hu, Hbd.
    rewrite (find_user_id _ _ _ Hu), (find_board_id _ _ _ Hbd).
    rewrite find_all_false.
    - simpl. unfold resolve. simpl. by rewrite orb_false_r.
    - intros m Hm. unfold board_memberships in Hm.
      apply list_elem_of_filter in Hm as [Hmb Hm].
      apply String.eqb_neq. by apply Hnone. }
  simpl. rewrite Hfree. unfold connect. rewrite Hio. simpl.
  eexists _, _. split; [reflexivity|].
  destruct (truthy (auth_pageId a)); simpl;
    (split; [by rewrite lookup_insert_eq|]); (do 3 (split; [done|]));
    (split; [rewrite ?members_join; naive_solver|]);
    by rewrite <- ?app_assoc.
Qed.


(** Claim C10.  A handshake that carries a bearer token is settled on
    the bearer path whatever share token comes with it (none, one that
    matches nothing, one of another board, one with another capability):
    the middleware and the whole connection turn give the same result.
    When the token verifies for a stored user and the board exists, that
    result is acceptance, with the user as identity and with [canEdit]
    computed from ownership and membership alone. *)
Theorem bearer_overrides_share_token (s : Server) (sid : string)
    (a : HandshakeAuth) (t : option string) :
  truthy (auth_token a) = true →
  io_use jwt_verify (srv_db s) a = io_use jwt_verify (srv_db s) (with_shareToken a t) ∧
  step s (Connect sid a) = step s (Connect sid (with_shareToken a t)) ∧
  ∀ token boardId sub user board,
    auth_token a = Some token →
    auth_boardId a = Some boardId → truthy (Some boardId) = true →
    jwt_verify token = Some sub →
    find_user (srv_db s) sub = Some user →
    find_board (srv_db s) boardId = Some board →
    srv_sockets s !! sid = None →
    let d := {| sd_userId := Some sub; sd_boardId := boardId;
                sd_pageId := auth_pageId a;
                sd_canEdit :=
                  resolve (String.eqb (board_ownerId board) sub)
                    (mem_role <$> find (fun m => String.eqb (mem_userId m) sub)
                                    (board_memberships (srv_db s) boardId));
                sd_userName := js_or (user_name user) (Some (user_email user)) |} in
    io_use jwt_verify (srv_db s) (with_shareToken a t) = Accepted d ∧
    ∃ s', step s (Connect sid (with_shareToken a t)) = Some s' ∧
          srv_sockets s' !! sid = Some d ∧
          sid ∈ members (srv_rooms s') (board_room (Some boardId)).
Proof.
  intros Htok.
  assert (Hio : io_use jwt_verify (srv_db s) a
                = io_use jwt_verify (srv_db s) (with_shareToken a t)).
  { unfold io_use, with_shareToken. simpl.
    destruct (auth_boardId a) as [[|c0 r0]|]; try done.
    destruct (auth_token a) as [[|c1 r1]|]; done. }
  split; [done|]. split; [simpl; unfold connect; by rewrite Hio|].
  intros token boardId sub user board Ht Hb Hbt Hv Hu Hbd Hfree d.
  assert (Hacc : io_use jwt_verify (srv_db s) a = Accepted d).
  { unfold io_use. rewrite Hb, Ht.
    destruct boardId as [|c0 r0]; [discriminate|].
    rewrite Ht in Htok. destruct token as [|c1 r1]; [discriminate|].
    rewrite Hv, Hu, Hbd.
    by rewrite (find_user_id _ _ _ Hu), (find_board_id _ _ _ Hbd). }
  split; [by rewrite <- Hio|].
  cbn [step]. unfold connect. rewrite <- Hio, Hacc.
  cbn [with_shareToken auth_token auth_shareToken auth_boardId auth_pageId
       srv_sockets with_sockets]. rewrite Hfree.
  eexists. split; [reflexivity|].
  destruct (truthy (sd_pageId d)); cbn;
    (split; [by rewrite lookup_insert_eq|]);
    rewrite ?members_join; naive_solver.
Qed.

(** Claim C2.  A shape event accepted from a connection that may edit is
    stored under the board and page ids found in the message and fanned
    out to the page room of the message's page id.  Neither the board the
    connection is bound to nor the page it tracks is consulted: the
    statement places no condition on [sd_boardId sd] or [sd_pageId sd]. *)
Theorem shape_event_scope_from_message (s : Server) (sid ev : string)
    (sd : SocketData) (data : Data) (b p : string) (bd : Board) (pg : BoardPage) :
  srv_sockets s !! sid = Some sd →
  sd_canEdit sd = true →
  ev ∈ shape_events →
  d_boardId data = Some b →
  d_pageId data = Some p → truthy (Some p) = true →
  find_board (srv_db s) b = Some bd →
  find_page (srv_db s) p = Some pg →
  let n := srv_next s in
  let row := {| ev_boardId := b; ev_pageId := Some p; ev_type := ev;
                ev_payload := JData data |} in
  ∃ s', run s [Recv sid ev data; DbCommit n; Resume n] = Some s' ∧
        boardEvents (srv_db s') = boardEvents (srv_db s) ++ [row] ∧
        srv_trace s' = srv_trace s ++
          [Created row;
           Broadcast sid ("page:" +:+ p) ev (WData data)
             (members (srv_rooms s) ("page:" +:+ p) ∖ {[sid]})].
Proof.
  intros Hsock Hrw Hev Hb Hp Hpt Hbd Hpg n row.
  cbn [run step]. rewrite Hsock. unfold receive.
  rewrite (registered_shape _ Hev). cbn [run_handler].
  unfold handleShapeEvent. rewrite Hrw, Hp, Hpt. cbn [negb].
  cbn [suspend srv_tasks srv_db srv_next]. rewrite lookup_insert_eq.
  unfold create_row. cbn [task_args ca_boardId ca_type ca_pageId ca_payload].
  rewrite Hb, Hp, Hbd, Hpg.
  cbn [with_trace with_tasks with_db srv_tasks srv_db srv_next srv_trace srv_rooms srv_sockets].
  rewrite lookup_insert_eq.
  eexists. split; [reflexivity|].
  cbn. rewrite Hp. cbn. split; [done|]. by rewrite <- app_assoc.
Qed.

(** *** What a turn of the event loop adds to the trace *)





Ltac handler_unfold :=
  unfold receive, receive_bare, registered, run_handler, on_page_switch,
    handleShapeEvent, on_presence_cursor, on_page_settings_update,
    on_asset_add, on_canvas_event, connect, on_disconnect, task_resume,
    to_emit, emit, socket_join, socket_leave, suspend in *;
  repeat case_match; simplify_eq.

Ltac handler_cases := handler_unfold; unfold crash in *; cbn in *.

(** What is left of the pending calls when the process ends. *)
Lemma orphaned_lookup (tasks : gmap nat (Task * Settled)) (n : nat) (t : Task)
    (st : Settled) :
  orphaned tasks !! n = Some (t, st) →
  st = InFlight ∧
  ∃ t0, tasks !! n = Some (t0, InFlight) ∧ t = Orphan (task_args t0).
Proof.
  unfold orphaned. rewrite lookup_omap.
  destruct (tasks !! n) as [[t0 []]|]; cbn; intros H; simplify_eq.
  split; [done|]. by exists t0.
Qed.

Lemma step_new_effects (s s' : Server) (l : Label) :
  step s l = Some s' →
  ∃ es, srv_trace s' = srv_trace s ++ es ∧ Forall (adapter_pick (srv_rooms s)) es.
Proof.
  intros H. destruct l; cbn [step] in H; repeat case_match; simplify_eq;
    handler_cases; rewrite <- ?app_assoc;
    try (by eexists; split; [reflexivity | repeat constructor]);
    try (by exists []; split; [by rewrite app_nil_r | constructor]).
Qed.


Lemma step_emits (s s' : Server) (l : Label) :
  step s l = Some s' →
  ∃ es, srv_trace s' = srv_trace s ++ es ∧ Forall known_emit es.
Proof.
  intros H. destruct l; cbn [step] in H; repeat case_match; simplify_eq;
    handler_cases; rewrite <- ?app_assoc;
    try (by exists []; split; [by rewrite app_nil_r | constructor]);
    (eexists; split; [reflexivity |]); repeat constructor;
    unfold refusal_texts; rewrite !elem_of_cons; naive_solver.
Qed.

(** Whatever the run, a socket is only ever sent one of the three
    refusals; in particular a failed [create] is never reported. *)
Lemma run_emits (ls : list Label) (s s' : Server) :
  Forall known_emit (srv_trace s) → run s ls = Some s' →
  Forall known_emit (srv_trace s').
Proof.
  revert s. induction ls as [|l ls IH]; intros s Hs H; cbn [run] in H.
  - by simplify_eq.
  - destruct (step s l) as [s1|] eqn:E; [|done].
    eapply IH; [|done].
    destruct (step_emits _ _ _ E) as (es & -> & Hes). by apply Forall_app.
Qed.

(** Claim C4, on the code.  No socket handler catches the rejection of
    its [create]: when the database rejects the row of a pending mutation
    and the handler is resumed, nothing is broadcast, the sender is told
    nothing, and the process ends, so that every connection is dropped.
    Nor has anyone been told of such a failure before: the only messages
    the server ever addresses to a socket are its three refusals. *)
Theorem rejected_create_exits (db : Database) (s : Server) (n : nat) (t : Task) :
  reachable jwt_verify db s →
  srv_tasks s !! n = Some (t, InFlight) →
  awaited t = true →
  Forall known_emit (srv_trace s) ∧
  ∃ s', run s [DbReject n; Resume n] = Some s' ∧
        srv_trace s' = srv_trace s ++ [Exit] ∧
        srv_db s' = srv_db s ∧
        srv_sockets s' = ∅ ∧
        srv_rooms s' = ∅.
Proof.
  intros [ls Hrun] Ht Hw. split.
  - eapply run_emits; [|exact Hrun]. constructor.
  - cbn [run step]. rewrite Ht.
    cbn [with_tasks srv_tasks]. rewrite lookup_insert_eq.
    destruct t; [| |discriminate]; eexists; (split; [reflexivity|done]).
Qed.








(** *** Durability before fan-out *)


Lemma shape_task_row sid ev data row :
  task_row (ShapeTask sid ev data) row →
  ev_type row = ev ∧ ev_payload row = JData data ∧
  Some (ev_boardId row) = d_boardId data ∧ ev_pageId row = d_pageId data.
Proof.
  intros [db H]. unfold create_row in H. cbn in H.
  repeat case_match; simplify_eq; cbn; done.
Qed.



Lemma durable_before_app (tr es : list Effect) :
  durable_before tr → Forall incidental es → durable_before (tr ++ es).
Proof.
  intros Htr Hes i sid room ev data to Hi Hev.
  apply lookup_app_Some in Hi as [Hi|[_ Hi]].
  - destruct (Htr _ _ _ _ _ _ Hi Hev) as (j & row & Hj & Hrow & Hrest).
    exists j, row. split; [done|]. split; [|done]. by apply lookup_app_l_Some.
  - rewrite Forall_lookup in Hes. specialize (Hes _ _ Hi). by simpl in Hes.
Qed.

Lemma settled_boot db : settled (boot db).
Proof. split; cbn; intros *; by rewrite ?lookup_nil, ?lookup_empty. Qed.

(** A turn that neither writes the database nor resumes a handler. *)
Lemma settled_quiet (s s' : Server) (es : list Effect) :
  settled s →
  srv_db s' = srv_db s →
  srv_trace s' = srv_trace s ++ es →
  Forall incidental es →
  (∀ n t, srv_tasks s' !! n = Some (t, Resolved) →
          srv_tasks s !! n = Some (t, Resolved)) →
  settled s'.
Proof.
  intros [H1 H2 H3] Hdb Htr Hes Htasks. split.
  - rewrite Htr. by apply durable_before_app.
  - intros j row. rewrite Htr, Hdb. intros Hj.
    apply lookup_app_Some in Hj as [Hj|[_ Hj]]; [by eapply H2|].
    rewrite Forall_lookup in Hes. specialize (Hes _ _ Hj). by simpl in Hes.
  - intros n t Hn. destruct (H3 _ _ (Htasks _ _ Hn)) as (j & row & Hj & Hrow).
    exists j, row. rewrite Htr. split; [by apply lookup_app_l_Some|done].
Qed.

Lemma durable_before_snoc (tr : list Effect) (e : Effect) :
  durable_before tr →
  match e with
  | Broadcast sid room ev (WData data) to =>
      ev ∈ shape_events →
      ∃ j row, tr !! j = Some (Created row) ∧
               ev_type row = ev ∧ ev_payload row = JData data ∧
               Some (ev_boardId row) = d_boardId data ∧
               ev_pageId row = d_pageId data ∧
               room = page_room (d_pageId data)
  | _ => True
  end →
  durable_before (tr ++ [e]).
Proof.
  intros Htr He i sid room ev data to Hi Hev.
  apply lookup_snoc_Some in Hi as [[_ Hi]|[-> ->]].
  - destruct (Htr _ _ _ _ _ _ Hi Hev) as (j & row & Hj & Hrow & Hrest).
    exists j, row. split; [done|]. split; [|done]. by apply lookup_app_l_Some.
  - destruct (He Hev) as (j & row & Hj & Hrest).
    exists j, row. split; [by eapply lookup_lt_Some|].
    split; [|done]. by apply lookup_app_l_Some.
Qed.

Lemma settled_crash (s : Server) : settled s → settled (crash s).
Proof.
  intros Hs. eapply (settled_quiet s _ [Exit]); [done|done|done|by repeat constructor|].
  cbn. intros n t Hn. by apply orphaned_lookup in Hn as [? _].
Qed.

Lemma step_settled (s s' : Server) (l : Label) :
  settled s → step s l = Some s' → settled s'.
Proof.
  intros Hs H. destruct l; cbn [step] in H.
  - (* Connect *)
    destruct (srv_sockets s !! sid); [done|]. simplify_eq.
    unfold connect. repeat case_match; cbn.
    all: eapply settled_quiet;
      [done|reflexivity|cbn; rewrite <- ?app_assoc; reflexivity| |done].
    all: repeat constructor.
  - (* Recv *)
    destruct (srv_sockets s !! sid) as [sd|]; [|done]. simplify_eq.
    handler_unfold.
    all: try (by apply settled_crash).
    all: cbn in *.
    all: try done.
    all: eapply settled_quiet;
      [done|reflexivity|cbn; rewrite <- ?app_assoc; try reflexivity;
                        by rewrite app_nil_r| |].
    all: cbn; try done.
    all: try (intros n0 t0; rewrite lookup_insert; case_decide; naive_solver).
    all: repeat constructor; cbn.
    all: unfold shape_events; rewrite !elem_of_cons, elem_of_nil; naive_solver.
  - (* RecvBare *)
    destruct (srv_sockets s !! sid) as [sd|]; [|done]. simplify_eq.
    unfold receive_bare. destruct (registered ev); [by apply settled_crash|done].
  - (* DbCommit *)
    destruct (srv_tasks s !! n) as [[t []]|] eqn:Et; try done.
    destruct (create_row (srv_db s) (task_args t)) as [row|] eqn:Er; [|done].
    simplify_eq. destruct Hs as [H1 H2 H3]. split; cbn.
    + by apply durable_before_snoc.
    + intros j r Hj. rewrite elem_of_app.
      apply lookup_snoc_Some in Hj as [[_ Hj]|[_ Hj]]; [left; by eapply H2|].
      right. simplify_eq. apply list_elem_of_here.
    + intros m t' Hm. rewrite lookup_insert in Hm. case_decide; simplify_eq.
      * exists (List.length (srv_trace s)), row.
        split; [apply lookup_snoc_Some; by right|by exists (srv_db s)].
      * destruct (H3 _ _ Hm) as (j & r & Hj & Hr). exists j, r.
        split; [by apply lookup_app_l_Some|done].
  - (* DbReject *)
    destruct (srv_tasks s !! n) as [[t []]|] eqn:Et; try done. simplify_eq.
    eapply (settled_quiet s _ []); [done|done|by rewrite app_nil_r|constructor|].
    cbn. intros m t'. rewrite lookup_insert. case_decide; naive_solver.
  - (* Resume *)
    destruct (srv_tasks s !! n) as [[t st]|] eqn:Et; [|done].
    destruct st; [by destruct t| |].
    + assert (s' = task_resume (with_tasks s (delete n (srv_tasks s))) t) as ->
        by (destruct t; by simplify_eq).
      clear H. destruct Hs as [H1 H2 H3].
      destruct (H3 _ _ Et) as (j & row & Hj & Hrow).
      assert (Hkeep : ∀ m t', delete n (srv_tasks s) !! m = Some (t', Resolved) →
                              srv_tasks s !! m = Some (t', Resolved)).
      { intros m t'. rewrite lookup_delete. case_decide; naive_solver. }
      destruct t as [sid ev data|sid data event|args]; split; cbn.
      * apply durable_before_snoc; [done|]. intros _.
        destruct (shape_task_row _ _ _ _ Hrow) as (? & ? & ? & ?).
        by exists j, row.
      * intros k r Hk. apply lookup_snoc_Some in Hk as [[_ Hk]|[_ Hk]];
          [by eapply H2|done].
      * intros m t' Hm. destruct (H3 _ _ (Hkeep _ _ Hm)) as (k & r & Hk & Hr).
        exists k, r. split; [by apply lookup_app_l_Some|done].
      * by apply durable_before_snoc.
      * intros k r Hk. apply lookup_snoc_Some in Hk as [[_ Hk]|[_ Hk]];
          [by eapply H2|done].
      * intros m t' Hm. destruct (H3 _ _ (Hkeep _ _ Hm)) as (k & r & Hk & Hr).
        exists k, r. split; [by apply lookup_app_l_Some|done].
      * done.
      * done.
      * intros m t' Hm. exact (H3 _ _ (Hkeep _ _ Hm)).
    + destruct t; simplify_eq; try (by apply settled_crash).
      eapply (settled_quiet s _ []); [done|done|by rewrite app_nil_r|constructor|].
      cbn. intros m t'. rewrite lookup_delete. case_decide; naive_solver.
  - (* Disconnect *)
    destruct (srv_sockets s !! sid); [|done]. simplify_eq.
    by eapply (settled_quiet s _ []); [done|done|by rewrite app_nil_r|constructor|].
Qed.

Lemma run_settled (ls : list Label) (s s' : Server) :
  settled s → run s ls = Some s' → settled s'.
Proof.
  revert s. induction ls as [|l ls IH]; intros s Hs H; cbn [run] in H.
  - by simplify_eq.
  - destruct (step s l) as [s1|] eqn:E; [|done].
    eapply IH; [|done]. by eapply step_settled.
Qed.

(** Claim C3.  In every state the server can reach, the fan-out of a shape
    event to its page room is preceded in the trace by the record of the
    row that stores it, and that row is in the database. *)
Theorem persist_before_broadcast (db : Database) (s : Server) (i : nat)
    (sid room ev : string) (data : Data) (to : gset string) :
  reachable jwt_verify db s →
  ev ∈ shape_events →
  srv_trace s !! i = Some (Broadcast sid room ev (WData data) to) →
  ∃ j row, j < i ∧
           srv_trace s !! j = Some (Created row) ∧
           row ∈ boardEvents (srv_db s) ∧
           ev_type row = ev ∧ ev_payload row = JData data ∧
           Some (ev_boardId row) = d_boardId data ∧
           ev_pageId row = d_pageId data ∧
           room = page_room (d_pageId data).
Proof.
  intros [ls Hrun] Hev Hi.
  destruct (run_settled _ _ _ (settled_boot db) Hrun) as [H1 H2 _].
  destruct (H1 _ _ _ _ _ _ Hi Hev) as (j & row & Hj & Hrow & Hrest).
  exists j, row. split; [done|]. split; [done|]. split; [by eapply H2|done].
Qed.



Lemma strict_eq_false (a b : option string) : a ≠ b → strict_eq a b = false.
Proof.
  destruct a as [x|], b as [y|]; cbn; try done.
  intros H. apply String.eqb_neq. congruence.
Qed.

Lemma strict_eq_refl (a : option string) : strict_eq a a = true.
Proof. destruct a; cbn; [apply String.eqb_refl|done]. Qed.

Lemma switchPage_again (m : SocketManager.t) (boardId pageId : string) :
  let m1 := SocketManager.switchPage m boardId pageId in
  SocketManager.switchPage m1 boardId pageId = m1.
Proof.
  cbn. unfold SocketManager.switchPage.
  destruct (SocketManager.socket m) as [k|] eqn:E; [|by rewrite E].
  destruct (strict_eq (SocketManager.currentPageId m) (Some pageId)) eqn:Eq; cbn.
  - by rewrite E, Eq.
  - by rewrite String.eqb_refl.
Qed.

(** Claim C7, as the code has it.  Two calls of [switchPage] in a row
    with the same target: the second call sends nothing and leaves the
    manager as it is, so the server is given at most one [page:switch]
    and nothing changes on the second call.  The first call sends one
    message when the manager holds a socket and is not yet on the target,
    and none otherwise.  When a message is sent and its board id is the
    connection's, the server runs one leave/join round: the socket is
    then in the target page room, tracks that page, and is out of the
    room of the page it tracked before.  When the board id is another,
    the server answers ['Access denied'] and no membership changes. *)
Theorem switchPage_twice_mutates_once (s : Server) (sid : string)
    (sd : SocketData) (m : SocketManager.t) (boardId pageId : string) :
  srv_sockets s !! sid = Some sd →
  let m1 := SocketManager.switchPage m boardId pageId in
  let m2 := SocketManager.switchPage m1 boardId pageId in
  m2 = m1 ∧
  notices m1 m2 = [] ∧
  ∃ s1, deliver jwt_verify s sid (notices m m1) = Some s1 ∧
        deliver jwt_verify s1 sid (notices m1 m2) = Some s1 ∧
        if negb (bool_decide (is_Some (SocketManager.socket m)))
           || strict_eq (SocketManager.currentPageId m) (Some pageId)
        then notices m m1 = [] ∧ s1 = s
        else
          notices m m1
            = [("page:switch", SocketManager.page_switch_data boardId pageId)] ∧
          if String.eqb (sd_boardId sd) boardId then
            srv_trace s1 = srv_trace s ++
              (if truthy (sd_pageId sd)
               then [Left sid (page_room (sd_pageId sd))] else []) ++
              [Joined sid (page_room (Some pageId))] ∧
            srv_sockets s1 !! sid = Some (set_pageId sd (Some pageId)) ∧
            sid ∈ members (srv_rooms s1) (page_room (Some pageId)) ∧
            (truthy (sd_pageId sd) = true → sd_pageId sd ≠ Some pageId →
             sid ∉ members (srv_rooms s1) (page_room (sd_pageId sd)))
          else
            srv_trace s1 = srv_trace s ++ [Emit sid "error" (WText "Access denied")] ∧
            srv_rooms s1 = srv_rooms s ∧
            srv_sockets s1 = srv_sockets s.
Proof.
  intros Hsock m1 m2.
  assert (Hm2 : m2 = m1) by apply switchPage_again.
  assert (Hsecond : notices m1 m2 = []).
  { unfold notices. rewrite Hm2. apply drop_all. }
  split; [done|]. split; [done|]. rewrite Hsecond.
  destruct (SocketManager.socket m) as [k|] eqn:Hk.
  2:{ exists s. assert (m1 = m) as -> by (unfold m1, SocketManager.switchPage; by rewrite Hk).
      unfold notices. rewrite drop_all. by cbn. }
  destruct (strict_eq (SocketManager.currentPageId m) (Some pageId)) eqn:Hcur.
  { exists s. assert (m1 = m) as ->
      by (unfold m1, SocketManager.switchPage; by rewrite Hk, Hcur).
    unfold notices. rewrite drop_all.
    rewrite bool_decide_eq_true_2 by by eexists. by cbn. }
  rewrite bool_decide_eq_true_2 by by eexists. cbn [negb orb].
  assert (Hfirst : notices m m1
            = [("page:switch", SocketManager.page_switch_data boardId pageId)]).
  { unfold notices, m1, SocketManager.switchPage, SocketManager.sent.
    rewrite Hk, Hcur. cbn. by rewrite drop_app_length. }
  rewrite Hfirst. unfold deliver. cbn [map run step fst snd]. rewrite Hsock.
  eexists. split; [reflexivity|]. split; [reflexivity|]. split; [done|].
  unfold receive. cbn [registered String.eqb Ascii.eqb Bool.eqb run_handler].
  unfold on_page_switch. cbn [SocketManager.page_switch_data d_boardId d_pageId].
  cbn [strict_eq].
  destruct (String.eqb_spec (sd_boardId sd) boardId) as [Hb|Hb]; cbn [negb]; [|done].
  destruct (truthy (sd_pageId sd)) eqn:Hold; cbn.
  - rewrite lookup_insert_eq, <- app_assoc.
    split; [done|]. split; [done|]. split; [apply members_join; by left|].
    intros _ Hne. rewrite members_join, members_leave.
    intros [[Heq _]|[_ Hin]]; [|naive_solver].
    apply page_room_inj in Heq. cbn in Heq.
    destruct (sd_pageId sd) as [p|]; [|done]. cbn in Heq. congruence.
  - rewrite lookup_insert_eq.
    split; [done|]. split; [done|]. split; [apply members_join; by left|done].
Qed.

(** The server's own handler has no guard: a repeated [page:switch] runs
    leave and join again, and ends in the state it started from. *)
Lemma page_switch_repeat_state (s : Server) (sid : string) (sd : SocketData)
    (data : Data) :
  strict_eq (Some (sd_boardId sd)) (d_boardId data) = true →
  let s1 := on_page_switch s sid sd data in
  let s2 := on_page_switch s1 sid (set_pageId sd (d_pageId data)) data in
  srv_rooms s2 = srv_rooms s1 ∧
  srv_sockets s2 = srv_sockets s1 ∧
  srv_trace s2 = srv_trace s1 ++
    (if truthy (d_pageId data)
     then [Left sid (page_room (d_pageId data))] else []) ++
    [Joined sid (page_room (d_pageId data))].
Proof.
  intros Hb. cbn zeta. unfold on_page_switch. cbn [set_pageId sd_boardId sd_pageId].
  rewrite Hb. cbn [negb].
  destruct (truthy (sd_pageId sd)), (truthy (d_pageId data)); cbn.
  all: rewrite insert_insert_eq, <- ?app_assoc.
  all: split; [|done].
  all: first [ apply join_leave_member | apply join_member_id ].
  all: apply members_join; by left.
Qed.

End ServerProperties.

(** ** Remote cursors *)

Section Cursors.

Import CanvasPage.

Lemma map_get_delete (k k' : string) (m : list (string * RemoteCursor)) :
  map_get k m = None → map_get k (map_delete k' m) = None.
Proof.
  unfold map_get, map_delete. induction m as [|[k0 c0] m IH]; cbn; [done|].
  destruct (String.eqb k0 k) eqn:E; cbn; [done|]. intros H.
  destruct (negb (String.eqb k0 k')); cbn; [rewrite E|]; by apply IH.
Qed.

Lemma map_get_delete_eq (k : string) (m : list (string * RemoteCursor)) :
  map_get k (map_delete k m) = None.
Proof.
  unfold map_get, map_delete. induction m as [|[k0 c0] m IH]; cbn; [done|].
  destruct (String.eqb k0 k) eqn:E; cbn; [done|]. by rewrite E.
Qed.

Lemma cleanup_keeps_absent (now : Z) (l : list (string * RemoteCursor)) :
  ∀ cs objs k, map_get k cs = None →
    map_get k (fst (fold_left (cleanup_entry now) l (cs, objs))) = None.
Proof.
  induction l as [|e l IH]; intros cs objs k H; cbn; [done|].
  unfold cleanup_entry at 2. destruct (stale now (snd e)); cbn.
  - apply IH. by apply map_get_delete.
  - by apply IH.
Qed.

Lemma cleanup_drops_stale (now : Z) (l : list (string * RemoteCursor)) :
  ∀ cs objs k c, (k, c) ∈ l → stale now c = true →
    map_get k (fst (fold_left (cleanup_entry now) l (cs, objs))) = None.
Proof.
  induction l as [|e l IH]; intros cs objs k c Hin Hst; [by apply elem_of_nil in Hin|].
  apply elem_of_cons in Hin as [<-|Hin]; cbn.
  - unfold cleanup_entry at 2. cbn. rewrite Hst.
    apply cleanup_keeps_absent, map_get_delete_eq.
  - destruct (cleanup_entry now (cs, objs) e) as [cs' objs']. by eapply IH.
Qed.

(** Claim C5, as the code has it.  While the page's canvas is mounted, a
    tick of the cleanup interval removes every remote cursor last seen
    more than [staleThreshold] milliseconds ago.  The tick is local to the
    browser: the socket manager is left as it was, so nothing is sent. *)
Theorem stale_cursor_removed_silently (now : Z) (v : View) (objs : list nat)
    (socketId : string) (c : RemoteCursor) :
  canvas v = Some objs →
  (socketId, c) ∈ cursors v →
  (now - lastSeen c > staleThreshold)%Z →
  map_get socketId (cursors (cursor_cleanup now v)) = None ∧
  manager (cursor_cleanup now v) = manager v.
Proof.
  intros Hcv Hin Hold. unfold cursor_cleanup. rewrite Hcv. cbn.
  split; [|done]. eapply cleanup_drops_stale; [done|].
  unfold stale. by apply Z.gtb_gt.
Qed.

End Cursors.

(** ** The properties on the sample deployment *)

(** The read-only visitor V tries to add a shape: with a payload V is
    refused; without one the process ends and V hears nothing. *)
Lemma read_only_mutation_outcomes_witness :
  (∀ data, ∃ s',
     step sample_verify (after two_on_p1) (Recv "V" "shape:add" data) = Some s' ∧
     srv_trace s' = srv_trace (after two_on_p1) ++
                    [Emit "V" "error" (WText "Edit permission denied")] ∧
     srv_db s' = srv_db (after two_on_p1) ∧
     srv_tasks s' = srv_tasks (after two_on_p1) ∧
     srv_rooms s' = srv_rooms (after two_on_p1) ∧
     srv_sockets s' = srv_sockets (after two_on_p1)) ∧
  (∃ s', step sample_verify (after two_on_p1) (RecvBare "V" "shape:add") = Some s' ∧
         srv_trace s' = srv_trace (after two_on_p1) ++ [Exit] ∧
         srv_db s' = srv_db (after two_on_p1) ∧
         srv_rooms s' = ∅ ∧
         srv_sockets s' = ∅).
Proof.
  apply (read_only_mutation_outcomes sample_verify (after two_on_p1) "V" "shape:add"
           {| sd_userId := None; sd_boardId := "b1"; sd_pageId := Some "p1";
              sd_canEdit := false; sd_userName := Some "Anonymous User" |}).
  - vm_compute. reflexivity.
  - reflexivity.
  - unfold mutation_events. apply list_elem_of_here.
Defined.

(** A, bound to b1, writes to b2. *)
Lemma shape_event_scope_from_message_witness :
  ∃ s', run sample_verify (after two_on_p1)
          [Recv "A" "shape:add" (msg "b2" "q1"); DbCommit 0; Resume 0] = Some s' ∧
        boardEvents (srv_db s') = boardEvents (srv_db (after two_on_p1)) ++
          [{| ev_boardId := "b2"; ev_pageId := Some "q1"; ev_type := "shape:add";
              ev_payload := JData (msg "b2" "q1") |}] ∧
        srv_trace s' = srv_trace (after two_on_p1) ++
          [Created {| ev_boardId := "b2"; ev_pageId := Some "q1"; ev_type := "shape:add";
                      ev_payload := JData (msg "b2" "q1") |};
           Broadcast "A" ("page:" +:+ "q1") "shape:add" (WData (msg "b2" "q1"))
             (members (srv_rooms (after two_on_p1)) ("page:" +:+ "q1") ∖ {["A"]})].
Proof.
  apply (shape_event_scope_from_message sample_verify (after two_on_p1) "A" "shape:add"
           {| sd_userId := Some "u1"; sd_boardId := "b1"; sd_pageId := Some "p1";
              sd_canEdit := true; sd_userName := Some "Ada" |}
           (msg "b2" "q1") "b2" "q1"
           {| board_id := "b2"; board_ownerId := "u2" |}
           {| bp_id := "q1"; bp_boardId := "b2" |}).
  - vm_compute. reflexivity.
  - reflexivity.
  - unfold shape_events. apply list_elem_of_here.
  - reflexivity.
  - reflexivity.
  - reflexivity.
  - reflexivity.
  - reflexivity.
Defined.

(** A adds a shape on p1; the trace index 5 is the fan-out. *)
Lemma persist_before_broadcast_witness :
  ∃ j row, j < 5 ∧
    srv_trace (after (two_on_p1 ++
      [Recv "A" "shape:add" (msg "b1" "p1"); DbCommit 0; Resume 0])) !! j
      = Some (Created row) ∧
    row ∈ boardEvents (srv_db (after (two_on_p1 ++
      [Recv "A" "shape:add" (msg "b1" "p1"); DbCommit 0; Resume 0]))) ∧
    ev_type row = "shape:add" ∧ ev_payload row = JData (msg "b1" "p1") ∧
    Some (ev_boardId row) = d_boardId (msg "b1" "p1") ∧
    ev_pageId row = d_pageId (msg "b1" "p1") ∧
    "page:p1" = page_room (d_pageId (msg "b1" "p1")).
Proof.
  apply (persist_before_broadcast sample_verify sample_db
           (after (two_on_p1 ++
              [Recv "A" "shape:add" (msg "b1" "p1"); DbCommit 0; Resume 0]))
           5 "A" "page:p1" "shape:add" (msg "b1" "p1") {["V"]}).
  - exists (two_on_p1 ++
              [Recv "A" "shape:add" (msg "b1" "p1"); DbCommit 0; Resume 0]).
    vm_compute. reflexivity.
  - unfold shape_events. apply list_elem_of_here.
  - vm_compute. reflexivity.
Defined.

(** A writes to a board that does not exist: the [create] cannot commit,
    it is rejected, A is told nothing and the process ends. *)
Lemma rejected_create_exits_witness :
  let s := after [Connect "A" (bearer "tok1" "b1" "p1");
                  Recv "A" "shape:add" (msg "zz" "p1")] in
  step sample_verify s (DbCommit 0) = None ∧
  Forall known_emit (srv_trace s) ∧
  ∃ s', run sample_verify s [DbReject 0; Resume 0] = Some s' ∧
        srv_trace s' = srv_trace s ++ [Exit] ∧
        srv_db s' = srv_db s ∧
        srv_sockets s' = ∅ ∧
        srv_rooms s' = ∅.
Proof.
  cbv zeta. split; [vm_compute; reflexivity|].
  apply (rejected_create_exits sample_verify sample_db _ 0
           (ShapeTask "A" "shape:add" (msg "zz" "p1"))).
  - exists [Connect "A" (bearer "tok1" "b1" "p1");
            Recv "A" "shape:add" (msg "zz" "p1")].
    vm_compute. reflexivity.
  - vm_compute. reflexivity.
  - reflexivity.
Defined.

(** The cursor of A, last seen at 1000, is swept at 5000; the browser
    hands nothing to its socket while doing so. *)
Lemma cursor_sweep_sends_no_notice :
  let v' := CanvasPage.cursor_cleanup 5000 sample_view in
  CanvasPage.map_get "A" (CanvasPage.cursors sample_view)
    = Some {| CanvasPage.dot := 0; CanvasPage.label := Some 1;
              CanvasPage.lastSeen := 1000 |} ∧
  CanvasPage.map_get "A" (CanvasPage.cursors v') = None ∧
  notices (CanvasPage.manager sample_view) (CanvasPage.manager v') = [] ∧
  List.length (notices (CanvasPage.manager sample_view) (CanvasPage.manager v')) ≠ 1.
Proof. cbv zeta. repeat split; vm_compute; congruence. Qed.

Lemma stale_cursor_removed_silently_witness :
  CanvasPage.map_get "A"
    (CanvasPage.cursors (CanvasPage.cursor_cleanup 5000 sample_view)) = None ∧
  CanvasPage.manager (CanvasPage.cursor_cleanup 5000 sample_view)
    = CanvasPage.manager sample_view.
Proof.
  apply (stale_cursor_removed_silently 5000 sample_view [0; 1] "A"
           {| CanvasPage.dot := 0; CanvasPage.label := Some 1;
              CanvasPage.lastSeen := 1000 |}).
  - reflexivity.
  - vm_compute. apply list_elem_of_here.
  - vm_compute. reflexivity.
Defined.

(** A announces an asset on b1: V is told, nothing is stored. *)
Lemma asset_add_persists_nothing :
  let ls := two_on_p1 ++ [Recv "A" "asset:add" (msg "b1" "p1")] in
  run sample_verify (boot sample_db) ls = Some (after ls) ∧
  boardEvents (srv_db (after ls)) = [] ∧
  srv_tasks (after ls) = ∅ ∧
  srv_trace (after ls) !! 4
    = Some (Broadcast "A" "board:b1" "asset:add" (WData (msg "b1" "p1")) {["V"]}) ∧
  List.length (srv_trace (after ls)) = 5 ∧
  ¬ ∃ row, Created row ∈ srv_trace (after ls).
Proof.
  cbv zeta. do 5 (split; [vm_compute; reflexivity|]).
  intros (row & H).
  replace (srv_trace _) with
    [Joined "A" "board:b1"; Joined "A" "page:p1";
     Joined "V" "board:b1"; Joined "V" "page:p1";
     Broadcast "A" "board:b1" "asset:add" (WData (msg "b1" "p1")) {["V"]}] in H
    by (vm_compute; reflexivity).
  rewrite !elem_of_cons, elem_of_nil in H. naive_solver.
Qed.

Lemma asset_add_broadcast_only_witness :
  ∃ s', step sample_verify (after two_on_p1) (Recv "A" "asset:add" (msg "b1" "p1"))
          = Some s' ∧
        srv_trace s' = srv_trace (after two_on_p1) ++
          [Broadcast "A" (board_room (d_boardId (msg "b1" "p1"))) "asset:add"
             (WData (msg "b1" "p1"))
             (members (srv_rooms (after two_on_p1))
                (board_room (d_boardId (msg "b1" "p1"))) ∖ {["A"]})] ∧
        srv_db s' = srv_db (after two_on_p1) ∧
        srv_tasks s' = srv_tasks (after two_on_p1).
Proof.
  apply (asset_add_broadcast_only sample_verify (after two_on_p1) "A"
           {| sd_userId := Some "u1"; sd_boardId := "b1"; sd_pageId := Some "p1";
              sd_canEdit := true; sd_userName := Some "Ada" |}).
  - vm_compute. reflexivity.
  - reflexivity.
Defined.

(** A's browser is already on p1 and asks for p1 twice: nothing is sent,
    no membership changes.  And a client that sends [page:switch] for p2
    twice itself makes the server leave and join twice. *)
Lemma switchPage_twice_not_exactly_once :
  let m := SocketManager.connect SocketManager.init (Some "tok1") None
             (Some "b1") (Some "p1") in
  let m1 := SocketManager.switchPage m "b1" "p1" in
  let m2 := SocketManager.switchPage m1 "b1" "p1" in
  notices m m1 = [] ∧ notices m1 m2 = [] ∧
  deliver sample_verify (after two_on_p1) "A" (notices m m1 ++ notices m1 m2)
    = Some (after two_on_p1) ∧
  srv_trace (after (two_on_p1 ++ [Recv "A" "page:switch" (msg "b1" "p2");
                                  Recv "A" "page:switch" (msg "b1" "p2")]))
  = srv_trace (after two_on_p1) ++
    [Left "A" "page:p1"; Joined "A" "page:p2";
     Left "A" "page:p2"; Joined "A" "page:p2"].
Proof. cbv zeta. repeat split; vm_compute; reflexivity. Qed.

(** A's browser, connected on p1 of b1, switches to p2 twice. *)
Lemma switchPage_twice_mutates_once_witness :
  let m := SocketManager.connect SocketManager.init (Some "tok1") None
             (Some "b1") (Some "p1") in
  let m1 := SocketManager.switchPage m "b1" "p2" in
  let m2 := SocketManager.switchPage m1 "b1" "p2" in
  let sd := {| sd_userId := Some "u1"; sd_boardId := "b1";
               sd_pageId := Some "p1"; sd_canEdit := true;
               sd_userName := Some "Ada" |} in
  m2 = m1 ∧
  notices m1 m2 = [] ∧
  ∃ s1, deliver sample_verify (after two_on_p1) "A" (notices m m1) = Some s1 ∧
        deliver sample_verify s1 "A" (notices m1 m2) = Some s1 ∧
        notices m m1 = [("page:switch", SocketManager.page_switch_data "b1" "p2")] ∧
        srv_trace s1 = srv_trace (after two_on_p1) ++
          [Left "A" (page_room (Some "p1"))] ++ [Joined "A" (page_room (Some "p2"))] ∧
        srv_sockets s1 !! "A" = Some (set_pageId sd (Some "p2")) ∧
        "A" ∈ members (srv_rooms s1) (page_room (Some "p2")) ∧
        (truthy (sd_pageId sd) = true → sd_pageId sd ≠ Some "p2" →
         "A" ∉ members (srv_rooms s1) (page_room (sd_pageId sd))).
Proof.
  apply (switchPage_twice_mutates_once sample_verify (after two_on_p1) "A"
           {| sd_userId := Some "u1"; sd_boardId := "b1"; sd_pageId := Some "p1";
              sd_canEdit := true; sd_userName := Some "Ada" |}
           (SocketManager.connect SocketManager.init (Some "tok1") None
              (Some "b1") (Some "p1"))
           "b1" "p2").
  vm_compute. reflexivity.
Defined.


(** User u3 holds a valid token and no membership anywhere; the
    connection to b1 is accepted read-only. *)
Lemma bearer_without_membership_witness :
  ∃ s' sd, step sample_verify (after two_on_p1) (Connect "C" (bearer "tok3" "b1" "p1"))
             = Some s' ∧
           srv_sockets s' !! "C" = Some sd ∧
           sd_boardId sd = "b1" ∧
           sd_userId sd = Some "u3" ∧
           sd_canEdit sd = String.eqb "u1" "u3" ∧
           "C" ∈ members (srv_rooms s') (board_room (Some "b1")) ∧
           srv_trace s' = srv_trace (after two_on_p1) ++
             Joined "C" (board_room (Some "b1")) ::
             (if truthy (auth_pageId (bearer "tok3" "b1" "p1"))
              then [Joined "C" (page_room (auth_pageId (bearer "tok3" "b1" "p1")))]
              else []).
Proof.
  apply (bearer_without_membership sample_verify (after two_on_p1) "C"
           (bearer "tok3" "b1" "p1") "tok3" "b1" "u3"
           {| user_id := "u3"; user_email := "eve@example.org"; user_name := None |}
           {| board_id := "b1"; board_ownerId := "u1" |}).
  - vm_compute. reflexivity.
  - reflexivity.
  - reflexivity.
  - reflexivity.
  - reflexivity.
  - reflexivity.
  - reflexivity.
  - reflexivity.
  - intros m Hm.
    replace (memberships (srv_db (after two_on_p1))) with (memberships sample_db)
      in Hm by (vm_compute; reflexivity).
    cbn in Hm. rewrite !elem_of_cons, elem_of_nil in Hm.
    destruct Hm as [->|[->|[]]]; cbn; discriminate.
Defined.

(** The owner of b1 presents the token together with s1, a read-only
    link of b1: accepted as Ada, with [canEdit]. *)
Lemma bearer_overrides_share_token_witness :
  let a := bearer "tok1" "b1" "p1" in
  let d := {| sd_userId := Some "u1"; sd_boardId := "b1"; sd_pageId := Some "p1";
              sd_canEdit := true; sd_userName := Some "Ada" |} in
  find_shareLink sample_db "s1"
    = Some {| link_token := "s1"; link_boardId := "b1"; link_canEdit := false |} ∧
  io_use sample_verify (srv_db (boot sample_db)) (with_shareToken a (Some "s1"))
    = Accepted d ∧
  ∃ s', step sample_verify (boot sample_db) (Connect "A" (with_shareToken a (Some "s1")))
          = Some s' ∧
        srv_sockets s' !! "A" = Some d ∧
        "A" ∈ members (srv_rooms s') (board_room (Some "b1")).
Proof.
  cbv zeta. split; [reflexivity|].
  destruct (bearer_overrides_share_token sample_verify (boot sample_db) "A"
              (bearer "tok1" "b1" "p1") (Some "s1") eq_refl) as (_ & _ & H).
  apply (H "tok1" "b1" "u1"
           {| user_id := "u1"; user_email := "ada@example.org"; user_name := Some "Ada" |}
           {| board_id := "b1"; board_ownerId := "u1" |});
    reflexivity.
Defined.

(** * Further properties of the code *)

(** ** Invariants of the socket server *)

Section ServerInvariants.

Variable jwt_verify : string -> option string.

Local Abbreviation step := (step jwt_verify).
Local Abbreviation run := (run jwt_verify).

Ltac handler_unfold :=
  unfold receive, receive_bare, registered, run_handler, on_page_switch,
    handleShapeEvent, on_presence_cursor, on_page_settings_update,
    on_asset_add, on_canvas_event, connect, on_disconnect, task_resume,
    to_emit, emit, socket_join, socket_leave, suspend in *;
  repeat case_match; simplify_eq.

Ltac handler_cases := handler_unfold; unfold crash in *; cbn in *.

(** Only four kinds of turn touch the adapter or [socket.data]. *)
Lemma step_rooms_sockets (s s' : Server) (l : Label) :
  step s l = Some s' →
  (srv_rooms s' = srv_rooms s ∧ srv_sockets s' = srv_sockets s ∧
   ∃ es, srv_trace s' = srv_trace s ++ es ∧ Exit ∉ es) ∨
  (∃ sid a, l = Connect sid a ∧ srv_sockets s !! sid = None ∧
            s' = connect jwt_verify s sid a) ∨
  (∃ sid sd data, l = Recv sid "page:switch" data ∧
                  srv_sockets s !! sid = Some sd ∧
                  s' = on_page_switch s sid sd data) ∨
  (∃ sid sd, l = Disconnect sid ∧ srv_sockets s !! sid = Some sd ∧
             s' = on_disconnect s sid) ∨
  s' = crash s.
Proof.
  assert (Hquiet : ∀ es : list Effect,
            Forall (fun e => e ≠ Exit) es → Exit ∉ es).
  { intros es Hes Hin. rewrite Forall_forall in Hes. by apply (Hes _ Hin). }
  intros H. destruct l; cbn [step] in H.
  - destruct (srv_sockets s !! sid) eqn:E; [done|]. simplify_eq.
    right. left. by exists sid, a.
  - destruct (srv_sockets s !! sid) as [sd|] eqn:E; [|done]. simplify_eq.
    unfold receive, registered.
    destruct (String.eqb_spec ev "page:switch") as [->|Hne].
    + right. right. left. by exists sid, sd, data.
    + handler_unfold; try (by do 4 right); left; cbn;
        (split; [done|]; split; [done|]);
        first [ by exists []; rewrite app_nil_r; split; [|apply Hquiet]
              | eexists; split; [reflexivity|apply Hquiet; by repeat constructor] ].
  - destruct (srv_sockets s !! sid) as [sd|] eqn:E; [|done]. simplify_eq.
    unfold receive_bare. destruct (registered ev); [by do 4 right|].
    left. do 2 (split; [done|]). exists []. by rewrite app_nil_r; split; [|apply Hquiet].
  - left. repeat case_match; simplify_eq. cbn. do 2 (split; [done|]).
    eexists; split; [reflexivity|apply Hquiet; by repeat constructor].
  - left. repeat case_match; simplify_eq. cbn. do 2 (split; [done|]).
    exists []. by rewrite app_nil_r; split; [|apply Hquiet].
  - destruct (srv_tasks s !! n) as [[t st]|] eqn:Et; [|done].
    destruct st; [by destruct t| |].
    + left. destruct t; simplify_eq; cbn; (split; [done|]; split; [done|]);
        first [ by exists []; rewrite app_nil_r; split; [|apply Hquiet]
              | eexists; split; [reflexivity|apply Hquiet; by repeat constructor] ].
    + destruct t; simplify_eq; try (by do 4 right).
      left. cbn. do 2 (split; [done|]).
      exists []. by rewrite app_nil_r; split; [|apply Hquiet].
  - destruct (srv_sockets s !! sid) as [sd|] eqn:E; [|done]. simplify_eq.
    right. right. right. left. by exists sid, sd.
Qed.

Lemma housed_boot db : housed (boot db).
Proof.
  split; cbn; intros *; rewrite ?lookup_empty; try done.
Qed.

Lemma step_housed (s s' : Server) (l : Label) :
  housed s → step s l = Some s' → housed s'.
Proof.
  intros [H1 H2 H3] H.
  destruct (step_rooms_sockets _ _ _ H) as
    [(Hr & Hs & _)|[(sid & a & -> & Hfree & ->)|[(sid & sd & data & -> & Hsd & ->)|
     [(sid & sd & -> & Hsd & ->)| ->]]]].
  - split; rewrite ?Hr, ?Hs; done.
  - (* Connect *)
    assert (Hout : ∀ room, sid ∉ members (srv_rooms s) room).
    { intros room Hin. destruct (H1 _ _ Hin) as (sd & Hsd & _). congruence. }
    unfold connect. destruct (io_use jwt_verify (srv_db s) a) as [msg|d]; [by split|].
    assert (Hhome : ∀ room c,
              c ∈ members (join sid (board_room (Some (sd_boardId d))) (srv_rooms s)) room →
              ∃ sd, <[sid:=d]> (srv_sockets s) !! c = Some sd ∧
                    (room = board_room (Some (sd_boardId sd)) ∨ ∃ p, room = page_room p)).
    { intros room c. rewrite members_join. intros [[<- ->]|Hin].
      - exists d. split; [by rewrite lookup_insert_eq|by left].
      - destruct (decide (c = sid)) as [->|Hc]; [by destruct (Hout _ Hin)|].
        rewrite lookup_insert_ne by done. by apply H1. }
    assert (Hboard : ∀ c sd, <[sid:=d]> (srv_sockets s) !! c = Some sd →
              c ∈ members (join sid (board_room (Some (sd_boardId d))) (srv_rooms s))
                          (board_room (Some (sd_boardId sd)))).
    { intros c sd. rewrite members_join, lookup_insert. case_decide; intros ?; simplify_eq.
      - by left.
      - right. by apply H2. }
    destruct (truthy (sd_pageId d)) eqn:Ep; split; cbn.
    + intros room c. rewrite members_join. intros [[<- ->]|Hin]; [|by apply Hhome].
      exists d. split; [by rewrite lookup_insert_eq|]. right. by eexists.
    + intros c sd Hc. apply members_join. right. by apply Hboard.
    + intros c sd. rewrite members_join, members_join, lookup_insert.
      case_decide; intros ? Hp; simplify_eq.
      * by left.
      * right. right. by apply H3.
    + done.
    + done.
    + intros c sd. rewrite members_join, lookup_insert.
      destruct (decide (sid = c)) as [->|Hc]; intros Hsd Hp.
      * congruence.
      * right. by apply H3.
  - (* page:switch *)
    unfold on_page_switch.
    destruct (negb (strict_eq (Some (sd_boardId sd)) (d_boardId data))); [by split|].
    destruct (truthy (sd_pageId sd)) eqn:Et; split; cbn.
    + intros room c. rewrite members_join, members_leave, lookup_insert.
      case_decide; simplify_eq.
      * intros [[<- _]|[Hin Hn]]; (eexists; split; [done|]).
        -- right. by eexists.
        -- destruct (H1 _ _ Hin) as (sd0 & Hsd0 & Hroom). by simplify_eq.
      * intros [[_ ->]|[Hin _]]; [done|]. by apply H1.
    + intros c sd0. rewrite members_join, members_leave, lookup_insert.
      case_decide; simplify_eq.
      * intros ?. simplify_eq. cbn. right. split; [by apply H2|].
        intros [Hr _]. by apply page_room_not_board in Hr.
      * intros Hc. right. split; [by apply H2|]. naive_solver.
    + intros c sd0. rewrite members_join, members_leave, lookup_insert.
      case_decide; simplify_eq.
      * intros ? _. simplify_eq. cbn. by left.
      * intros Hc Hp. right. split; [by apply H3|]. naive_solver.
    + intros room c. rewrite members_join, lookup_insert.
      case_decide; simplify_eq.
      * intros [[<- _]|Hin]; (eexists; split; [done|]).
        -- right. by eexists.
        -- destruct (H1 _ _ Hin) as (sd0 & Hsd0 & Hroom). by simplify_eq.
      * intros [[_ ->]|Hin]; [done|]. by apply H1.
    + intros c sd0. rewrite members_join, lookup_insert.
      case_decide; simplify_eq.
      * intros ?. simplify_eq. cbn. right. by apply H2.
      * intros Hc. right. by apply H2.
    + intros c sd0. rewrite members_join, lookup_insert.
      case_decide; simplify_eq.
      * intros ? _. simplify_eq. cbn. by left.
      * intros Hc Hp. right. by apply H3.
  - (* Disconnect *)
    unfold on_disconnect. split; cbn.
    + intros room c. rewrite members_leave_all. intros [Hin Hne].
      rewrite lookup_delete_ne by done. by apply H1.
    + intros c sd0. rewrite lookup_delete. case_decide; [done|].
      intros Hc. apply members_leave_all. split; [by apply H2|done].
    + intros c sd0. rewrite lookup_delete. case_decide; [done|].
      intros Hc Hp. apply members_leave_all. split; [by apply H3|done].
  - (* the process ends *)
    split; cbn; intros *; rewrite ?members_empty, ?lookup_empty; set_solver.
Qed.

Lemma run_housed (ls : list Label) (s s' : Server) :
  housed s → run s ls = Some s' → housed s'.
Proof.
  revert s. induction ls as [|l ls IH]; intros s Hs H; cbn [run] in H.
  - by simplify_eq.
  - destruct (step s l) as [s1|] eqn:E; [|done].
    eapply IH; [|done]. by eapply step_housed.
Qed.

(** X1: in every reachable state the members of a board room are
    connected sockets that were bound to that very board at the
    handshake: no socket sits in the room of another board. *)
Theorem board_rooms_are_isolated (db : Database) (s : Server) (b c : string) :
  reachable jwt_verify db s →
  c ∈ members (srv_rooms s) (board_room (Some b)) →
  ∃ sd, srv_sockets s !! c = Some sd ∧ sd_boardId sd = b.
Proof.
  intros [ls Hrun] Hin.
  destruct (housed_members _ (run_housed _ _ _ (housed_boot db) Hrun) _ _ Hin)
    as (sd & Hsd & [Hroom|[p Hroom]]).
  - exists sd. split; [done|]. unfold board_room in Hroom. by simplify_eq/=.
  - symmetry in Hroom. by apply page_room_not_board in Hroom.
Qed.

(** X2: in every reachable state each connected socket is a member of
    the room of the board it was bound to at the handshake. *)
Theorem connected_socket_in_board_room (db : Database) (s : Server)
    (c : string) (sd : SocketData) :
  reachable jwt_verify db s →
  srv_sockets s !! c = Some sd →
  c ∈ members (srv_rooms s) (board_room (Some (sd_boardId sd))).
Proof.
  intros [ls Hrun] Hc.
  by apply (housed_board _ (run_housed _ _ _ (housed_boot db) Hrun)).
Qed.

(** X3: who a fan-out issued from a reachable state reaches, in terms of
    [socket.data]: when the target is a board room, exactly the other
    connected sockets bound to that board; when it is the room of a page
    with a truthy id, at least every other connected socket that tracks
    that page. *)
Theorem broadcast_audience (db : Database) (s s' : Server) (l : Label)
    (i : nat) (sid room ev : string) (w : Wire) (to : gset string) :
  reachable jwt_verify db s →
  step s l = Some s' →
  List.length (srv_trace s) ≤ i →
  srv_trace s' !! i = Some (Broadcast sid room ev w to) →
  (∀ b, room = board_room (Some b) →
        ∀ c, c ∈ to ↔
             (c ≠ sid ∧ ∃ sd, srv_sockets s !! c = Some sd ∧ sd_boardId sd = b)) ∧
  (∀ p, room = page_room (Some p) → truthy (Some p) = true →
        ∀ c sd, c ≠ sid → srv_sockets s !! c = Some sd → sd_pageId sd = Some p →
                c ∈ to).
Proof.
  intros [ls Hrun] Hstep Hi Hb.
  pose proof (run_housed _ _ _ (housed_boot db) Hrun) as [H1 H2 H3].
  destruct (step_new_effects jwt_verify _ _ _ Hstep) as (es & Htr & Hpick).
  rewrite Htr in Hb. rewrite lookup_app_r in Hb by done.
  rewrite Forall_lookup in Hpick. specialize (Hpick _ _ Hb). cbn in Hpick.
  subst to. unfold recipients. split.
  - intros b -> c. rewrite elem_of_difference, not_elem_of_singleton. split.
    + intros [Hin Hne]. split; [done|].
      destruct (H1 _ _ Hin) as (sd & Hsd & [Hroom|[p Hroom]]).
      * exists sd. split; [done|]. unfold board_room in Hroom. by simplify_eq/=.
      * symmetry in Hroom. by apply page_room_not_board in Hroom.
    + intros (Hne & sd & Hsd & <-). split; [|done]. by apply H2.
  - intros p -> Hp c sd Hne Hsd Hpage.
    rewrite elem_of_difference, not_elem_of_singleton. split; [|done].
    rewrite <- Hpage. apply H3; [done|]. by rewrite Hpage.
Qed.

Lemma step_credentials (s s' : Server) (l : Label) (c : string) (sd : SocketData) :
  step s l = Some s' → srv_sockets s !! c = Some sd → l ≠ Disconnect c →
  (∃ sd', srv_sockets s' !! c = Some sd' ∧ credentials sd' = credentials sd ∧
          ∃ es, srv_trace s' = srv_trace s ++ es ∧ Exit ∉ es) ∨
  s' = crash s.
Proof.
  intros H Hc Hl.
  destruct (step_rooms_sockets _ _ _ H) as
    [(Hr & Hs & Hq)|[(sid & a & -> & Hfree & ->)|[(sid & sd0 & data & -> & Hsd & ->)|
     [(sid & sd0 & -> & Hsd & ->)| ->]]]]; [left..|by right].
  - exists sd. by rewrite Hs.
  - exists sd. split; [|split; [done|]].
    + unfold connect. assert (sid ≠ c) by congruence.
      repeat case_match; cbn; rewrite ?lookup_insert_ne by done; done.
    + unfold connect. repeat case_match; cbn; rewrite <- ?app_assoc;
        (eexists; split; [reflexivity|]); set_solver.
  - unfold on_page_switch. destruct (negb _).
    + exists sd. cbn. do 2 (split; [done|]).
      eexists; split; [reflexivity|set_solver].
    + assert (∃ sd', <[sid := set_pageId sd0 (d_pageId data)]> (srv_sockets s) !! c
                       = Some sd' ∧ credentials sd' = credentials sd)
        as (sd' & Hsd' & Hcred).
      { destruct (decide (sid = c)) as [->|Hne].
        - rewrite lookup_insert_eq. simplify_eq. by eexists.
        - rewrite lookup_insert_ne by done. by exists sd. }
      exists sd'. destruct (truthy _); cbn; rewrite <- ?app_assoc;
        (do 2 (split; [done|])); (eexists; split; [reflexivity|set_solver]).
  - exists sd. split; [|split; [done|]].
    + cbn. rewrite lookup_delete_ne; [done|congruence].
    + exists []. cbn. rewrite app_nil_r. split; [done|]. set_solver.
Qed.

(** X4: over any run in which the socket is not disconnected, either the
    process has ended in between ([Exit] is among the new effects) or
    the socket is still registered with the user id, board id, [canEdit]
    flag and user name it had; only the page id moves. *)
Theorem credentials_fixed_while_connected (ls : list Label) (s s' : Server)
    (c : string) (sd : SocketData) :
  run s ls = Some s' →
  srv_sockets s !! c = Some sd →
  Disconnect c ∉ ls →
  Exit ∈ drop (List.length (srv_trace s)) (srv_trace s') ∨
  ∃ sd', srv_sockets s' !! c = Some sd' ∧
         sd_userId sd' = sd_userId sd ∧ sd_boardId sd' = sd_boardId sd ∧
         sd_canEdit sd' = sd_canEdit sd ∧ sd_userName sd' = sd_userName sd.
Proof.
  assert (Hgrow : ∀ ls s s', run s ls = Some s' →
            ∃ es, srv_trace s' = srv_trace s ++ es).
  { clear. intros ls. induction ls as [|l ls IH]; intros s s' H; cbn [run] in H.
    - simplify_eq. exists []. by rewrite app_nil_r.
    - destruct (step s l) as [s1|] eqn:E; [|done].
      destruct (step_new_effects jwt_verify _ _ _ E) as (es1 & Hes1 & _).
      destruct (IH _ _ H) as (es & Hes). exists (es1 ++ es).
      by rewrite Hes, Hes1, app_assoc. }
  revert s sd. induction ls as [|l ls IH]; intros s sd H Hc Hno; cbn [run] in H.
  - simplify_eq. right. by exists sd.
  - destruct (step s l) as [s1|] eqn:E; [|done].
    apply not_elem_of_cons in Hno as [Hl Hno].
    destruct (step_credentials _ _ _ _ _ E Hc) as
      [(sd1 & Hc1 & Heq & es1 & Htr1 & Hq1)| ->]; [done| |].
    + destruct (IH _ _ H Hc1 Hno) as [Hexit|(sd' & Hc' & H1 & H2 & H3 & H4)].
      * left. rewrite Htr1, length_app in Hexit.
        destruct (Hgrow _ _ _ H) as (es & Hes). rewrite Hes, Htr1 in *.
        rewrite <- !app_assoc, drop_app_length.
        rewrite <- app_assoc in Hexit.
        replace (List.length (srv_trace s) + List.length es1)
          with (List.length (srv_trace s ++ es1)) in Hexit by by rewrite length_app.
        rewrite app_assoc, drop_app_length in Hexit. set_solver.
      * right. exists sd'. unfold credentials in Heq. simplify_eq.
        by rewrite H1, H2, H3, H4.
    + left. destruct (Hgrow _ _ _ H) as (es & ->). cbn.
      rewrite <- app_assoc, drop_app_length. set_solver.
Qed.

Lemma step_database (s s' : Server) (l : Label) :
  step s l = Some s' →
  srv_db s' = srv_db s ∨
  ∃ n t row, l = DbCommit n ∧ srv_tasks s !! n = Some (t, InFlight) ∧
             create_row (srv_db s) (task_args t) = Some row ∧
             srv_db s' = append_event (srv_db s) row.
Proof.
  intros H. destruct l; cbn [step] in H; repeat case_match; simplify_eq;
    try (left; handler_cases; done).
  right. eauto 10.
Qed.

Lemma create_row_board db a row :
  create_row db a = Some row → is_Some (find_board db (ev_boardId row)).
Proof.
  unfold create_row. intros H. repeat case_match; simplify_eq; cbn; eauto.
Qed.

(** X5: whatever the socket server is sent, the tables of users, boards,
    memberships, share links and pages stay as they are, and
    [board_events] only gains rows at its end, each for a board that
    exists. *)
Theorem database_only_grows (ls : list Label) (s s' : Server) :
  run s ls = Some s' →
  users (srv_db s') = users (srv_db s) ∧
  boards (srv_db s') = boards (srv_db s) ∧
  memberships (srv_db s') = memberships (srv_db s) ∧
  shareLinks (srv_db s') = shareLinks (srv_db s) ∧
  boardPages (srv_db s') = boardPages (srv_db s) ∧
  ∃ rows, boardEvents (srv_db s') = boardEvents (srv_db s) ++ rows ∧
          Forall (fun row => is_Some (find_board (srv_db s) (ev_boardId row))) rows.
Proof.
  revert s. induction ls as [|l ls IH]; intros s H; cbn [run] in H.
  - simplify_eq. repeat split. exists []. by rewrite app_nil_r.
  - destruct (step s l) as [s1|] eqn:E; [|done].
    destruct (IH _ H) as (Hu & Hb & Hm & Hl & Hp & rows & Hev & Hrows).
    destruct (step_database _ _ _ E) as [Hdb|(n & t & row & -> & Ht & Hrow & Hdb)].
    + rewrite Hdb in *. repeat split; try done. by exists rows.
    + rewrite Hdb in *. cbn in *. repeat split; try done.
      exists (row :: rows). split; [by rewrite Hev, <- app_assoc|].
      constructor; [by eapply create_row_board|].
      eapply Forall_impl; [done|]. by intros r; cbn.
Qed.


Lemma canvas_task_row sid data e row :
  task_row (CanvasTask sid data e) row →
  ev_payload row = JEvent e ∧ Some (ev_type row) = ce_type e ∧
  Some (ev_boardId row) = d_boardId data ∧
  row_room row = if truthy (d_pageId data) then page_room (d_pageId data)
                 else board_room (d_boardId data).
Proof.
  intros [db H]. unfold create_row in H. cbn in H. unfold row_room.
  destruct (d_pageId data) as [[|c0 p0]|]; cbn in *;
    repeat case_match; simplify_eq; cbn in *; simplify_eq; done.
Qed.

Lemma legacy_durable_before_snoc (tr : list Effect) (e : Effect) :
  legacy_durable_before tr →
  match e with
  | Broadcast sid room ev (WEvent ce) to =>
      ∃ j row, tr !! j = Some (Created row) ∧
               ev = "canvas-event" ∧ ev_payload row = JEvent ce ∧
               Some (ev_type row) = ce_type ce ∧ room = row_room row
  | _ => True
  end →
  legacy_durable_before (tr ++ [e]).
Proof.
  intros Htr He i sid room ev ce to Hi.
  apply lookup_snoc_Some in Hi as [[_ Hi]|[-> ->]].
  - destruct (Htr _ _ _ _ _ _ Hi) as (j & row & Hj & Hrow & Hrest).
    exists j, row. split; [done|]. split; [|done]. by apply lookup_app_l_Some.
  - destruct He as (j & row & Hj & Hrest).
    exists j, row. split; [by eapply lookup_lt_Some|].
    split; [|done]. by apply lookup_app_l_Some.
Qed.

Lemma legacy_durable_before_app (tr es : list Effect) :
  legacy_durable_before tr →
  Forall (fun e => match e with Broadcast _ _ _ (WEvent _) _ => False | _ => True end) es →
  legacy_durable_before (tr ++ es).
Proof.
  intros Htr Hes. induction es as [|e es IH] using rev_ind; [by rewrite app_nil_r|].
  apply Forall_app in Hes as [Hes He]. rewrite app_assoc.
  apply legacy_durable_before_snoc; [by apply IH|].
  rewrite Forall_singleton in He.
  destruct e as [| | | |? ? ? w ?| |]; try done. destruct w; cbn in *; done.
Qed.

Lemma step_legacy (s s' : Server) (l : Label) :
  settled s → legacy_durable_before (srv_trace s) → step s l = Some s' →
  legacy_durable_before (srv_trace s').
Proof.
  intros Hs Hl H. destruct l; cbn [step] in H.
  - destruct (srv_sockets s !! sid); [done|]. simplify_eq.
    unfold connect. repeat case_match; cbn; rewrite <- ?app_assoc;
      apply legacy_durable_before_app; try done; repeat constructor.
  - destruct (srv_sockets s !! sid) as [sd|]; [|done]. simplify_eq.
    handler_cases; rewrite <- ?app_assoc; try done;
      apply legacy_durable_before_app; try done; repeat constructor.
  - destruct (srv_sockets s !! sid) as [sd|]; [|done]. simplify_eq.
    unfold receive_bare. destruct (registered ev); [|done].
    by apply legacy_durable_before_snoc.
  - repeat case_match; simplify_eq. cbn.
    by apply legacy_durable_before_snoc.
  - repeat case_match; by simplify_eq.
  - destruct (srv_tasks s !! n) as [[t st]|] eqn:Et; [|done].
    destruct st; [by destruct t| |].
    + destruct (settled_tasks _ Hs _ _ Et) as (j & row & Hj & Hrow).
      destruct t as [sid ev data|sid data e|args]; simplify_eq; cbn.
      * by apply legacy_durable_before_snoc.
      * apply legacy_durable_before_snoc; [done|].
        destruct (canvas_task_row _ _ _ _ Hrow) as (? & ? & ? & ?).
        by exists j, row.
      * done.
    + destruct t; simplify_eq; try done; by apply legacy_durable_before_snoc.
  - repeat case_match; by simplify_eq.
Qed.

Lemma run_legacy (ls : list Label) (s s' : Server) :
  settled s → legacy_durable_before (srv_trace s) → run s ls = Some s' →
  legacy_durable_before (srv_trace s').
Proof.
  revert s. induction ls as [|l ls IH]; intros s Hs Hl H; cbn [run] in H.
  - by simplify_eq.
  - destruct (step s l) as [s1|] eqn:E; [|done].
    eapply IH; [by eapply step_settled|by eapply step_legacy|done].
Qed.

(** X6: every fan-out of a legacy [canvas-event] in a reachable trace
    comes after the record of a stored row that has the event as payload
    and the event's type, and is addressed to the page room of that row,
    or to its board room when the row has no page. *)
Theorem legacy_persist_before_broadcast (db : Database) (s : Server) (i : nat)
    (sid room ev : string) (e : CanvasEv) (to : gset string) :
  reachable jwt_verify db s →
  srv_trace s !! i = Some (Broadcast sid room ev (WEvent e) to) →
  ∃ j row, j < i ∧
           srv_trace s !! j = Some (Created row) ∧
           row ∈ boardEvents (srv_db s) ∧
           ev = "canvas-event" ∧
           ev_payload row = JEvent e ∧
           Some (ev_type row) = ce_type e ∧
           room = row_room row.
Proof.
  intros [ls Hrun] Hi.
  pose proof (run_settled _ _ _ _ (settled_boot db) Hrun) as Hs.
  assert (Hl : legacy_durable_before (srv_trace s)).
  { eapply run_legacy; [apply (settled_boot db)| |done].
    intros ? ? ? ? ? ? H. cbn in H. by rewrite lookup_nil in H. }
  destruct (Hl _ _ _ _ _ _ Hi) as (j & row & Hj & Hrow & Hrest).
  exists j, row. split; [done|]. split; [done|].
  split; [by eapply (settled_rows _ Hs)|done].
Qed.


(** X7: a legacy [canvas-event] whose page id is missing or empty, sent
    by an editor for an existing board, is stored with a null page and
    then fanned out to the room of the board named in the message. *)
Theorem legacy_event_without_page (s : Server) (sid b t : string)
    (sd : SocketData) (data : Data) (e : CanvasEv) (bd : Board) :
  srv_sockets s !! sid = Some sd →
  sd_canEdit sd = true →
  d_event data = Some e →
  ce_type e = Some t →
  d_boardId data = Some b →
  truthy (d_pageId data) = false →
  find_board (srv_db s) b = Some bd →
  let n := srv_next s in
  let row := {| ev_boardId := b; ev_pageId := None; ev_type := t;
                ev_payload := JEvent e |} in
  ∃ s', run s [Recv sid "canvas-event" data; DbCommit n; Resume n] = Some s' ∧
        boardEvents (srv_db s') = boardEvents (srv_db s) ++ [row] ∧
        srv_trace s' = srv_trace s ++
          [Created row;
           Broadcast sid ("board:" +:+ b) "canvas-event" (WEvent e)
             (members (srv_rooms s) ("board:" +:+ b) ∖ {[sid]})].
Proof.
  intros Hsock Hrw He Ht Hb Hp Hbd n row.
  cbn [run step]. rewrite Hsock. unfold receive. cbn [registered String.eqb
    Ascii.eqb Bool.eqb run_handler].
  unfold on_canvas_event. rewrite Hrw, He. cbn [negb].
  cbn [suspend srv_tasks srv_db srv_next]. rewrite lookup_insert_eq.
  unfold create_row. cbn [task_args ca_boardId ca_type ca_pageId ca_payload].
  rewrite Hb, Ht, Hp, Hbd.
  cbn [with_trace with_tasks with_db srv_tasks srv_db srv_next srv_trace
       srv_rooms srv_sockets].
  rewrite lookup_insert_eq.
  eexists. split; [reflexivity|].
  cbn. rewrite Hp, Hb. cbn. split; [done|]. by rewrite <- app_assoc.
Qed.

Lemma shape_event_run (s : Server) (sid ev : string) (sd : SocketData)
    (data : Data) (b p : string) (bd : Board) (pg : BoardPage) :
  srv_sockets s !! sid = Some sd →
  sd_canEdit sd = true →
  ev ∈ shape_events →
  d_boardId data = Some b →
  d_pageId data = Some p → truthy (Some p) = true →
  find_board (srv_db s) b = Some bd →
  find_page (srv_db s) p = Some pg →
  ∃ s', run s [Recv sid ev data; DbCommit (srv_next s); Resume (srv_next s)]
          = Some s' ∧
        srv_trace s' = srv_trace s ++
          [Created {| ev_boardId := b; ev_pageId := Some p; ev_type := ev;
                      ev_payload := JData data |};
           Broadcast sid (page_room (Some p)) ev (WData data)
             (recipients (srv_rooms s) sid (page_room (Some p)))].
Proof.
  intros Hsock Hrw Hev Hb Hp Hpt Hbd Hpg.
  cbn [run step]. rewrite Hsock. unfold receive.
  rewrite (registered_shape _ Hev). cbn [run_handler].
  unfold handleShapeEvent. rewrite Hrw, Hp, Hpt. cbn [negb].
  cbn [suspend srv_tasks srv_db srv_next]. rewrite lookup_insert_eq.
  unfold create_row. cbn [task_args ca_boardId ca_type ca_pageId ca_payload].
  rewrite Hb, Hp, Hbd, Hpg.
  cbn [with_trace with_tasks with_db srv_tasks srv_db srv_next srv_trace
       srv_rooms srv_sockets].
  rewrite lookup_insert_eq.
  eexists. split; [reflexivity|].
  cbn. rewrite Hp. by rewrite <- app_assoc.
Qed.

(** X8: [page:switch] compares the board id of the message with the
    connection's and never asks which board the page belongs to: a
    socket naming its own board and any page joins that page's room and
    receives the next shape event an editor sends there. *)
Theorem any_page_room_can_be_joined (s : Server) (x e ev b p : string)
    (sdx sde : SocketData) (data : Data) (bd : Board) (pg : BoardPage) :
  srv_sockets s !! x = Some sdx →
  srv_sockets s !! e = Some sde →
  x ≠ e →
  sd_canEdit sde = true →
  ev ∈ shape_events →
  truthy (Some p) = true →
  d_boardId data = Some b →
  d_pageId data = Some p →
  find_board (srv_db s) b = Some bd →
  find_page (srv_db s) p = Some pg →
  let n := srv_next s in
  let switch := {| d_boardId := Some (sd_boardId sdx); d_pageId := Some p;
                   d_event := None; d_fields := [] |} in
  ∃ s' to,
    run s [Recv x "page:switch" switch; Recv e ev data; DbCommit n; Resume n]
      = Some s' ∧
    last (srv_trace s')
      = Some (Broadcast e (page_room (Some p)) ev (WData data) to) ∧
    x ∈ to.
Proof.
  intros Hx He Hxe Hrw Hev Hp Hb Hdp Hbd Hpg n switch.
  cbn [run step]. rewrite Hx. unfold receive at 1.
  cbn [registered String.eqb Ascii.eqb Bool.eqb run_handler].
  set (s1 := on_page_switch s x sdx switch).
  assert (H1 : srv_sockets s1 !! e = Some sde ∧ srv_db s1 = srv_db s ∧
               srv_next s1 = n ∧ x ∈ members (srv_rooms s1) (page_room (Some p))).
  { unfold s1, on_page_switch. cbn [switch d_boardId d_pageId].
    rewrite strict_eq_refl. cbn [negb].
    destruct (truthy (sd_pageId sdx)); cbn; rewrite lookup_insert_ne by done;
      (repeat split; try done); apply members_join; by left. }
  destruct H1 as (He1 & Hd1 & Hn1 & Hin).
  destruct (shape_event_run s1 e ev sde data b p bd pg) as (s' & Hrun & Htr);
    try done; try (by rewrite Hd1).
  rewrite Hn1 in Hrun. exists s', (recipients (srv_rooms s1) e (page_room (Some p))).
  split; [done|]. rewrite Htr. split.
  - by rewrite last_app.
  - unfold recipients. set_solver.
Qed.

(** X9: a [page:switch] without page id puts the socket into the room
    [page:undefined], and the next switch does not take it out:
    afterwards the socket is in both page rooms. *)
Theorem switch_without_page_id_is_never_undone (s : Server) (sid p : string)
    (sd : SocketData) :
  srv_sockets s !! sid = Some sd →
  truthy (Some p) = true →
  let blank := {| d_boardId := Some (sd_boardId sd); d_pageId := None;
                  d_event := None; d_fields := [] |} in
  let switch := {| d_boardId := Some (sd_boardId sd); d_pageId := Some p;
                   d_event := None; d_fields := [] |} in
  ∃ s', run s [Recv sid "page:switch" blank; Recv sid "page:switch" switch]
          = Some s' ∧
        srv_sockets s' !! sid = Some (set_pageId sd (Some p)) ∧
        sid ∈ members (srv_rooms s') "page:undefined" ∧
        sid ∈ members (srv_rooms s') (page_room (Some p)).
Proof.
  intros Hsd Hp blank switch.
  cbn [run step]. rewrite Hsd. unfold receive at 1.
  cbn [registered String.eqb Ascii.eqb Bool.eqb run_handler].
  set (s1 := on_page_switch s sid sd blank).
  assert (H1 : srv_sockets s1 !! sid = Some (set_pageId sd None) ∧
               sid ∈ members (srv_rooms s1) "page:undefined").
  { unfold s1, on_page_switch. cbn [blank d_boardId d_pageId].
    rewrite strict_eq_refl. cbn [negb].
    destruct (truthy (sd_pageId sd)); cbn; rewrite lookup_insert_eq;
      (split; [done|]); apply members_join; by left. }
  destruct H1 as [Hs1 Hin]. rewrite Hs1.
  eexists. split; [reflexivity|].
  unfold receive. cbn [registered String.eqb Ascii.eqb Bool.eqb run_handler].
  unfold on_page_switch. cbn [switch set_pageId sd_boardId sd_pageId d_boardId
    d_pageId truthy]. rewrite strict_eq_refl. cbn.
  rewrite lookup_insert_eq. split; [done|].
  rewrite !members_join. split; [by right|by left].
Qed.

Lemma find_elem_of {A} (f : A → bool) (l : list A) (x : A) :
  find f l = Some x → x ∈ l ∧ f x = true.
Proof.
  intros H. apply find_some in H as [Hin Hf]. split; [|done].
  by apply list_elem_of_In.
Qed.

(** X10: an accepted handshake named a board and either carried a token
    that verifies for a stored user, the board being stored, or carried
    no usable token and the token of a stored share link of that board,
    whose flag becomes [canEdit]; [socket.data] holds the board and the
    page of the handshake. *)
Theorem handshake_needs_credential (db : Database) (a : HandshakeAuth)
    (d : SocketData) :
  io_use jwt_verify db a = Accepted d →
  auth_boardId a = Some (sd_boardId d) ∧
  truthy (auth_boardId a) = true ∧
  sd_pageId d = auth_pageId a ∧
  ((∃ token user board,
      auth_token a = Some token ∧ truthy (Some token) = true ∧
      jwt_verify token = Some (user_id user) ∧
      user ∈ users db ∧ board ∈ boards db ∧
      board_id board = sd_boardId d ∧
      sd_userId d = Some (user_id user))
   ∨
   (∃ link,
      truthy (auth_token a) = false ∧
      auth_shareToken a = Some (link_token link) ∧
      link ∈ shareLinks db ∧
      link_boardId link = sd_boardId d ∧
      sd_userId d = None ∧
      sd_canEdit d = link_canEdit link)).
Proof.
  unfold io_use. intros H.
  destruct (auth_boardId a) as [[|c0 b0]|] eqn:Eb; try done.
  destruct (auth_token a) as [[|c1 t1]|] eqn:Et.
  2:{ destruct (jwt_verify (String c1 t1)) as [sub|] eqn:Ev; [|done].
      destruct (find_user db sub) as [user|] eqn:Eu; [|done].
      destruct (find_board db (String c0 b0)) as [board|] eqn:Ebd; [|done].
      simplify_eq. cbn. do 3 (split; [done|]). left.
      apply find_elem_of in Eu as [Hu Hid]. apply String.eqb_eq in Hid.
      apply find_elem_of in Ebd as [Hb Hbid]. apply String.eqb_eq in Hbid.
      exists (String c1 t1), user, board. rewrite Hid. done. }
  all: destruct (auth_shareToken a) as [[|c2 t2]|] eqn:Es; try done.
  all: destruct (find_shareLink db (String c2 t2)) as [link|] eqn:El; [|done].
  all: destruct (String.eqb_spec (link_boardId link) (String c0 b0)); [|done].
  all: simplify_eq; cbn; do 3 (split; [done|]); right.
  all: apply find_elem_of in El as [Hl Htok]; apply String.eqb_eq in Htok.
  all: exists link; by rewrite Htok.
Qed.

(** X11: a connection accepted with [canEdit] is that of the board's
    owner, of a member with role OWNER or EDITOR, or of the anonymous
    holder of an editing share link of that board. *)
Theorem edit_capability_sound (db : Database) (a : HandshakeAuth)
    (d : SocketData) :
  io_use jwt_verify db a = Accepted d →
  sd_canEdit d = true →
  (∃ uid, sd_userId d = Some uid ∧
     ((∃ board, board ∈ boards db ∧ board_id board = sd_boardId d ∧
                board_ownerId board = uid)
      ∨
      (∃ m, m ∈ memberships db ∧ mem_userId m = uid ∧
            mem_boardId m = sd_boardId d ∧
            (mem_role m = OWNER ∨ mem_role m = EDITOR))))
  ∨
  (sd_userId d = None ∧
   ∃ link, link ∈ shareLinks db ∧ link_boardId link = sd_boardId d ∧
           auth_shareToken a = Some (link_token link) ∧
           link_canEdit link = true).
Proof.
  unfold io_use. intros H Hedit.
  destruct (auth_boardId a) as [[|c0 b0]|] eqn:Eb; try done.
  destruct (auth_token a) as [[|c1 t1]|] eqn:Et.
  2:{ destruct (jwt_verify (String c1 t1)) as [sub|] eqn:Ev; [|done].
      destruct (find_user db sub) as [user|] eqn:Eu; [|done].
      destruct (find_board db (String c0 b0)) as [board|] eqn:Ebd; [|done].
      simplify_eq. cbn in *. left. exists (user_id user). split; [done|].
      apply find_elem_of in Ebd as [Hb Hbid]. apply String.eqb_eq in Hbid.
      unfold resolve in Hedit. apply orb_true_iff in Hedit as [Ho|Hr].
      - left. exists board. apply String.eqb_eq in Ho. done.
      - right.
        destruct (find _ (board_memberships db (board_id board))) as [m|] eqn:Em;
          [|done].
        apply find_elem_of in Em as [Hm Hmu]. apply String.eqb_eq in Hmu.
        unfold board_memberships in Hm. apply list_elem_of_filter in Hm as [Hmb Hm].
        exists m. rewrite Hmb, Hbid. do 3 (split; [done|]).
        cbn in Hr. destruct (mem_role m); naive_solver. }
  all: destruct (auth_shareToken a) as [[|c2 t2]|] eqn:Es; try done.
  all: destruct (find_shareLink db (String c2 t2)) as [link|] eqn:El; [|done].
  all: destruct (String.eqb_spec (link_boardId link) (String c0 b0)); [|done].
  all: simplify_eq; cbn in *; right; split; [done|].
  all: apply find_elem_of in El as [Hl Htok]; apply String.eqb_eq in Htok.
  all: exists link; by rewrite Htok.
Qed.


Lemma shape_is_page_scoped ev : ev ∈ shape_events → ev ∈ page_scoped_events.
Proof. unfold shape_events, page_scoped_events. set_solver. Qed.

Lemma dispatched_crash (s : Server) : dispatched s → dispatched (crash s).
Proof.
  intros [Ht Hk]. split; cbn.
  - apply Forall_app. split; [done|]. by repeat constructor.
  - intros n sid ev data st Hn. by apply orphaned_lookup in Hn as (_ & t0 & _ & ?).
Qed.

Lemma step_dispatched (s s' : Server) (l : Label) :
  dispatched s → step s l = Some s' → dispatched s'.
Proof.
  intros Hd H. pose proof (dispatched_crash s Hd) as Hcrash.
  destruct Hd as [Ht Hk]. destruct l; cbn [step] in H.
  - destruct (srv_sockets s !! sid); [done|]. simplify_eq.
    unfold connect. repeat case_match; split; cbn; try done;
      rewrite <- ?app_assoc; apply Forall_app; split; try done; repeat constructor.
  - destruct (srv_sockets s !! sid) as [sd|]; [|done]. simplify_eq.
    handler_unfold; try done; cbn in *;
      split; cbn; try done; rewrite <- ?app_assoc;
      try (apply Forall_app; split; [done|];
           repeat (apply Forall_cons; split); try apply Forall_nil; cbn).
    all: try (intros n0 sid0 ev0 data0 st0; rewrite lookup_insert;
              case_decide; [|by apply Hk]; intros ?; simplify_eq).
    all: try match goal with H : negb (truthy ?p) = false |- _ =>
               apply negb_false_iff in H end.
    all: unfold shape_events, page_scoped_events.
    all: try (split; [set_solver|done]).
    all: try (right; split; [set_solver|done]).
    all: try (by left).
    all: try done.
  - destruct (srv_sockets s !! sid) as [sd|]; [|done]. simplify_eq.
    unfold receive_bare. destruct (registered ev); [|by split].
    done.
  - repeat case_match; simplify_eq. split; cbn.
    + apply Forall_app. split; [done|]. by repeat constructor.
    + intros n0 sid0 ev0 data0 st0. rewrite lookup_insert.
      case_decide; [|by apply Hk]. intros ?; simplify_eq. by eapply Hk.
  - repeat case_match; simplify_eq. split; cbn; [done|].
    intros n0 sid0 ev0 data0 st0. rewrite lookup_insert.
    case_decide; [|by apply Hk]. intros ?; simplify_eq. by eapply Hk.
  - destruct (srv_tasks s !! n) as [[t st]|] eqn:Et; [|done].
    assert (Hkeep : ∀ n0 sid0 ev0 data0 st0,
              delete n (srv_tasks s) !! n0 = Some (ShapeTask sid0 ev0 data0, st0) →
              ev0 ∈ shape_events ∧ truthy (d_pageId data0) = true).
    { intros *. rewrite lookup_delete. case_decide; [done|]. by apply Hk. }
    destruct st; [by destruct t| |].
    + destruct t as [sid ev data|sid data e|args]; simplify_eq; split; cbn; try done.
      * apply Forall_app. split; [done|]. apply Forall_singleton. cbn.
        destruct (Hk _ _ _ _ _ Et) as [Hev Hp]. right.
        split; [by apply shape_is_page_scoped|done].
      * apply Forall_app. split; [done|]. by repeat constructor.
    + destruct t; by simplify_eq.
  - destruct (srv_sockets s !! sid); [|done]. simplify_eq. by split.
Qed.

Lemma run_dispatched (ls : list Label) (s s' : Server) :
  dispatched s → run s ls = Some s' → dispatched s'.
Proof.
  revert s. induction ls as [|l ls IH]; intros s Hs H; cbn [run] in H.
  - by simplify_eq.
  - destruct (step s l) as [s1|] eqn:E; [|done].
    eapply IH; [|done]. by eapply step_dispatched.
Qed.

(** X12: every fan-out in a reachable trace is addressed by its own
    payload: [asset:add] to the board room of the message's board id;
    shape events, page settings and cursors to the room of the message's
    page id, which is not falsy; a cursor carries the sender's socket
    id; a text is never broadcast. *)
Theorem broadcasts_are_routed_by_payload (db : Database) (s : Server)
    (i : nat) (e : Effect) :
  reachable jwt_verify db s →
  srv_trace s !! i = Some e →
  routed e.
Proof.
  intros [ls Hrun] Hi.
  assert (Hd : dispatched (boot db)).
  { split; cbn; [constructor|]. intros *. by rewrite lookup_empty. }
  pose proof (dispatched_trace _ (run_dispatched _ _ _ Hd Hrun)) as Ht.
  rewrite Forall_lookup in Ht. by eapply Ht.
Qed.

End ServerInvariants.

(** ** Socket manager against the server *)

Section ClientServer.

Variable jwt_verify : string -> option string.

Lemma js_or_truthy_r (a b : option string) :
  truthy b = true → truthy (js_or a b) = true.
Proof. intros Hb. unfold js_or. by destruct (truthy a) eqn:E. Qed.

Lemma display_name_truthy user : truthy (BoardView.display_name user) = true.
Proof. by apply js_or_truthy_r. Qed.

(** X13: the board page calls [connect(boardId, activePageId, userName,
    userColor)], so the board id travels as the token and the user name
    as the board id; unless the board id verifies as a token, the server
    refuses this handshake with [Authentication failed]. *)
Theorem board_page_handshake_refused (db : Database) (m : SocketManager.t)
    (boardId userColor : string) (activePageId : option string)
    (user : option BoardView.ClientUser) :
  (∀ k, SocketManager.socket m = Some k → cs_connected k = false) →
  truthy (Some boardId) = true →
  truthy activePageId = true →
  jwt_verify boardId = None →
  ∃ k, SocketManager.socket
         (BoardView.socket_effect m boardId true activePageId user userColor)
       = Some k ∧
       io_use jwt_verify db (cs_auth k) = Refused "Authentication failed".
Proof.
  intros Hm Hb Hp Hv. unfold BoardView.socket_effect. rewrite Hp. cbn.
  unfold SocketManager.connect.
  assert (Hname := display_name_truthy user).
  destruct (SocketManager.socket m) as [[a [] snt]|] eqn:E.
  - by specialize (Hm _ eq_refl).
  - eexists. split; [done|]. unfold io_use. cbn.
    destruct (BoardView.display_name user) as [[|]|]; try done.
    destruct boardId; [done|]. by rewrite Hv.
  - eexists. split; [done|]. unfold io_use. cbn.
    destruct (BoardView.display_name user) as [[|]|]; try done.
    destruct boardId; [done|]. by rewrite Hv.
Qed.

(** X14: when [switchPage] is called with a board id that is not the
    connection's, the server answers [Access denied] and changes
    nothing, yet the manager records the page as current; the same call
    with the right board id then sends nothing. *)
Theorem refused_switch_is_not_retried (s : Server) (sid : string)
    (sd : SocketData) (m : SocketManager.t) (k : ClientSocket)
    (wrong pageId : string) :
  SocketManager.socket m = Some k →
  SocketManager.currentPageId m ≠ Some pageId →
  srv_sockets s !! sid = Some sd →
  wrong ≠ sd_boardId sd →
  let m1 := SocketManager.switchPage m wrong pageId in
  let m2 := SocketManager.switchPage m1 (sd_boardId sd) pageId in
  deliver jwt_verify s sid (notices m m1)
    = Some (emit s sid "error" (WText "Access denied")) ∧
  SocketManager.currentPageId m1 = Some pageId ∧
  m2 = m1 ∧
  notices m1 m2 = [].
Proof.
  intros Hk Hcur Hsock Hb m1 m2.
  assert (Hsent : SocketManager.sent m1 = SocketManager.sent m ++
            [("page:switch", SocketManager.page_switch_data wrong pageId)]).
  { unfold m1, SocketManager.switchPage, SocketManager.sent.
    by rewrite Hk, (strict_eq_false _ _ Hcur). }
  assert (Hcur1 : SocketManager.currentPageId m1 = Some pageId).
  { unfold m1, SocketManager.switchPage.
    by rewrite Hk, (strict_eq_false _ _ Hcur). }
  assert (Hm2 : m2 = m1).
  { unfold m2, SocketManager.switchPage. rewrite Hcur1, strict_eq_refl. cbn.
    by destruct (SocketManager.socket m1). }
  split; [|split; [done|split; [done|]]].
  - unfold notices. rewrite Hsent, drop_app_length.
    unfold deliver. cbn [map run step fst snd]. rewrite Hsock.
    unfold receive. cbn [registered String.eqb Ascii.eqb Bool.eqb run_handler].
    unfold on_page_switch. cbn [SocketManager.page_switch_data d_boardId].
    rewrite strict_eq_false; [done|congruence].
  - unfold notices. rewrite Hm2. apply drop_all.
Qed.

(** X15: when the manager and the server agree on the current page,
    [switchPage] with the connection's own board id leaves them
    agreeing, on the new page. *)
Theorem switchPage_keeps_page_in_step (s : Server) (sid : string)
    (sd : SocketData) (m : SocketManager.t) (k : ClientSocket)
    (pageId : string) :
  SocketManager.socket m = Some k →
  srv_sockets s !! sid = Some sd →
  SocketManager.currentPageId m = sd_pageId sd →
  let m1 := SocketManager.switchPage m (sd_boardId sd) pageId in
  ∃ s1 sd1, deliver jwt_verify s sid (notices m m1) = Some s1 ∧
            srv_sockets s1 !! sid = Some sd1 ∧
            SocketManager.currentPageId m1 = Some pageId ∧
            sd_pageId sd1 = Some pageId.
Proof.
  intros Hk Hsock Hagree m1.
  unfold m1, notices, SocketManager.switchPage, SocketManager.sent. rewrite Hk.
  destruct (strict_eq (SocketManager.currentPageId m) (Some pageId)) eqn:Eq; cbn.
  - rewrite Hk, drop_all. exists s, sd. split; [done|]. split; [done|].
    assert (SocketManager.currentPageId m = Some pageId) as Hc.
    { destruct (SocketManager.currentPageId m) as [q|]; [|done].
      cbn in Eq. apply String.eqb_eq in Eq. by subst. }
    split; [done|]. by rewrite <- Hagree.
  - rewrite drop_app_length. unfold deliver. cbn [map run step fst snd].
    rewrite Hsock. eexists _, _. split; [reflexivity|].
    unfold receive. cbn [registered String.eqb Ascii.eqb Bool.eqb run_handler].
    unfold on_page_switch. cbn [SocketManager.page_switch_data d_boardId d_pageId].
    rewrite strict_eq_refl. cbn.
    destruct (truthy (sd_pageId sd)); cbn; by rewrite lookup_insert_eq.
Qed.

End ClientServer.

(** ** Page sizes *)

(** X16: the size the server stores for a page-creation request equals
    the size [getPageSize] computes for it in the browser exactly when
    the request has no preset, or lacks a non-zero width or height, or
    asks for the very width and height of its preset. *)
Theorem page_size_agreement (sz : Sizes.SizeRequest) :
  Sizes.server_page_size sz = Sizes.getPageSize (Some sz) ↔
  (Sizes.preset sz = None ∨
   Sizes.truthy_num (Sizes.widthPx sz) && Sizes.truthy_num (Sizes.heightPx sz) = false ∨
   ∃ k, Sizes.preset sz = Some k ∧
        (Sizes.num (Sizes.widthPx sz), Sizes.num (Sizes.heightPx sz)) = Sizes.presets k).
Proof.
  unfold Sizes.server_page_size, Sizes.getPageSize.
  destruct (Sizes.preset sz) as [k|]; cbn.
  - destruct (Sizes.truthy_num (Sizes.widthPx sz) && Sizes.truthy_num (Sizes.heightPx sz)).
    + split.
      * intros H. right. right. by exists k.
      * intros [?|[?|(k' & ? & ?)]]; by simplify_eq.
    + split; [by right; left|]. by destruct k.
  - split; [by left|]. intros _.
    by destruct (Sizes.truthy_num (Sizes.widthPx sz) && Sizes.truthy_num (Sizes.heightPx sz)).
Qed.

(** ** The cursor map *)

Section CursorBook.

Import CanvasPage.

Lemma keys_functional (l : list (string * RemoteCursor)) k a b :
  NoDup (map fst l) → (k, a) ∈ l → (k, b) ∈ l → a = b.
Proof.
  induction l as [|[k0 c0] l IH]; cbn; intros Hnd Ha Hb.
  - by apply elem_of_nil in Ha.
  - apply NoDup_cons in Hnd as [Hk Hnd].
    apply elem_of_cons in Ha as [Ha|Ha]; apply elem_of_cons in Hb as [Hb|Hb];
      simplify_eq; try done.
    + destruct Hk. apply list_elem_of_fmap. by exists (k0, b).
    + destruct Hk. apply list_elem_of_fmap. by exists (k0, a).
    + by apply IH.
Qed.

Lemma map_get_elem (l : list (string * RemoteCursor)) k c :
  NoDup (map fst l) → (k, c) ∈ l → map_get k l = Some c.
Proof.
  unfold map_get. induction l as [|[k0 c0] l IH]; cbn; intros Hnd Hin.
  - by apply elem_of_nil in Hin.
  - apply NoDup_cons in Hnd as [Hk Hnd].
    apply elem_of_cons in Hin as [Hin|Hin]; simplify_eq.
    + by rewrite String.eqb_refl.
    + destruct (String.eqb_spec k0 k) as [->|Hne]; cbn.
      * destruct Hk. apply list_elem_of_fmap. by exists (k, c).
      * by apply IH.
Qed.

Lemma map_set_keys k v (l : list (string * RemoteCursor)) :
  map fst (map_set k v l) =
  if decide (k ∈ map fst l) then map fst l else map fst l ++ [k].
Proof.
  induction l as [|[k0 c0] l IH]; cbn; [done|].
  destruct (String.eqb_spec k0 k) as [->|Hne]; cbn.
  - rewrite decide_True; [done|apply list_elem_of_here].
  - rewrite IH. destruct (decide (k ∈ map fst l)) as [Hin|Hout].
    + rewrite decide_True; [done|by apply list_elem_of_further].
    + rewrite decide_False; [done|]. rewrite elem_of_cons. naive_solver.
Qed.

Lemma map_set_NoDup k v (l : list (string * RemoteCursor)) :
  NoDup (map fst l) → NoDup (map fst (map_set k v l)).
Proof.
  intros Hnd. rewrite map_set_keys. case_decide; [done|].
  apply NoDup_app. split; [done|]. split; [|apply NoDup_singleton].
  intros x Hx Hk. apply list_elem_of_singleton in Hk. by subst.
Qed.

Lemma map_set_elem k v (l : list (string * RemoteCursor)) :
  (k, v) ∈ map_set k v l.
Proof.
  induction l as [|[k0 c0] l IH]; cbn; [apply list_elem_of_here|].
  destruct (String.eqb k0 k); [apply list_elem_of_here|by apply list_elem_of_further].
Qed.

Lemma filter_filter_bool {A} (f g : A → bool) (l : list A) :
  List.filter f (List.filter g l) = List.filter (fun x => g x && f x) l.
Proof.
  induction l as [|x l IH]; cbn; [done|].
  destruct (g x); cbn; [destruct (f x)|]; by rewrite IH.
Qed.

Lemma cleanup_fold (now : Z) (l : list (string * RemoteCursor)) :
  ∀ cs objs,
    fst (fold_left (cleanup_entry now) l (cs, objs)) =
    List.filter
      (fun e => forallb (fun e' => negb (stale now (snd e') && String.eqb (fst e) (fst e'))) l)
      cs.
Proof.
  induction l as [|e0 l IH]; intros cs objs; cbn.
  - induction cs as [|x cs IHc]; cbn; [done|]. by rewrite <- IHc.
  - unfold cleanup_entry at 2. destruct (stale now (snd e0)) eqn:E; cbn.
    + rewrite IH. unfold map_delete. rewrite filter_filter_bool.
      apply List.filter_ext. intros x. done.
    + rewrite IH. apply List.filter_ext. intros x. done.
Qed.

Lemma cleanup_filter (now : Z) (v : View) (objs : list nat) :
  canvas v = Some objs →
  NoDup (map fst (cursors v)) →
  cursors (cursor_cleanup now v)
  = List.filter (fun e => negb (stale now (snd e))) (cursors v) ∧
  NoDup (map fst (cursors (cursor_cleanup now v))).
Proof.
  intros Hcv Hnd. unfold cursor_cleanup. rewrite Hcv. cbn.
  assert (Heq : fst (fold_left (cleanup_entry now) (cursors v) (cursors v, objs))
                = List.filter (fun e => negb (stale now (snd e))) (cursors v)).
  { rewrite cleanup_fold. apply List.filter_ext_in. intros [k c] Hin. cbn.
    apply list_elem_of_In in Hin.
    destruct (stale now c) eqn:Es; cbn.
    - apply not_true_is_false. intros Hall.
      rewrite forallb_forall in Hall. apply list_elem_of_In in Hin.
      specialize (Hall _ Hin). cbn in Hall. by rewrite Es, String.eqb_refl in Hall.
    - apply forallb_forall. intros [k' c'] Hin'. cbn.
      apply list_elem_of_In in Hin'.
      destruct (String.eqb_spec k k') as [<-|Hne]; [|by rewrite andb_false_r].
      by rewrite (keys_functional _ _ _ _ Hnd Hin' Hin), Es. }
  rewrite Heq. split; [done|].
  clear Heq. induction (cursors v) as [|[k c] l IH]; cbn; [constructor|].
  cbn in Hnd. apply NoDup_cons in Hnd as [Hk Hnd].
  destruct (stale now c); cbn; [by apply IH|].
  apply NoDup_cons. split; [|by apply IH].
  intros Hin. apply Hk. apply list_elem_of_fmap in Hin as ([k' c'] & -> & Hin).
  apply list_elem_of_In, filter_In in Hin as [Hin _].
  apply list_elem_of_fmap. exists (k', c'). split; [done|by apply list_elem_of_In].
Qed.

(** X17: on a mounted page one run of the cursor cleanup leaves exactly
    the cursors that are not stale, in their order, and the socket ids
    stay distinct. *)
Theorem cursor_cleanup_exact (now : Z) (v : View) (objs : list nat) :
  canvas v = Some objs →
  NoDup (map fst (cursors v)) →
  cursors (cursor_cleanup now v)
  = List.filter (fun e => negb (stale now (snd e))) (cursors v) ∧
  NoDup (map fst (cursors (cursor_cleanup now v))).
Proof. apply cleanup_filter. Qed.

(** X18: a cursor updated at time [now] is still on the page after a
    cleanup at any time up to [now + 3000], and gone after a cleanup
    later than that. *)
Theorem cursor_lifetime (now later : Z) (v : View) (objs : list nat)
    (socketId : string) :
  isActive v = true →
  canvas v = Some objs →
  NoDup (map fst (cursors v)) →
  ∃ c, lastSeen c = now ∧
       map_get socketId
         (cursors (cursor_cleanup later (updateRemoteCursor now v socketId)))
       = if (later - now >? staleThreshold)%Z then None else Some c.
Proof.
  intros Hact Hcv Hnd.
  set (u := updateRemoteCursor now v socketId).
  assert (Hu : ∃ c objs', canvas u = Some objs' ∧ lastSeen c = now ∧
                          (socketId, c) ∈ cursors u ∧ NoDup (map fst (cursors u))).
  { unfold u, updateRemoteCursor. rewrite Hact, Hcv. cbn.
    destruct (map_get socketId (cursors v)); cbn;
      (eexists _, _; split; [done|]; split; [|split; [apply map_set_elem|by apply map_set_NoDup]]);
      done. }
  destruct Hu as (c & objs' & Hcu & Hls & Hin & Hndu).
  exists c. split; [done|].
  destruct (later - now >? staleThreshold)%Z eqn:Eold.
  - unfold cursor_cleanup. rewrite Hcu. cbn.
    eapply cleanup_drops_stale; [done|]. unfold stale. by rewrite Hls.
  - destruct (cleanup_filter later u objs' Hcu Hndu) as [Heq Hnd'].
    apply map_get_elem; [done|].
    rewrite Heq. apply list_elem_of_In, filter_In.
    split; [by apply list_elem_of_In|]. cbn. unfold stale. by rewrite Hls, Eold.
Qed.

End CursorBook.

(** ** REST routes *)

Lemma js_split_spaceless (t : string) :
  spaceless t = true → js_split space t = [t].
Proof.
  induction t as [|c r IH]; cbn; [done|].
  intros H. apply andb_true_iff in H as [Hc Hr].
  apply negb_true_iff in Hc. rewrite Hc, IH; done.
Qed.

Lemma strip_prefix_spec (pat t r : string) :
  strip_prefix pat t = Some r → t = pat +:+ r.
Proof.
  revert t. induction pat as [|a pat IH]; intros t H.
  - cbn in H. by simplify_eq.
  - destruct t as [|b t]; [done|]. cbn [strip_prefix] in H.
    destruct (Ascii.eqb_spec a b) as [->|]; [|done].
    by rewrite (IH _ H).
Qed.

Lemma strip_bearer_has_space (t : string) (r : string) :
  strip_prefix "Bearer " t = Some r → spaceless t = false.
Proof. intros H. apply strip_prefix_spec in H. by subst. Qed.

Lemma remove_first_spaceless (t : string) :
  spaceless t = true → remove_first "Bearer " t = t.
Proof.
  induction t as [|c r IH]; intros H; [done|].
  unfold remove_first; fold remove_first.
  destruct (strip_prefix "Bearer " (String c r)) as [rest|] eqn:E.
  - apply strip_bearer_has_space in E. congruence.
  - cbn in H. apply andb_true_iff in H as [_ Hr]. by rewrite IH.
Qed.

Lemma bearer_token_of_header (c : Ascii.ascii) (r : string) :
  spaceless (String c r) = true →
  Rest.bearer_token (ApiClient.getHeaders (Some (String c r))) = Some (String c r).
Proof.
  intros H. unfold ApiClient.getHeaders, Rest.bearer_token.
  change (js_split space ("Bearer " +:+ String c r))
    with ("Bearer" :: js_split space (String c r)).
  by rewrite (js_split_spaceless _ H).
Qed.

(** X19: from the [Authorization] header that the web client builds for
    a stored token without blanks, both server-side readers, [split('
    ')[1]] of [authenticateToken] and [replace('Bearer ', '')] of the
    asset route, recover that token. *)
Theorem api_client_token_round_trip (c : Ascii.ascii) (r : string) :
  spaceless (String c r) = true →
  Rest.bearer_token (ApiClient.getHeaders (Some (String c r))) = Some (String c r) ∧
  Rest.asset_token (ApiClient.getHeaders (Some (String c r))) = Some (String c r).
Proof. intros H. split; [by apply bearer_token_of_header|reflexivity]. Qed.

Section RestRoutes.

Variable jwt_verify : string -> option string.

Local Abbreviation authenticateToken := (Rest.authenticateToken jwt_verify).

Lemma authenticate_bearer (db : Database) (c : Ascii.ascii) (r sub : string)
    (user : User) :
  spaceless (String c r) = true →
  jwt_verify (String c r) = Some sub →
  find_user db sub = Some user →
  authenticateToken db (ApiClient.getHeaders (Some (String c r))) = inr user.
Proof.
  intros Hs Hv Hu. unfold Rest.authenticateToken.
  rewrite (bearer_token_of_header c r Hs).
  by rewrite Hv, Hu.
Qed.

(** X20: [authenticateToken] lets a request through only when the second
    blank-separated word of its [Authorization] header is a non-empty
    token that verifies for a stored user, and that user is the one it
    puts into [req.user]. *)
Theorem authenticate_sound (db : Database) (authorization : option string)
    (user : User) :
  authenticateToken db authorization = inr user →
  ∃ h token,
    authorization = Some h ∧
    js_split space h !! 1 = Some token ∧
    truthy (Some token) = true ∧
    jwt_verify token = Some (user_id user) ∧
    user ∈ users db.
Proof.
  unfold Rest.authenticateToken, Rest.bearer_token. intros H.
  destruct authorization as [[|c0 h0]|]; try done.
  destruct (js_split space (String c0 h0) !! 1) as [[|c1 t1]|] eqn:Et; try done.
  destruct (jwt_verify (String c1 t1)) as [sub|] eqn:Ev; [|done].
  destruct (find_user db sub) as [u|] eqn:Eu; [|done]. simplify_eq.
  apply find_elem_of in Eu as [Hin Hid]. apply String.eqb_eq in Hid. subst sub.
  by exists (String c0 h0), (String c1 t1).
Qed.

(** X21: an [Authorization] header that is the bare token, without the
    word Bearer, is refused by [authenticateToken] with 401 [Access
    token required] and accepted by [POST /api/assets]: with [kind] and
    [url] non-empty strings the asset is created for the token's user
    (201) when [pageCount] is falsy or an integer that fits the INTEGER
    column, and the route answers 500, storing nothing, for any other
    [pageCount]. *)
Theorem bare_token_splits_the_routes (db : Database) (c : Ascii.ascii)
    (r sub : string) (user : User) (k u : string) (pageCount : Rest.Field) :
  spaceless (String c r) = true →
  jwt_verify (String c r) = Some sub →
  find_user db sub = Some user →
  truthy (Some k) = true →
  truthy (Some u) = true →
  authenticateToken db (Some (String c r))
    = inl (Rest.Respond 401 (Rest.BError "Access token required")) ∧
  Rest.post_asset jwt_verify db (Some (String c r)) (Rest.FText k) (Rest.FText u)
    pageCount
  = match Rest.stored_pageCount pageCount with
    | Some pc =>
        let asset := {| Rest.asset_ownerId := user_id user; Rest.asset_kind := k;
                        Rest.asset_url := u; Rest.asset_pageCount := pc |} in
        (Rest.Respond 201 (Rest.BAsset asset), Some asset)
    | None => (Rest.Respond 500 (Rest.BError "Failed to create asset"), None)
    end.
Proof.
  intros Hs Hv Hu Hk Hurl. split.
  - unfold Rest.authenticateToken, Rest.bearer_token.
    by rewrite (js_split_spaceless _ Hs).
  - unfold Rest.post_asset, Rest.asset_token. cbn [fmap option_fmap option_map].
    rewrite (remove_first_spaceless _ Hs), Hv, Hu.
    cbn [Rest.field_truthy]. rewrite Hk, Hurl. cbn [negb orb].
    by destruct (Rest.stored_pageCount pageCount).
Qed.

Lemma find_membership_none (db : Database) (uid bid : string) :
  (∀ m, m ∈ memberships db → mem_boardId m = bid → mem_userId m ≠ uid) →
  Rest.find_membership db uid bid = None.
Proof.
  intros H. apply find_all_false. intros m Hm.
  apply andb_false_iff.
  destruct (String.eqb_spec (mem_boardId m) bid) as [Hb|]; [|by right].
  left. apply String.eqb_neq. by apply H.
Qed.

Lemma board_membership_none (db : Database) (uid bid : string) :
  (∀ m, m ∈ memberships db → mem_boardId m = bid → mem_userId m ≠ uid) →
  find (fun m => String.eqb (mem_userId m) uid) (board_memberships db bid) = None.
Proof.
  intros H. apply find_all_false. intros m Hm.
  unfold board_memberships in Hm. apply list_elem_of_filter in Hm as [Hb Hm].
  apply String.eqb_neq. by apply H.
Qed.

(** X22: for a user with a valid token and no membership row on an
    existing board, [GET /api/boards/:id] answers 404 [Board not found],
    while the socket handshake for the same board is accepted, with
    [canEdit] exactly when the user owns the board. *)
Theorem non_member_rest_refuses_socket_accepts (db : Database)
    (c : Ascii.ascii) (r id sub : string) (user : User) (board : Board)
    (pageId : option string) :
  spaceless (String c r) = true →
  truthy (Some id) = true →
  jwt_verify (String c r) = Some sub →
  find_user db sub = Some user →
  find_board db id = Some board →
  (∀ m, m ∈ memberships db → mem_boardId m = id → mem_userId m ≠ sub) →
  Rest.get_board jwt_verify db id
    {| Rest.rq_authorization := ApiClient.getHeaders (Some (String c r));
       Rest.rq_query_t := None; Rest.rq_x_share_token := None |}
  = Rest.Respond 404 (Rest.BError "Board not found") ∧
  ∃ d, io_use jwt_verify db
         {| auth_token := Some (String c r); auth_shareToken := None;
            auth_boardId := Some id; auth_pageId := pageId |} = Accepted d ∧
       sd_canEdit d = String.eqb (board_ownerId board) sub.
Proof.
  intros Hs Hid Hv Hu Hb Hnone.
  pose proof (find_user_id _ _ _ Hu) as Huid.
  pose proof (find_board_id _ _ _ Hb) as Hbid.
  split.
  - unfold Rest.get_board. cbn [js_or truthy Rest.rq_query_t Rest.rq_x_share_token
      Rest.rq_authorization].
    rewrite (authenticate_bearer db c r sub user Hs Hv Hu), Hb, Huid.
    by rewrite find_membership_none.
  - unfold io_use. cbn [auth_boardId auth_token auth_shareToken auth_pageId].
    destruct id as [|c0 id0]; [done|].
    rewrite Hv, Hu, Hb, Huid, Hbid, board_membership_none by done.
    eexists. split; [done|]. cbn. unfold resolve. cbn. by rewrite orb_false_r.
Qed.

(** X23: when the owner's token and a read-only share token of the board
    are presented together, [GET /api/boards/:id] goes by the share
    token and reports [canEdit] false, and the socket handshake goes by
    the token and grants [canEdit]. *)
Theorem two_credentials_two_answers (db : Database) (c : Ascii.ascii)
    (r id st sub : string) (user : User) (board : Board) (link : ShareLink)
    (pageId : option string) :
  truthy (Some id) = true →
  truthy (Some st) = true →
  jwt_verify (String c r) = Some sub →
  find_user db sub = Some user →
  find_board db id = Some board →
  board_ownerId board = sub →
  find_shareLink db st = Some link →
  link_boardId link = id →
  link_canEdit link = false →
  Rest.get_board jwt_verify db id
    {| Rest.rq_authorization := ApiClient.getHeaders (Some (String c r));
       Rest.rq_query_t := Some st; Rest.rq_x_share_token := None |}
  = Rest.Respond 200 (Rest.BBoard board false) ∧
  ∃ d, io_use jwt_verify db
         {| auth_token := Some (String c r); auth_shareToken := Some st;
            auth_boardId := Some id; auth_pageId := pageId |} = Accepted d ∧
       sd_canEdit d = true.
Proof.
  intros Hid Hst Hv Hu Hb Hown Hl Hlb Hview.
  pose proof (find_user_id _ _ _ Hu) as Huid.
  split.
  - unfold Rest.get_board. cbn [Rest.rq_query_t Rest.rq_x_share_token].
    unfold js_or. rewrite Hst. destruct st as [|c1 st1]; [done|].
    rewrite Hl, Hlb, String.eqb_refl, Hb, Hview. done.
  - unfold io_use. cbn [auth_boardId auth_token auth_shareToken auth_pageId].
    destruct id as [|c0 id0]; [done|].
    rewrite Hv, Hu, Hb. eexists. split; [done|]. cbn.
    unfold resolve. rewrite Huid, Hown, String.eqb_refl. done.
Qed.


Lemma find_snoc_fresh {A} (f : A → bool) (l : list A) (x : A) :
  find f l = None → f x = true → find f (l ++ [x]) = Some x.
Proof.
  induction l as [|y l IH]; cbn; intros Hn Hx; [by rewrite Hx|].
  destruct (f y); [done|]. by apply IH.
Qed.

(** X24: [POST /api/boards/:id/share] asks for a membership row and not
    for its role: any member, whatever the role, creates a share link
    with [canEdit] true, and a handshake with that link's token is
    accepted with [canEdit] true. *)
Theorem any_member_can_mint_an_edit_link (db : Database) (c : Ascii.ascii)
    (r id token sub : string) (user : User) (board : Board) (m : Membership)
    (pageId : option string) :
  spaceless (String c r) = true →
  truthy (Some id) = true →
  truthy (Some token) = true →
  jwt_verify (String c r) = Some sub →
  find_user db sub = Some user →
  Rest.find_membership db sub id = Some m →
  find_board db id = Some board →
  find_shareLink db token = None →
  let link := {| link_token := token; link_boardId := id; link_canEdit := true |} in
  ∃ db',
    Rest.post_share jwt_verify db id (ApiClient.getHeaders (Some (String c r)))
      (Some true) token
      = (Rest.Respond 201 (Rest.BShareLink link), db') ∧
    io_use jwt_verify db'
      {| auth_token := None; auth_shareToken := Some token;
         auth_boardId := Some id; auth_pageId := pageId |}
      = Accepted {| sd_userId := None; sd_boardId := id; sd_pageId := pageId;
                    sd_canEdit := true; sd_userName := Some "Anonymous User" |}.
Proof.
  intros Hs Hid Htok Hv Hu Hm Hb Hfree link.
  pose proof (find_user_id _ _ _ Hu) as Huid.
  unfold Rest.post_share.
  rewrite (authenticate_bearer db c r sub user Hs Hv Hu), Huid, Hm, Hb, Hfree.
  eexists. split; [reflexivity|].
  unfold io_use. cbn [auth_boardId auth_token auth_shareToken auth_pageId].
  destruct id as [|c0 id0]; [done|]. destruct token as [|c1 t1]; [done|].
  unfold find_shareLink in *. unfold Rest.add_shareLink. cbn [shareLinks].
  subst link. rewrite (find_snoc_fresh _ _ _ Hfree) by apply String.eqb_refl.
  cbn [link_boardId link_canEdit]. by rewrite String.eqb_refl.
Qed.

Lemma filter_swap {A} (f g : A → bool) (l : list A) :
  List.filter f (List.filter g l) = List.filter g (List.filter f l).
Proof.
  induction l as [|x l IH]; cbn; [done|].
  destruct (f x) eqn:Ef, (g x) eqn:Eg; cbn; rewrite ?Ef, ?Eg, IH; done.
Qed.

Lemma pages_of_remove (db : Database) (b q : string) :
  Rest.pages_of (Rest.remove_page db q) b
  = List.filter (fun p => negb (String.eqb (bp_id p) q)) (Rest.pages_of db b).
Proof. unfold Rest.pages_of, Rest.remove_page. cbn. apply filter_swap. Qed.

Lemma two_ids_one_differs (l : list BoardPage) (q : string) :
  NoDup (map bp_id l) → 2 ≤ List.length l →
  ∃ p, p ∈ l ∧ bp_id p ≠ q.
Proof.
  destruct l as [|p1 [|p2 l]]; cbn; intros Hnd Hlen; try lia.
  apply NoDup_cons in Hnd as [Hne _].
  destruct (decide (bp_id p1 = q)) as [<-|H1].
  - exists p2. split; [set_solver|]. intros Heq. apply Hne. rewrite Heq. set_solver.
  - exists p1. split; [set_solver|done].
Qed.

Lemma filter_keeps_NoDup_ids (f : BoardPage → bool) (l : list BoardPage) :
  NoDup (map bp_id l) → NoDup (map bp_id (List.filter f l)).
Proof.
  induction l as [|p l IH]; cbn; [done|]. intros Hnd.
  apply NoDup_cons in Hnd as [Hp Hnd].
  destruct (f p); cbn; [|by apply IH].
  apply NoDup_cons. split; [|by apply IH].
  intros Hin. apply Hp. apply list_elem_of_fmap in Hin as (p' & -> & Hin).
  apply list_elem_of_In, filter_In in Hin as [Hin _].
  apply list_elem_of_fmap. exists p'. split; [done|by apply list_elem_of_In].
Qed.

Lemma authenticate_refusal (db : Database) (authorization : option string)
    (r : Rest.Reply) :
  authenticateToken db authorization = inl r →
  ∃ msg, r = Rest.Respond 401 (Rest.BError msg).
Proof.
  unfold Rest.authenticateToken. intros H.
  repeat case_match; simplify_eq; by eexists.
Qed.

(** X25: page ids being unique, a [DELETE /api/boards/:id/pages/:pageId]
    that answers 204 leaves the board of the URL with at least one page,
    and the named page is gone. *)
Theorem delete_page_keeps_a_page (db db' : Database) (id pageId : string)
    (authorization : option string) :
  NoDup (map bp_id (boardPages db)) →
  Rest.delete_page jwt_verify db id pageId authorization
    = (Rest.Respond 204 Rest.BNone, db') →
  Rest.pages_of db' id ≠ [] ∧ find_page db' pageId = None.
Proof.
  intros Hnd H. unfold Rest.delete_page in H.
  destruct (authenticateToken db authorization) as [r0|user] eqn:Ea.
  { apply authenticate_refusal in Ea as [msg ->]. by simplify_eq. }
  destruct (find_board db id) as [board|]; [|by simplify_eq].
  destruct (negb (Rest.can_edit db board (user_id user))); [by simplify_eq|].
  destruct (List.length (Rest.pages_of db id) <=? 1) eqn:Elen; [by simplify_eq|].
  destruct (find_page db pageId) as [pg|]; simplify_eq.
  apply Nat.leb_gt in Elen. split.
  - rewrite pages_of_remove.
    destruct (two_ids_one_differs (Rest.pages_of db id) pageId) as (p & Hin & Hne);
      [by apply filter_keeps_NoDup_ids|lia|].
    intros Hnil.
    assert (Hp : In p (List.filter (fun p => negb (String.eqb (bp_id p) pageId))
                         (Rest.pages_of db id))).
    { apply filter_In. split; [by apply list_elem_of_In|].
      apply negb_true_iff. by apply String.eqb_neq. }
    by rewrite Hnil in Hp.
  - unfold find_page, Rest.remove_page. cbn. apply find_all_false.
    intros p Hp. apply list_elem_of_In, filter_In in Hp as [_ Hp].
    by apply negb_true_iff in Hp.
Qed.

Lemma filter_all_true {A} (f : A → bool) (l : list A) :
  (∀ x, In x l → f x = true) → List.filter f l = l.
Proof.
  induction l as [|x l IH]; cbn; intros H; [done|].
  rewrite (H x) by by left. f_equal. apply IH. intros y Hy. apply H. by right.
Qed.

Lemma ids_functional (l : list BoardPage) (p q : BoardPage) :
  NoDup (map bp_id l) → p ∈ l → q ∈ l → bp_id p = bp_id q → p = q.
Proof.
  induction l as [|x l IH]; cbn; intros Hnd Hp Hq Heq.
  - by apply elem_of_nil in Hp.
  - apply NoDup_cons in Hnd as [Hx Hnd].
    apply elem_of_cons in Hp as [->|Hp]; apply elem_of_cons in Hq as [->|Hq];
      try done.
    + destruct Hx. rewrite Heq. apply list_elem_of_fmap. by exists q.
    + destruct Hx. rewrite <- Heq. apply list_elem_of_fmap. by exists p.
    + by apply IH.
Qed.

(** X26: the page to delete is looked up by its id alone: an editor of a
    board with two or more pages who names the only page of another
    board is answered 204, the other board is left without a page and
    the board of the URL keeps all of its own. *)
Theorem delete_page_reaches_other_boards (db : Database) (c : Ascii.ascii)
    (r id other pageId sub : string) (user : User) (board : Board)
    (pg : BoardPage) :
  NoDup (map bp_id (boardPages db)) →
  spaceless (String c r) = true →
  jwt_verify (String c r) = Some sub →
  find_user db sub = Some user →
  find_board db id = Some board →
  Rest.can_edit db board sub = true →
  2 ≤ List.length (Rest.pages_of db id) →
  other ≠ id →
  Rest.pages_of db other = [pg] →
  bp_id pg = pageId →
  Rest.delete_page jwt_verify db id pageId (ApiClient.getHeaders (Some (String c r)))
    = (Rest.Respond 204 Rest.BNone, Rest.remove_page db pageId) ∧
  Rest.pages_of (Rest.remove_page db pageId) other = [] ∧
  Rest.pages_of (Rest.remove_page db pageId) id = Rest.pages_of db id.
Proof.
  intros Hnd Hs Hv Hu Hb Hedit Hlen Hother Hpages Hpg.
  pose proof (find_user_id _ _ _ Hu) as Huid.
  assert (Hin : pg ∈ boardPages db ∧ bp_boardId pg = other).
  { assert (In pg (Rest.pages_of db other)) as Hp by (rewrite Hpages; by left).
    apply filter_In in Hp as [Hp Hbo]. apply String.eqb_eq in Hbo.
    split; [by apply list_elem_of_In|done]. }
  destruct Hin as [Hin Hbo].
  assert (Hfind : ∃ pg', find_page db pageId = Some pg').
  { unfold find_page. destruct (find _ (boardPages db)) as [pg'|] eqn:E; [by eexists|].
    apply list_elem_of_In in Hin.
    pose proof (find_none _ _ E pg Hin) as Hf. cbn in Hf.
    rewrite Hpg, String.eqb_refl in Hf. done. }
  destruct Hfind as [pg' Hfind].
  split; [|split].
  - unfold Rest.delete_page.
    rewrite (authenticate_bearer db c r sub user Hs Hv Hu), Hb, Huid, Hedit.
    cbn [negb]. destruct (Nat.leb_spec (List.length (Rest.pages_of db id)) 1); [lia|].
    by rewrite Hfind.
  - rewrite pages_of_remove, Hpages. cbn. by rewrite Hpg, String.eqb_refl.
  - rewrite pages_of_remove. apply filter_all_true. intros p Hp.
    apply negb_true_iff, String.eqb_neq. intros Hq.
    apply filter_In in Hp as [Hp Hpb]. apply String.eqb_eq in Hpb.
    apply list_elem_of_In in Hp.
    assert (p = pg) by (apply (ids_functional _ _ _ Hnd Hp Hin); congruence).
    congruence.
Qed.


(** X27: with a single credential (a token without blanks, or a share
    token) [POST /api/boards/:id/events] gets past its permission check
    exactly when the socket handshake for the same board is accepted
    with [canEdit]. *)
Theorem rest_and_socket_grant_alike (db : Database) (token shareToken : option string)
    (id : string) (pageId : option string) :
  truthy (Some id) = true →
  truthy token = false ∨ truthy shareToken = false →
  (∀ t, token = Some t → spaceless t = true) →
  Rest.events_permission jwt_verify db id (Rest.as_request token shareToken) = inr true
  ↔
  ∃ d, io_use jwt_verify db (Rest.as_handshake token shareToken id pageId) = Accepted d ∧
       sd_canEdit d = true.
Proof.
  intros Hid Hone Hsp.
  unfold Rest.events_permission, Rest.as_request, Rest.as_handshake, io_use.
  cbn [Rest.rq_query_t Rest.rq_x_share_token Rest.rq_authorization
       auth_boardId auth_token auth_shareToken auth_pageId].
  destruct id as [|c0 id0]; [done|].
  destruct shareToken as [[|c2 st]|]; cbn [js_or truthy].
  2:{ (* share token present: the bearer token is falsy *)
      destruct Hone as [Htok|]; [|done].
      destruct token as [[|c1 t1]|]; try done.
      all: destruct (find_shareLink db (String c2 st)) as [link|];
        [destruct (String.eqb (link_boardId link) (String c0 id0))|].
      all: split; [intros ?; simplify_eq; try (by eexists)
                  |intros (d & ? & ?); simplify_eq; cbn in *; congruence]. }
  all: destruct token as [[|c1 t1]|].
  all: try (by unfold Rest.authenticateToken; cbn;
            split; [intros ?; simplify_eq|intros (d & ? & ?); by simplify_eq]).
  all: unfold Rest.authenticateToken;
       rewrite (bearer_token_of_header c1 t1 (Hsp _ eq_refl)).
  all: destruct (jwt_verify (String c1 t1)) as [sub|];
    [destruct (find_user db sub) as [user|];
      [destruct (find_board db (String c0 id0)) as [board|]|]|].
  all: unfold Rest.can_edit.
  all: split; [intros ?; simplify_eq; try (by eexists)
              |intros (d & ? & ?); simplify_eq; cbn in *; congruence].
Qed.

Lemma fold_append_events (rows : list BoardEvent) (db : Database) :
  boardEvents (fold_left append_event rows db) = boardEvents db ++ rows.
Proof.
  revert db. induction rows as [|row rows IH]; intros db; cbn.
  - by rewrite app_nil_r.
  - rewrite IH. cbn. by rewrite <- app_assoc.
Qed.

(** X28: [POST /api/boards/:id/events], once permitted, for an existing
    board and events that all have a type, answers 201 and appends one
    row per event, in the order of the request, each with the board of
    the URL, a null page, the event's type and the event as payload. *)
Theorem rest_events_are_board_level (db : Database) (id : string)
    (rq : Rest.Request) (evs : list CanvasEv) (board : Board) :
  Rest.events_permission jwt_verify db id rq = inr true →
  find_board db id = Some board →
  Forall (fun e => is_Some (ce_type e)) evs →
  ∃ rows db',
    Rest.post_events jwt_verify db id rq (Some evs)
      = (Rest.Respond 201 (Rest.BEvents rows), db') ∧
    boardEvents db' = boardEvents db ++ rows ∧
    Forall2 (fun e row => ev_boardId row = id ∧ ev_pageId row = None ∧
                          Some (ev_type row) = ce_type e ∧
                          ev_payload row = JEvent e) evs rows.
Proof.
  intros Hperm Hb Htyped. unfold Rest.post_events. rewrite Hperm.
  set (rows := omap _ evs).
  assert (Hrows : Forall2 (fun e row => ev_boardId row = id ∧ ev_pageId row = None ∧
                             Some (ev_type row) = ce_type e ∧
                             ev_payload row = JEvent e) evs rows).
  { unfold rows. clear rows.
    induction Htyped as [|e evs [t Ht] _ IH]; cbn [omap list_omap].
    - constructor.
    - assert (Hrow : create_row db (Rest.event_args id e)
                     = Some {| ev_boardId := id; ev_pageId := None; ev_type := t;
                               ev_payload := JEvent e |}).
      { unfold create_row, Rest.event_args. cbn. by rewrite Ht, Hb. }
      rewrite Hrow. constructor; [|done]. by rewrite Ht. }
  rewrite (Forall2_length _ _ _ Hrows), Nat.eqb_refl.
  eexists _, _. split; [done|]. split; [apply fold_append_events|done].
Qed.

End RestRoutes.

(** ** Page order *)

Lemma position_Some q l k : position q l = Some k -> l !! k = Some q.
Proof.
  revert k. induction l as [|y l IH]; intros k; cbn; [done|].
  destruct (String.eqb_spec y q) as [->|Hne].
  - by intros [= <-].
  - destruct (position q l) as [j|]; cbn; [|done].
    intros [= <-]. cbn. by apply IH.
Qed.

Lemma position_None q l : q ∉ l -> position q l = None.
Proof.
  induction l as [|y l IH]; cbn; [done|].
  intros Hq. apply not_elem_of_cons in Hq as [Hne Hq].
  destruct (String.eqb_spec y q) as [->|_]; [done|].
  by rewrite IH.
Qed.

Lemma position_is_Some q l : q ∈ l -> is_Some (position q l).
Proof.
  induction l as [|y l IH]; cbn; [by intros ?%elem_of_nil|].
  intros Hq. destruct (String.eqb_spec y q) as [->|Hne]; [by eexists|].
  apply elem_of_cons in Hq as [->|Hq]; [done|].
  destruct (IH Hq) as [k ->]. by eexists.
Qed.

Lemma position_seq l :
  NoDup l -> map (fun q => default 0 (position q l)) l = seq 0 (List.length l).
Proof.
  induction 1 as [|x l Hx Hl IH]; [done|].
  cbn [map List.length seq position]. rewrite String.eqb_refl. cbn. f_equal.
  rewrite <- seq_shift, <- IH, map_map.
  apply map_ext_in. intros q Hq%list_elem_of_In.
  destruct (String.eqb_spec x q) as [->|_]; [done|].
  by destruct (position_is_Some _ _ Hq) as [k ->].
Qed.

Lemma update_index_Some pages q i :
  q ∈ map Rest.pr_id pages ->
  Rest.update_index pages q i
  = Some (map (fun p => if String.eqb (Rest.pr_id p) q
                        then Rest.with_index p i else p) pages).
Proof.
  intros Hq. unfold Rest.update_index.
  assert (existsb (fun p => String.eqb (Rest.pr_id p) q) pages = true) as ->; [|done].
  apply existsb_exists. apply list_elem_of_In, in_map_iff in Hq as (p & <- & Hp).
  exists p. by rewrite String.eqb_refl.
Qed.

Lemma update_indices_all i order pages :
  NoDup order ->
  (forall q, q ∈ order -> q ∈ map Rest.pr_id pages) ->
  Rest.update_indices i order pages = (map (reindexed i order) pages, true).
Proof.
  intros Hnd. revert i pages.
  induction Hnd as [|q rest Hq Hrest IH]; intros i pages Hin.
  - cbn. f_equal. symmetry. apply map_id.
  - cbn [Rest.update_indices].
    rewrite update_index_Some by (apply Hin; left).
    rewrite IH.
    + f_equal. rewrite map_map. apply map_ext. intros p.
      unfold reindexed. cbn [position].
      destruct (String.eqb_spec (Rest.pr_id p) q) as [Hp|Hp].
      * cbn [Rest.with_index Rest.pr_id]. rewrite Hp, String.eqb_refl.
        rewrite (position_None _ _ Hq). by rewrite Nat.add_0_r.
      * destruct (String.eqb_spec q (Rest.pr_id p)) as [->|_]; [done|].
        destruct (position (Rest.pr_id p) rest) as [k|]; cbn; [|done].
        by rewrite Nat.add_succ_r.
    + intros q' Hq'. rewrite map_map.
      assert (map (fun p => Rest.pr_id (if String.eqb (Rest.pr_id p) q
                                        then Rest.with_index p (Z.of_nat i) else p)) pages
              = map Rest.pr_id pages) as ->.
      { apply map_ext. intros p. by destruct (String.eqb _ _). }
      apply Hin. by right.
Qed.

Lemma reindexed_id i order p : Rest.pr_id (reindexed i order p) = Rest.pr_id p.
Proof. unfold reindexed. by destruct (position _ _). Qed.

Lemma reindexed_boardId i order p :
  Rest.pr_boardId (reindexed i order p) = Rest.pr_boardId p.
Proof. unfold reindexed. by destruct (position _ _). Qed.

Lemma filter_reindexed id order pages :
  List.filter (fun p => String.eqb (Rest.pr_boardId p) id) (map (reindexed 0 order) pages)
  = map (reindexed 0 order)
      (List.filter (fun p => String.eqb (Rest.pr_boardId p) id) pages).
Proof.
  induction pages as [|p ps IH]; [done|]. cbn.
  rewrite reindexed_boardId. destruct (String.eqb _ _); cbn; by rewrite IH.
Qed.

Lemma sorted_indices (l : list Rest.PageRow) :
  StronglySorted Rest.by_index l -> StronglySorted Z.le (map Rest.pr_index l).
Proof.
  induction 1 as [|p l Hl IH Hp]; cbn; constructor; [done|].
  apply Forall_fmap. eapply Forall_impl; [exact Hp|]. by intros q Hq.
Qed.

Lemma sorted_seq i n : StronglySorted Z.le (Z.of_nat <$> seq i n).
Proof.
  revert i. induction n as [|n IH]; intros i; cbn; constructor; [apply IH|].
  apply Forall_fmap, Forall_forall. intros k Hk%elem_of_seq. cbn. lia.
Qed.

Lemma by_index_total : Total Rest.by_index.
Proof. intros p q. unfold Rest.by_index. lia. Qed.

Lemma by_index_trans : Transitive Rest.by_index.
Proof. intros p q r. unfold Rest.by_index. lia. Qed.

(** Sorting rows whose ids are those of [order] and whose index is their
    position in [order] gives them in that order. *)
Lemma sort_by_position (order : list string) (rows : list Rest.PageRow) :
  NoDup order ->
  NoDup (map Rest.pr_id rows) ->
  (forall q, q ∈ order <-> q ∈ map Rest.pr_id rows) ->
  (forall p, p ∈ rows ->
     exists k, position (Rest.pr_id p) order = Some k /\ Rest.pr_index p = Z.of_nat k) ->
  map Rest.pr_id (merge_sort Rest.by_index rows) = order
  /\ map Rest.pr_index (merge_sort Rest.by_index rows)
     = Z.of_nat <$> seq 0 (List.length order).
Proof.
  intros Hord Hids Hsame Hpos.
  pose proof by_index_total as Htot. pose proof by_index_trans as Htr.
  set (sorted := merge_sort Rest.by_index rows).
  assert (sorted ≡ₚ rows) as Hperm by apply merge_sort_Permutation.
  assert (Rest.pr_id <$> rows ≡ₚ order) as Hpi.
  { apply NoDup_Permutation; [done..|]. intros q. by rewrite Hsame. }
  assert (Rest.pr_index <$> sorted = Z.of_nat <$> seq 0 (List.length order)) as Hidx.
  { apply (StronglySorted_unique Z.le).
    - apply sorted_indices, StronglySorted_merge_sort; done.
    - apply sorted_seq.
    - rewrite Hperm, <- (position_seq order Hord).
      change (map ?f order) with (f <$> order). rewrite <- Hpi.
      rewrite <- !list_fmap_compose.
      apply reflexive_eq, list_fmap_ext. intros i p Hp. cbn.
      destruct (Hpos p) as (k & -> & ->); [by eapply list_elem_of_lookup_2|done]. }
  split; [|done].
  assert (List.length sorted = List.length order) as Hlen.
  { by rewrite Hperm, <- Hpi, length_fmap. }
  apply list_eq. intros k.
  change (map Rest.pr_id sorted) with (Rest.pr_id <$> sorted).
  rewrite list_lookup_fmap.
  destruct (sorted !! k) as [p|] eqn:Hk; cbn.
  - assert ((Rest.pr_index <$> sorted) !! k = Some (Rest.pr_index p)) as Hi
      by by rewrite list_lookup_fmap, Hk.
    rewrite Hidx, list_lookup_fmap in Hi.
    apply lookup_lt_Some in Hk as Hlt. rewrite Hlen in Hlt.
    rewrite lookup_seq_lt in Hi by done. cbn in Hi.
    destruct (Hpos p) as (j & Hj & Hpj).
    { rewrite <- Hperm. by eapply list_elem_of_lookup_2. }
    assert (j = k) as -> by (simplify_eq; lia).
    symmetry. by apply position_Some.
  - symmetry. apply lookup_ge_None. apply lookup_ge_None in Hk. lia.
Qed.

Section Reorder.

Variable jwt_verify : string -> option string.

(** X29: for an editor of the board, a reorder request that lists the
    ids of the board's pages, each once, is answered with those pages in
    the requested order, indexed 0, 1, 2, ...; listing the board's pages
    afterwards returns the same rows. *)
Theorem reorder_then_list db pages id authorization user board order :
  Rest.authenticateToken jwt_verify db authorization = inr user ->
  find_board db id = Some board ->
  Rest.can_edit db board (user_id user) = true ->
  NoDup (map Rest.pr_id pages) ->
  NoDup order ->
  (forall q, q ∈ order <->
     exists p, p ∈ pages /\ Rest.pr_id p = q /\ Rest.pr_boardId p = id) ->
  exists rows pages',
    Rest.reorder_pages jwt_verify db pages id authorization (Some order)
    = (Rest.Respond 200 (Rest.BPages rows), pages')
    /\ map Rest.pr_id rows = order
    /\ map Rest.pr_index rows = Z.of_nat <$> seq 0 (List.length order)
    /\ Rest.list_pages pages' id = rows.
Proof.
  intros Hauth Hboard Hedit Hids Hord Hsame.
  unfold Rest.reorder_pages. rewrite Hauth, Hboard, Hedit. cbn [negb].
  rewrite update_indices_all; [|done|].
  2:{ intros q (p & Hp & <- & _)%Hsame. apply list_elem_of_In, in_map.
      by apply list_elem_of_In. }
  eexists _, _. split; [reflexivity|].
  unfold Rest.list_pages. rewrite filter_reindexed.
  set (mine := List.filter (fun p => String.eqb (Rest.pr_boardId p) id) pages).
  assert (forall p, p ∈ mine <-> p ∈ pages /\ Rest.pr_boardId p = id) as Hmine.
  { intros p. unfold mine. rewrite !list_elem_of_In, filter_In.
    by rewrite String.eqb_eq. }
  assert (map Rest.pr_id (map (reindexed 0 order) mine) = map Rest.pr_id mine) as Hrid.
  { rewrite map_map. apply map_ext. intros p. apply reindexed_id. }
  destruct (sort_by_position order (map (reindexed 0 order) mine)) as [H1 H2];
    [done| | | |by rewrite H1, H2].
  - rewrite Hrid. unfold mine. clear -Hids.
    induction pages as [|p ps IH]; cbn; [constructor|].
    apply NoDup_cons in Hids as [Hp Hps].
    destruct (String.eqb _ _); cbn; [|by apply IH].
    apply NoDup_cons. split; [|by apply IH].
    intros Hin. apply Hp. apply list_elem_of_In, in_map_iff in Hin as (p' & <- & Hin).
    apply filter_In in Hin as [Hin _]. apply list_elem_of_In, in_map. done.
  - intros q. rewrite Hrid, Hsame. split.
    + intros (p & Hp & <- & Hb). apply list_elem_of_In, in_map, list_elem_of_In.
      by apply Hmine.
    + intros (p & <- & Hp%list_elem_of_In%Hmine)%list_elem_of_In%in_map_iff.
      exists p. naive_solver.
  - intros p' (p & <- & Hp%list_elem_of_In%Hmine)%list_elem_of_In%in_map_iff.
    rewrite reindexed_id. destruct (position_is_Some (Rest.pr_id p) order) as [k Hk].
    { apply Hsame. exists p. naive_solver. }
    exists k. split; [done|]. unfold reindexed. by rewrite Hk.
Qed.

End Reorder.

(** ** Creating a board *)

Section NewBoard.

Variable jwt_verify : string -> option string.

(** X30: the board ids present being those the memberships refer to,
    [POST /api/boards] with a valid token, a non-empty title and a fresh
    id answers 201 and stores the board with its creator as owner and as
    OWNER member; the creator's [GET /api/boards/:id] then answers 200
    with [canEdit] true, and their socket handshake for the board is
    accepted with [canEdit] true. *)
Theorem created_board_opens_for_its_owner (db : Database) (c : Ascii.ascii)
    (r id sub : string) (user : User) (t : Ascii.ascii) (title : string)
    (pageId : option string) :
  spaceless (String c r) = true →
  truthy (Some id) = true →
  jwt_verify (String c r) = Some sub →
  find_user db sub = Some user →
  find_board db id = None →
  (∀ m, m ∈ memberships db → is_Some (find_board db (mem_boardId m))) →
  let board := {| board_id := id; board_ownerId := sub |} in
  ∃ db',
    Rest.post_board jwt_verify db (ApiClient.getHeaders (Some (String c r)))
      (Some (String t title)) id
      = (Rest.Respond 201 (Rest.BNewBoard board), db') ∧
    Rest.get_board jwt_verify db' id (Rest.as_request (Some (String c r)) None)
      = Rest.Respond 200 (Rest.BBoard board true) ∧
    ∃ d, io_use jwt_verify db' (Rest.as_handshake (Some (String c r)) None id pageId)
           = Accepted d ∧
         sd_userId d = Some sub ∧ sd_boardId d = id ∧ sd_canEdit d = true.
Proof.
  intros Hs Hid Hv Hu Hfresh Hfk board.
  pose proof (find_user_id _ _ _ Hu) as Huid.
  assert (Rest.find_membership db sub id = None) as Hnone.
  { apply find_membership_none. intros m Hm Hb.
    destruct (Hfk m Hm) as [b Hfb]. congruence. }
  set (row := {| mem_userId := sub; mem_boardId := id; mem_role := OWNER |}).
  set (db' := Rest.add_membership (Rest.add_board db board) row).
  assert (find_user db' sub = Some user) as Hu' by exact Hu.
  assert (find_board db' id = Some board) as Hb'.
  { apply (find_snoc_fresh _ (boards db)); [exact Hfresh|]. apply String.eqb_refl. }
  assert (Rest.find_membership db' sub id = Some row) as Hm'.
  { apply (find_snoc_fresh _ (memberships db)); [exact Hnone|].
    cbn. by rewrite !String.eqb_refl. }
  assert (Rest.authenticateToken jwt_verify db' (ApiClient.getHeaders (Some (String c r)))
          = inr user) as Ha'
    by exact (authenticate_bearer jwt_verify db' c r sub user Hs Hv Hu').
  exists db'. split; [|split].
  - unfold Rest.post_board.
    rewrite (authenticate_bearer jwt_verify db c r sub user Hs Hv Hu), Hfresh, Huid.
    fold board.
    assert (Rest.find_membership (Rest.add_board db board) sub id = None) as ->
      by exact Hnone.
    done.
  - unfold Rest.get_board, Rest.as_request.
    cbn [js_or truthy Rest.rq_query_t Rest.rq_x_share_token Rest.rq_authorization].
    rewrite Ha', Hb', Huid, Hm'. do 2 f_equal.
    unfold Rest.can_edit. cbn [board_ownerId board]. by rewrite String.eqb_refl.
  - unfold io_use, Rest.as_handshake.
    cbn [auth_boardId auth_token auth_shareToken auth_pageId].
    destruct id as [|c0 id0]; [done|].
    cbn [truthy]. rewrite Hv, Hu', Hb', Huid.
    eexists. split; [reflexivity|]. cbn. by rewrite String.eqb_refl.
Qed.

End NewBoard.

(** ** The further properties on the sample deployment *)

Lemma board_rooms_are_isolated_witness :
  ∃ sd, srv_sockets (after two_on_p1) !! "V" = Some sd ∧ sd_boardId sd = "b1".
Proof.
  apply (board_rooms_are_isolated sample_verify sample_db (after two_on_p1) "b1" "V").
  - exists two_on_p1. vm_compute. reflexivity.
  - apply (bool_decide_unpack _). vm_compute. exact I.
Defined.

Lemma connected_socket_in_board_room_witness :
  "V" ∈ members (srv_rooms (after two_on_p1)) (board_room (Some "b1")).
Proof.
  apply (connected_socket_in_board_room sample_verify sample_db (after two_on_p1) "V" sd_V).
  - exists two_on_p1. vm_compute. reflexivity.
  - vm_compute. reflexivity.
Defined.

(** A announces an asset on b1 while V is on p1 and B on p2: both are
    bound to b1 and both receive it. *)
Lemma broadcast_audience_witness :
  let s := after (two_on_p1 ++ [Connect "B" (bearer "tok2" "b1" "p2")]) in
  let to : gset string := {["V"; "B"]} in
  srv_trace (after (two_on_p1 ++ [Connect "B" (bearer "tok2" "b1" "p2");
                                  Recv "A" "asset:add" (msg "b1" "p1")])) !! 6
    = Some (Broadcast "A" "board:b1" "asset:add" (WData (msg "b1" "p1")) to) ∧
  (∀ b, "board:b1" = board_room (Some b) →
        ∀ c, c ∈ to ↔
             (c ≠ "A" ∧ ∃ sd, srv_sockets s !! c = Some sd ∧ sd_boardId sd = b)) ∧
  (∀ p, "board:b1" = page_room (Some p) → truthy (Some p) = true →
        ∀ c sd, c ≠ "A" → srv_sockets s !! c = Some sd → sd_pageId sd = Some p →
                c ∈ to).
Proof.
  cbv zeta. split; [vm_compute; reflexivity|].
  apply (broadcast_audience sample_verify sample_db
           (after (two_on_p1 ++ [Connect "B" (bearer "tok2" "b1" "p2")]))
           (after (two_on_p1 ++ [Connect "B" (bearer "tok2" "b1" "p2");
                                 Recv "A" "asset:add" (msg "b1" "p1")]))
           (Recv "A" "asset:add" (msg "b1" "p1"))
           6 "A" "board:b1" "asset:add" (WData (msg "b1" "p1")) {["V"; "B"]}).
  - exists (two_on_p1 ++ [Connect "B" (bearer "tok2" "b1" "p2")]).
    vm_compute. reflexivity.
  - vm_compute. reflexivity.
  - vm_compute. lia.
  - vm_compute. reflexivity.
Defined.

(** A switches to p2: who A is and what A may do stays. *)
Lemma credentials_fixed_while_connected_witness :
  (Exit ∉ srv_trace (after (two_on_p1 ++ [Recv "A" "page:switch" (msg "b1" "p2")]))) ∧
  (Exit ∈ drop (List.length (srv_trace (after two_on_p1)))
            (srv_trace (after (two_on_p1 ++ [Recv "A" "page:switch" (msg "b1" "p2")]))) ∨
   ∃ sd', srv_sockets (after (two_on_p1 ++ [Recv "A" "page:switch" (msg "b1" "p2")])) !! "A"
            = Some sd' ∧
          sd_userId sd' = sd_userId sd_A ∧ sd_boardId sd' = sd_boardId sd_A ∧
          sd_canEdit sd' = sd_canEdit sd_A ∧ sd_userName sd' = sd_userName sd_A).
Proof.
  split.
  { replace (srv_trace _) with
      [Joined "A" "board:b1"; Joined "A" "page:p1"; Joined "V" "board:b1";
       Joined "V" "page:p1"; Left "A" "page:p1"; Joined "A" "page:p2"]
      by (vm_compute; reflexivity).
    intros H. rewrite !elem_of_cons, elem_of_nil in H. naive_solver. }
  apply (credentials_fixed_while_connected sample_verify
           [Recv "A" "page:switch" (msg "b1" "p2")] (after two_on_p1)).
  - vm_compute. reflexivity.
  - vm_compute. reflexivity.
  - intros H. apply elem_of_cons in H as [H|H]; [discriminate|].
    by apply elem_of_nil in H.
Defined.

Lemma database_only_grows_witness :
  let s' := after (two_on_p1 ++
              [Recv "A" "shape:add" (msg "b1" "p1"); DbCommit 0; Resume 0]) in
  users (srv_db s') = users (srv_db (boot sample_db)) ∧
  boards (srv_db s') = boards (srv_db (boot sample_db)) ∧
  memberships (srv_db s') = memberships (srv_db (boot sample_db)) ∧
  shareLinks (srv_db s') = shareLinks (srv_db (boot sample_db)) ∧
  boardPages (srv_db s') = boardPages (srv_db (boot sample_db)) ∧
  ∃ rows, boardEvents (srv_db s') = boardEvents (srv_db (boot sample_db)) ++ rows ∧
          Forall (fun row => is_Some (find_board (srv_db (boot sample_db)) (ev_boardId row)))
            rows.
Proof.
  apply (database_only_grows sample_verify
           (two_on_p1 ++ [Recv "A" "shape:add" (msg "b1" "p1"); DbCommit 0; Resume 0])
           (boot sample_db)).
  vm_compute. reflexivity.
Defined.

(** A sends a legacy event without page id; index 5 is its fan-out. *)
Lemma legacy_persist_before_broadcast_witness :
  let s := after (two_on_p1 ++
             [Recv "A" "canvas-event" legacy_msg; DbCommit 0; Resume 0]) in
  ∃ j row, j < 5 ∧
           srv_trace s !! j = Some (Created row) ∧
           row ∈ boardEvents (srv_db s) ∧
           "canvas-event" = "canvas-event" ∧
           ev_payload row = JEvent stroke ∧
           Some (ev_type row) = ce_type stroke ∧
           "board:b1" = row_room row.
Proof.
  apply (legacy_persist_before_broadcast sample_verify sample_db
           (after (two_on_p1 ++
              [Recv "A" "canvas-event" legacy_msg; DbCommit 0; Resume 0]))
           5 "A" "board:b1" "canvas-event" stroke {["V"]}).
  - exists (two_on_p1 ++ [Recv "A" "canvas-event" legacy_msg; DbCommit 0; Resume 0]).
    vm_compute. reflexivity.
  - vm_compute. reflexivity.
Defined.

Lemma legacy_event_without_page_witness :
  ∃ s', run sample_verify (after two_on_p1)
          [Recv "A" "canvas-event" legacy_msg; DbCommit 0; Resume 0] = Some s' ∧
        boardEvents (srv_db s') = boardEvents (srv_db (after two_on_p1)) ++ [stroke_row] ∧
        srv_trace s' = srv_trace (after two_on_p1) ++
          [Created stroke_row;
           Broadcast "A" ("board:" +:+ "b1") "canvas-event" (WEvent stroke)
             (members (srv_rooms (after two_on_p1)) ("board:" +:+ "b1") ∖ {["A"]})].
Proof.
  apply (legacy_event_without_page sample_verify (after two_on_p1) "A" "b1"
           "path:created" sd_A legacy_msg stroke board1).
  - vm_compute. reflexivity.
  - reflexivity.
  - reflexivity.
  - reflexivity.
  - reflexivity.
  - reflexivity.
  - vm_compute. reflexivity.
Defined.

(** A, bound to b1, switches to q1, a page of b2, and from then on sees
    what B draws there. *)
Lemma any_page_room_can_be_joined_witness :
  ∃ s' to,
    run sample_verify (after two_boards)
      [Recv "A" "page:switch"
         {| d_boardId := Some "b1"; d_pageId := Some "q1"; d_event := None;
            d_fields := [] |};
       Recv "B" "shape:add" (msg "b2" "q1"); DbCommit 0; Resume 0] = Some s' ∧
    last (srv_trace s')
      = Some (Broadcast "B" (page_room (Some "q1")) "shape:add"
                (WData (msg "b2" "q1")) to) ∧
    "A" ∈ to.
Proof.
  apply (any_page_room_can_be_joined sample_verify (after two_boards)
           "A" "B" "shape:add" "b2" "q1" sd_A
           {| sd_userId := Some "u2"; sd_boardId := "b2"; sd_pageId := Some "q1";
              sd_canEdit := true; sd_userName := Some "bob@example.org" |}
           (msg "b2" "q1")
           {| board_id := "b2"; board_ownerId := "u2" |}
           {| bp_id := "q1"; bp_boardId := "b2" |}).
  - vm_compute. reflexivity.
  - vm_compute. reflexivity.
  - discriminate.
  - reflexivity.
  - unfold shape_events. apply list_elem_of_here.
  - reflexivity.
  - reflexivity.
  - reflexivity.
  - vm_compute. reflexivity.
  - vm_compute. reflexivity.
Defined.

Lemma switch_without_page_id_is_never_undone_witness :
  ∃ s', run sample_verify (after two_on_p1)
          [Recv "A" "page:switch"
             {| d_boardId := Some "b1"; d_pageId := None; d_event := None;
                d_fields := [] |};
           Recv "A" "page:switch"
             {| d_boardId := Some "b1"; d_pageId := Some "p2"; d_event := None;
                d_fields := [] |}] = Some s' ∧
        srv_sockets s' !! "A" = Some (set_pageId sd_A (Some "p2")) ∧
        "A" ∈ members (srv_rooms s') "page:undefined" ∧
        "A" ∈ members (srv_rooms s') (page_room (Some "p2")).
Proof.
  apply (switch_without_page_id_is_never_undone sample_verify (after two_on_p1)
           "A" "p2" sd_A).
  - vm_compute. reflexivity.
  - reflexivity.
Defined.

Lemma handshake_needs_credential_witness :
  auth_boardId (bearer "tok1" "b1" "p1") = Some (sd_boardId sd_A) ∧
  truthy (auth_boardId (bearer "tok1" "b1" "p1")) = true ∧
  sd_pageId sd_A = auth_pageId (bearer "tok1" "b1" "p1") ∧
  ((∃ token user board,
      auth_token (bearer "tok1" "b1" "p1") = Some token ∧ truthy (Some token) = true ∧
      sample_verify token = Some (user_id user) ∧
      user ∈ users sample_db ∧ board ∈ boards sample_db ∧
      board_id board = sd_boardId sd_A ∧
      sd_userId sd_A = Some (user_id user))
   ∨
   (∃ link,
      truthy (auth_token (bearer "tok1" "b1" "p1")) = false ∧
      auth_shareToken (bearer "tok1" "b1" "p1") = Some (link_token link) ∧
      link ∈ shareLinks sample_db ∧
      link_boardId link = sd_boardId sd_A ∧
      sd_userId sd_A = None ∧
      sd_canEdit sd_A = link_canEdit link)).
Proof.
  apply (handshake_needs_credential sample_verify sample_db (bearer "tok1" "b1" "p1") sd_A).
  vm_compute. reflexivity.
Defined.

Lemma edit_capability_sound_witness :
  (∃ uid, sd_userId sd_A = Some uid ∧
     ((∃ board, board ∈ boards sample_db ∧ board_id board = sd_boardId sd_A ∧
                board_ownerId board = uid)
      ∨
      (∃ m, m ∈ memberships sample_db ∧ mem_userId m = uid ∧
            mem_boardId m = sd_boardId sd_A ∧
            (mem_role m = OWNER ∨ mem_role m = EDITOR))))
  ∨
  (sd_userId sd_A = None ∧
   ∃ link, link ∈ shareLinks sample_db ∧ link_boardId link = sd_boardId sd_A ∧
           auth_shareToken (bearer "tok1" "b1" "p1") = Some (link_token link) ∧
           link_canEdit link = true).
Proof.
  apply (edit_capability_sound sample_verify sample_db (bearer "tok1" "b1" "p1") sd_A).
  - vm_compute. reflexivity.
  - reflexivity.
Defined.

(** The fan-out of A's shape on p1 is addressed to the room its payload
    names. *)
Lemma broadcasts_are_routed_by_payload_witness :
  routed (Broadcast "A" "page:p1" "shape:add" (WData (msg "b1" "p1")) {["V"]}).
Proof.
  apply (broadcasts_are_routed_by_payload sample_verify sample_db
           (after (two_on_p1 ++
              [Recv "A" "shape:add" (msg "b1" "p1"); DbCommit 0; Resume 0])) 5).
  - exists (two_on_p1 ++ [Recv "A" "shape:add" (msg "b1" "p1"); DbCommit 0; Resume 0]).
    vm_compute. reflexivity.
  - vm_compute. reflexivity.
Defined.

(** The board page opens b1 on p1 for a user without stored profile. *)
Lemma board_page_handshake_refused_witness :
  ∃ k, SocketManager.socket
         (BoardView.socket_effect SocketManager.init "b1" true (Some "p1") None "#ff0000")
       = Some k ∧
       io_use sample_verify sample_db (cs_auth k) = Refused "Authentication failed".
Proof.
  apply (board_page_handshake_refused sample_verify sample_db SocketManager.init
           "b1" "#ff0000" (Some "p1") None).
  - intros k H. discriminate H.
  - reflexivity.
  - reflexivity.
  - reflexivity.
Defined.

(** A's browser asks for p2 under the wrong board, then under the right
    one. *)
Lemma refused_switch_is_not_retried_witness :
  let m := SocketManager.connect SocketManager.init (Some "tok1") None
             (Some "b1") (Some "p1") in
  let m1 := SocketManager.switchPage m "b2" "p2" in
  let m2 := SocketManager.switchPage m1 (sd_boardId sd_A) "p2" in
  deliver sample_verify (after two_on_p1) "A" (notices m m1)
    = Some (emit (after two_on_p1) "A" "error" (WText "Access denied")) ∧
  SocketManager.currentPageId m1 = Some "p2" ∧
  m2 = m1 ∧
  notices m1 m2 = [].
Proof.
  apply (refused_switch_is_not_retried sample_verify (after two_on_p1) "A" sd_A
           (SocketManager.connect SocketManager.init (Some "tok1") None
              (Some "b1") (Some "p1"))
           {| cs_auth := bearer "tok1" "b1" "p1"; cs_connected := false;
              cs_sent := [] |}
           "b2" "p2").
  - reflexivity.
  - vm_compute. discriminate.
  - vm_compute. reflexivity.
  - discriminate.
Defined.

Lemma switchPage_keeps_page_in_step_witness :
  let m := SocketManager.connect SocketManager.init (Some "tok1") None
             (Some "b1") (Some "p1") in
  let m1 := SocketManager.switchPage m (sd_boardId sd_A) "p2" in
  ∃ s1 sd1, deliver sample_verify (after two_on_p1) "A" (notices m m1) = Some s1 ∧
            srv_sockets s1 !! "A" = Some sd1 ∧
            SocketManager.currentPageId m1 = Some "p2" ∧
            sd_pageId sd1 = Some "p2".
Proof.
  apply (switchPage_keeps_page_in_step sample_verify (after two_on_p1) "A" sd_A
           (SocketManager.connect SocketManager.init (Some "tok1") None
              (Some "b1") (Some "p1"))
           {| cs_auth := bearer "tok1" "b1" "p1"; cs_connected := false;
              cs_sent := [] |}
           "p2").
  - reflexivity.
  - vm_compute. reflexivity.
  - reflexivity.
Defined.

(** The view that holds A's cursor, last seen at 1000, swept at 5000. *)
Lemma cursor_cleanup_exact_witness :
  CanvasPage.cursors (CanvasPage.cursor_cleanup 5000 sample_view)
  = List.filter (fun e => negb (CanvasPage.stale 5000 (snd e)))
      (CanvasPage.cursors sample_view) ∧
  NoDup (map fst (CanvasPage.cursors (CanvasPage.cursor_cleanup 5000 sample_view))).
Proof.
  apply (cursor_cleanup_exact 5000 sample_view [0; 1]).
  - vm_compute. reflexivity.
  - apply (bool_decide_unpack _). vm_compute. exact I.
Defined.

(** A's cursor arrives at 1000; the sweep of 4000 still finds it, 3000
    milliseconds old. *)
Lemma cursor_lifetime_witness :
  ∃ c, CanvasPage.lastSeen c = 1000%Z ∧
       CanvasPage.map_get "A"
         (CanvasPage.cursors
            (CanvasPage.cursor_cleanup 4000
               (CanvasPage.updateRemoteCursor 1000 blank_view "A")))
       = if (4000 - 1000 >? CanvasPage.staleThreshold)%Z then None else Some c.
Proof.
  apply (cursor_lifetime 1000 4000 blank_view []).
  - reflexivity.
  - reflexivity.
  - apply NoDup_nil. done.
Defined.

Lemma api_client_token_round_trip_witness :
  Rest.bearer_token (ApiClient.getHeaders (Some "tok1")) = Some "tok1" ∧
  Rest.asset_token (ApiClient.getHeaders (Some "tok1")) = Some "tok1".
Proof.
  apply (api_client_token_round_trip _ _). reflexivity.
Defined.

Lemma authenticate_sound_witness :
  ∃ h token,
    Some "Bearer tok1" = Some h ∧
    js_split space h !! 1 = Some token ∧
    truthy (Some token) = true ∧
    sample_verify token = Some (user_id ada) ∧
    ada ∈ users sample_db.
Proof.
  apply (authenticate_sound sample_verify sample_db (Some "Bearer tok1") ada).
  vm_compute. reflexivity.
Defined.

(** The header is [tok1], not [Bearer tok1]; the asset has 3 pages, or
    2147483648. *)
Lemma bare_token_splits_the_routes_witness :
  (Rest.authenticateToken sample_verify sample_db (Some "tok1")
     = inl (Rest.Respond 401 (Rest.BError "Access token required")) ∧
   Rest.post_asset sample_verify sample_db (Some "tok1") (Rest.FText "pdf")
     (Rest.FText "https://example.org/a.pdf") (Rest.FInt 3)
   = (Rest.Respond 201
        (Rest.BAsset {| Rest.asset_ownerId := "u1"; Rest.asset_kind := "pdf";
                        Rest.asset_url := "https://example.org/a.pdf";
                        Rest.asset_pageCount := Some 3%Z |}),
      Some {| Rest.asset_ownerId := "u1"; Rest.asset_kind := "pdf";
              Rest.asset_url := "https://example.org/a.pdf";
              Rest.asset_pageCount := Some 3%Z |})) ∧
  (Rest.authenticateToken sample_verify sample_db (Some "tok1")
     = inl (Rest.Respond 401 (Rest.BError "Access token required")) ∧
   Rest.post_asset sample_verify sample_db (Some "tok1") (Rest.FText "pdf")
     (Rest.FText "https://example.org/a.pdf") (Rest.FInt 2147483648)
   = (Rest.Respond 500 (Rest.BError "Failed to create asset"), None)).
Proof.
  split.
  - apply (bare_token_splits_the_routes sample_verify sample_db _ _ "u1" ada
             "pdf" "https://example.org/a.pdf" (Rest.FInt 3)); reflexivity.
  - apply (bare_token_splits_the_routes sample_verify sample_db _ _ "u1" ada
             "pdf" "https://example.org/a.pdf" (Rest.FInt 2147483648)); reflexivity.
Defined.

(** u3 has a token and no membership on b1. *)
Lemma non_member_rest_refuses_socket_accepts_witness :
  Rest.get_board sample_verify sample_db "b1"
    {| Rest.rq_authorization := ApiClient.getHeaders (Some "tok3");
       Rest.rq_query_t := None; Rest.rq_x_share_token := None |}
  = Rest.Respond 404 (Rest.BError "Board not found") ∧
  ∃ d, io_use sample_verify sample_db
         {| auth_token := Some "tok3"; auth_shareToken := None;
            auth_boardId := Some "b1"; auth_pageId := Some "p1" |} = Accepted d ∧
       sd_canEdit d = String.eqb (board_ownerId board1) "u3".
Proof.
  apply (non_member_rest_refuses_socket_accepts sample_verify sample_db
           _ _ "b1" "u3" eve board1 (Some "p1")).
  - reflexivity.
  - reflexivity.
  - reflexivity.
  - reflexivity.
  - reflexivity.
  - intros m Hm. cbn in Hm. rewrite !elem_of_cons, elem_of_nil in Hm.
    destruct Hm as [->|[->|[]]]; cbn; discriminate.
Defined.

(** The owner of b1 presents the token and the read-only link s1. *)
Lemma two_credentials_two_answers_witness :
  Rest.get_board sample_verify sample_db "b1"
    {| Rest.rq_authorization := ApiClient.getHeaders (Some "tok1");
       Rest.rq_query_t := Some "s1"; Rest.rq_x_share_token := None |}
  = Rest.Respond 200 (Rest.BBoard board1 false) ∧
  ∃ d, io_use sample_verify sample_db
         {| auth_token := Some "tok1"; auth_shareToken := Some "s1";
            auth_boardId := Some "b1"; auth_pageId := Some "p1" |} = Accepted d ∧
       sd_canEdit d = true.
Proof.
  apply (two_credentials_two_answers sample_verify sample_db _ _ "b1" "s1"
           "u1" ada board1
           {| link_token := "s1"; link_boardId := "b1"; link_canEdit := false |}
           (Some "p1")).
  - reflexivity.
  - reflexivity.
  - reflexivity.
  - reflexivity.
  - reflexivity.
  - reflexivity.
  - reflexivity.
  - reflexivity.
  - reflexivity.
Defined.

(** u3, a viewer of b1, asks for a link that edits. *)
Lemma any_member_can_mint_an_edit_link_witness :
  ∃ db',
    Rest.post_share sample_verify viewer_db "b1" (ApiClient.getHeaders (Some "tok3"))
      (Some true) "fresh"
      = (Rest.Respond 201
           (Rest.BShareLink
              {| link_token := "fresh"; link_boardId := "b1"; link_canEdit := true |}),
         db') ∧
    io_use sample_verify db'
      {| auth_token := None; auth_shareToken := Some "fresh";
         auth_boardId := Some "b1"; auth_pageId := Some "p1" |}
      = Accepted {| sd_userId := None; sd_boardId := "b1"; sd_pageId := Some "p1";
                    sd_canEdit := true; sd_userName := Some "Anonymous User" |}.
Proof.
  apply (any_member_can_mint_an_edit_link sample_verify viewer_db _ _ "b1"
           "fresh" "u3" eve board1
           {| mem_userId := "u3"; mem_boardId := "b1"; mem_role := VIEWER |}
           (Some "p1")).
  - reflexivity.
  - reflexivity.
  - reflexivity.
  - reflexivity.
  - reflexivity.
  - reflexivity.
  - reflexivity.
  - reflexivity.
Defined.

(** The owner of b1 deletes p2. *)
Lemma delete_page_keeps_a_page_witness :
  Rest.pages_of (Rest.remove_page sample_db "p2") "b1" ≠ [] ∧
  find_page (Rest.remove_page sample_db "p2") "p2" = None.
Proof.
  apply (delete_page_keeps_a_page sample_verify sample_db
           (Rest.remove_page sample_db "p2") "b1" "p2" (Some "Bearer tok1")).
  - apply (bool_decide_unpack _). vm_compute. exact I.
  - vm_compute. reflexivity.
Defined.

(** The owner of b1 names q1, the only page of b2, in a request on b1. *)
Lemma delete_page_reaches_other_boards_witness :
  Rest.delete_page sample_verify sample_db "b1" "q1"
      (ApiClient.getHeaders (Some "tok1"))
    = (Rest.Respond 204 Rest.BNone, Rest.remove_page sample_db "q1") ∧
  Rest.pages_of (Rest.remove_page sample_db "q1") "b2" = [] ∧
  Rest.pages_of (Rest.remove_page sample_db "q1") "b1" = Rest.pages_of sample_db "b1".
Proof.
  apply (delete_page_reaches_other_boards sample_verify sample_db _ _
           "b1" "b2" "q1" "u1" ada board1 {| bp_id := "q1"; bp_boardId := "b2" |}).
  - apply (bool_decide_unpack _). vm_compute. exact I.
  - reflexivity.
  - reflexivity.
  - reflexivity.
  - reflexivity.
  - reflexivity.
  - vm_compute. lia.
  - discriminate.
  - reflexivity.
  - reflexivity.
Defined.

(** The owner of b1 with the token alone. *)
Lemma rest_and_socket_grant_alike_witness :
  Rest.events_permission sample_verify sample_db "b1"
    (Rest.as_request (Some "tok1") None) = inr true
  ↔
  ∃ d, io_use sample_verify sample_db
         (Rest.as_handshake (Some "tok1") None "b1" (Some "p1")) = Accepted d ∧
       sd_canEdit d = true.
Proof.
  apply (rest_and_socket_grant_alike sample_verify sample_db (Some "tok1") None
           "b1" (Some "p1")).
  - reflexivity.
  - right. reflexivity.
  - intros t [= <-]. reflexivity.
Defined.

Lemma rest_events_are_board_level_witness :
  ∃ rows db',
    Rest.post_events sample_verify sample_db "b1"
      (Rest.as_request (Some "tok1") None) (Some [stroke; stroke])
      = (Rest.Respond 201 (Rest.BEvents rows), db') ∧
    boardEvents db' = boardEvents sample_db ++ rows ∧
    Forall2 (fun e row => ev_boardId row = "b1" ∧ ev_pageId row = None ∧
                          Some (ev_type row) = ce_type e ∧
                          ev_payload row = JEvent e) [stroke; stroke] rows.
Proof.
  apply (rest_events_are_board_level sample_verify sample_db "b1"
           (Rest.as_request (Some "tok1") None) [stroke; stroke] board1).
  - reflexivity.
  - reflexivity.
  - repeat constructor; by eexists.
Defined.

(** The owner of b1 puts p2 before p1. *)
Lemma reorder_then_list_witness :
  ∃ rows pages',
    Rest.reorder_pages sample_verify sample_db sample_pages "b1"
      (Some "Bearer tok1") (Some ["p2"; "p1"])
    = (Rest.Respond 200 (Rest.BPages rows), pages')
    ∧ map Rest.pr_id rows = ["p2"; "p1"]
    ∧ map Rest.pr_index rows = Z.of_nat <$> seq 0 (List.length ["p2"; "p1"])
    ∧ Rest.list_pages pages' "b1" = rows.
Proof.
  apply (reorder_then_list sample_verify sample_db sample_pages "b1"
           (Some "Bearer tok1") ada board1 ["p2"; "p1"]).
  - reflexivity.
  - reflexivity.
  - reflexivity.
  - apply (bool_decide_unpack _). vm_compute. exact I.
  - apply (bool_decide_unpack _). vm_compute. exact I.
  - intros q. split.
    + intros Hq. rewrite !elem_of_cons, elem_of_nil in Hq.
      destruct Hq as [->|[->|[]]].
      * exists (sample_page "p2" "b1" 1). split; [|done].
        unfold sample_pages. rewrite !elem_of_cons. auto.
      * exists (sample_page "p1" "b1" 0). split; [|done].
        unfold sample_pages. rewrite !elem_of_cons. auto.
    + intros (p & Hp & <- & Hb). unfold sample_pages in Hp.
      rewrite !elem_of_cons, elem_of_nil in Hp.
      destruct Hp as [->|[->|[->|[]]]]; cbn in *; try discriminate;
        rewrite !elem_of_cons; auto.
Defined.

(** u3 creates board b9. *)
Lemma created_board_opens_for_its_owner_witness :
  ∃ db',
    Rest.post_board sample_verify sample_db (ApiClient.getHeaders (Some "tok3"))
      (Some "Sketches") "b9"
      = (Rest.Respond 201 (Rest.BNewBoard {| board_id := "b9"; board_ownerId := "u3" |}),
         db') ∧
    Rest.get_board sample_verify db' "b9" (Rest.as_request (Some "tok3") None)
      = Rest.Respond 200 (Rest.BBoard {| board_id := "b9"; board_ownerId := "u3" |} true) ∧
    ∃ d, io_use sample_verify db' (Rest.as_handshake (Some "tok3") None "b9" None)
           = Accepted d ∧
         sd_userId d = Some "u3" ∧ sd_boardId d = "b9" ∧ sd_canEdit d = true.
Proof.
  apply (created_board_opens_for_its_owner sample_verify sample_db _ _ "b9" "u3" eve
           _ _ None).
  - reflexivity.
  - reflexivity.
  - reflexivity.
  - reflexivity.
  - reflexivity.
  - intros m Hm. cbn in Hm. rewrite !elem_of_cons, elem_of_nil in Hm.
    destruct Hm as [->|[->|[]]]; by eexists.
Defined.
